(** * akash_api: transaction construction, signing and broadcast

    A shallow embedding of [src/python/src/akash_api/transaction.py] and of
    the transaction methods of [src/python/src/akash_api/async_client.py].

    Python values are embedded as the inductive type [pyval]; a Python call
    that can raise returns a [res], whose [Raise] carries the exception.
    Network round trips are inputs: the HTTP response a coroutine awaits is a
    parameter of its model.  The nonce that [ecdsa.SigningKey.sign] draws from
    [os.urandom] is a parameter of the signing functions.

    The library functions the source calls are embedded by what they
    compute: [json.dumps], [base64.b64encode], [hashlib.sha256] (FIPS 180-4),
    ECDSA over secp256k1 as the [ecdsa] package implements it, [float] as
    IEEE 754 binary64 through [SpecFloat].

    The development also covers [Wallet.from_private_key], with
    [bytes.fromhex], RIPEMD-160 and the [bech32] package, the bid and lease
    pipelines and the REST queries of the asynchronous client, the
    synchronous client of [src/python/src/akash_api/client.py] and the gRPC
    client of [src/python/src/akash_api/grpc_client.py]. *)

From Stdlib Require Import ZArith List String Ascii Bool Lia Permutation.
From Stdlib Require Import Strings.Byte DecimalString DecimalZ SpecFloat.
Import ListNotations.

Local Open Scope string_scope.
Local Open Scope list_scope.
Local Open Scope Z_scope.

(* ------------------------------------------------------------------ *)
(** ** Exceptions and results *)

(** The exception classes the modelled code can raise: Python built-ins,
    the classes of [ecdsa] and [aiohttp] that reach the caller, and the two
    classes the repository declares itself ([AkashTransactionError] in
    transaction.py, [AkashAsyncClientError] in async_client.py).  The message
    is kept where the source formats one. *)
Inductive exn : Type :=
| TypeError (msg : string)
| ValueError
| KeyError (key : string)
| IndexError
| AttributeError
| OverflowError
| AssertionError
| JSONDecodeError
| ClientResponseError (status : Z)
| ClientConnectionError
| MalformedPointError
| RSZeroError
| AkashTransactionError (msg : string)
| AkashAsyncClientError (msg : string).

(** [type(e).__name__] *)
Definition exn_class (e : exn) : string :=
  match e with
  | TypeError _ => "TypeError"
  | ValueError => "ValueError"
  | KeyError _ => "KeyError"
  | IndexError => "IndexError"
  | AttributeError => "AttributeError"
  | OverflowError => "OverflowError"
  | AssertionError => "AssertionError"
  | JSONDecodeError => "JSONDecodeError"
  | ClientResponseError _ => "ClientResponseError"
  | ClientConnectionError => "ClientConnectionError"
  | MalformedPointError => "MalformedPointError"
  | RSZeroError => "RSZeroError"
  | AkashTransactionError _ => "AkashTransactionError"
  | AkashAsyncClientError _ => "AkashAsyncClientError"
  end.

Inductive res (A : Type) : Type :=
| Ok (a : A)
| Raise (e : exn).
Arguments Ok {A} a.
Arguments Raise {A} e.

Definition bind {A B : Type} (m : res A) (f : A -> res B) : res B :=
  match m with
  | Ok a => f a
  | Raise e => Raise e
  end.

Notation "x <- m ;; k" := (bind m (fun x => k))
  (at level 61, m at next level, right associativity).

(* ------------------------------------------------------------------ *)
(** ** Python values *)

(** A Python [str] is a Rocq [string] whose characters are the code points
    U+0000..U+00FF; [bytes] are lists of bytes.  A [dict] is the list of its
    items in insertion order, with [str] keys; [wf] states that the keys of
    every dict are distinct.  Floats do not occur in the documents the signer
    builds and are not part of [pyval]; the one float computation of the
    source (the fee) is modelled in [PyFloat] below. *)
Unset Elimination Schemes.
Inductive pyval : Type :=
| PNone
| PBool (b : bool)
| PInt (n : Z)
| PStr (s : string)
| PBytes (b : list byte)
| PList (l : list pyval)
| PDict (d : list (string * pyval)).
Set Elimination Schemes.

Definition pydict := list (string * pyval).

Module Py.

Definition dquote : ascii := "034"%char.
Definition squote : ascii := "039"%char.
Definition backslash : ascii := "092"%char.

Definition str1 (c : ascii) : string := String c EmptyString.

(** [sep.join(parts)] *)
Fixpoint join (sep : string) (parts : list string) : string :=
  match parts with
  | [] => EmptyString
  | [p] => p
  | p :: rest => (p ++ sep ++ join sep rest)%string
  end.

(** [str(n)] for an [int] of at most 4300 decimal digits, which is as
    far as the interpreter converts one without a change of its
    settings. *)
Definition str_of_int (n : Z) : string :=
  NilEmpty.string_of_int (Z.to_int n).

Definition hex_digit (n : N) : ascii :=
  if (n <? 10)%N then ascii_of_N (48 + n) else ascii_of_N (87 + n).

(** Two lower-case hexadecimal digits of a code point below 256. *)
Definition hex2 (c : ascii) : string :=
  let n := N_of_ascii c in
  String (hex_digit (n / 16)) (String (hex_digit (n mod 16)) EmptyString).

(** A text written with a backquote wherever it holds a double quote. *)
Fixpoint backquoted (s : string) : string :=
  match s with
  | EmptyString => EmptyString
  | String c s' => String (if Ascii.eqb c "`"%char then dquote else c) (backquoted s')
  end.

(** *** dict operations *)

Fixpoint dict_get (k : string) (d : pydict) : option pyval :=
  match d with
  | [] => None
  | (k', v) :: rest => if String.eqb k k' then Some v else dict_get k rest
  end.

Definition dict_mem (k : string) (d : pydict) : bool :=
  match dict_get k d with Some _ => true | None => false end.

(** [d[k] = v]: an existing key keeps its position, a new key goes last. *)
Fixpoint dict_set (k : string) (v : pyval) (d : pydict) : pydict :=
  match d with
  | [] => [(k, v)]
  | (k', v') :: rest =>
      if String.eqb k k' then (k', v) :: rest
      else (k', v') :: dict_set k v rest
  end.

Fixpoint uniq (l : list string) : bool :=
  match l with
  | [] => true
  | x :: rest => negb (existsb (String.eqb x) rest) && uniq rest
  end.

(** Every dict inside the value has pairwise distinct keys. *)
Fixpoint wf (v : pyval) : bool :=
  match v with
  | PList l => forallb wf l
  | PDict d => uniq (map fst d) && forallb (fun kv => wf (snd kv)) d
  | _ => true
  end.

(** [obj[key]] for a [str] key. *)
Definition getitem (obj : pyval) (key : string) : res pyval :=
  match obj with
  | PDict d =>
      match dict_get key d with
      | Some v => Ok v
      | None => Raise (KeyError key)
      end
  | PNone => Raise (TypeError "'NoneType' object is not subscriptable")
  | PBool _ => Raise (TypeError "'bool' object is not subscriptable")
  | PInt _ => Raise (TypeError "'int' object is not subscriptable")
  | PStr _ => Raise (TypeError "string indices must be integers")
  | PBytes _ => Raise (TypeError "byte indices must be integers or slices, not str")
  | PList _ => Raise (TypeError "list indices must be integers or slices, not str")
  end.

(** [obj[key] = v] for a [str] key. *)
Definition setitem (obj : pyval) (key : string) (v : pyval) : res pyval :=
  match obj with
  | PDict d => Ok (PDict (dict_set key v d))
  | PList _ => Raise (TypeError "list indices must be integers or slices, not str")
  | _ => Raise (TypeError "object does not support item assignment")
  end.

(** [obj.get(key, default)] *)
Definition get (obj : pyval) (key : string) (default : pyval) : res pyval :=
  match obj with
  | PDict d =>
      match dict_get key d with
      | Some v => Ok v
      | None => Ok default
      end
  | _ => Raise AttributeError
  end.

Fixpoint is_prefix (p s : string) : bool :=
  match p, s with
  | EmptyString, _ => true
  | String a p', String b s' => Ascii.eqb a b && is_prefix p' s'
  | String _ _, EmptyString => false
  end.

Fixpoint is_substring (p s : string) : bool :=
  is_prefix p s ||
  match s with
  | EmptyString => false
  | String _ s' => is_substring p s'
  end.

(** [key in obj] for a [str] key. *)
Definition contains (key : string) (obj : pyval) : res bool :=
  match obj with
  | PDict d => Ok (dict_mem key d)
  | PList l =>
      Ok (existsb (fun v => match v with
                            | PStr s => String.eqb s key
                            | _ => false
                            end) l)
  | PStr s => Ok (is_substring key s)
  | PBytes _ => Raise (TypeError "a bytes-like object is required, not 'str'")
  | PNone => Raise (TypeError "argument of type 'NoneType' is not iterable")
  | PBool _ => Raise (TypeError "argument of type 'bool' is not iterable")
  | PInt _ => Raise (TypeError "argument of type 'int' is not iterable")
  end.

(** [s.replace(old, new)]: every non-overlapping occurrence, left to right.
    [skip] counts the characters of a match still to be dropped. *)
Fixpoint replace_from (old new : string) (skip : nat) (s : string) : string :=
  match s with
  | EmptyString => EmptyString
  | String c s' =>
      match skip with
      | S n => replace_from old new n s'
      | O =>
          if is_prefix old s
          then (new ++ replace_from old new (String.length old - 1) s')%string
          else String c (replace_from old new 0 s')
      end
  end.

(** [old] is not empty at the two call sites of the source. *)
Definition replace (s old new : string) : string :=
  replace_from old new 0 s.

(** Stripping the characters that satisfy [p] from either end. *)
Fixpoint rstrip_if (p : ascii -> bool) (s : string) : string :=
  match s with
  | EmptyString => EmptyString
  | String a s' =>
      match rstrip_if p s' with
      | EmptyString => if p a then EmptyString else str1 a
      | t => String a t
      end
  end.

Fixpoint lstrip_if (p : ascii -> bool) (s : string) : string :=
  match s with
  | EmptyString => EmptyString
  | String a s' => if p a then lstrip_if p s' else s
  end.

(** [s.rstrip(c)] for a single character [c]. *)
Definition rstrip_char (c : ascii) (s : string) : string :=
  rstrip_if (Ascii.eqb c) s.

Definition byte_of_N (n : N) : byte :=
  match Byte.of_N n with
  | Some b => b
  | None => x00
  end.

(** UTF-8 of one code point below U+0100: one byte up to U+007F, two
    bytes above. *)
Definition encode_char (c : ascii) : list byte :=
  let n := N_of_ascii c in
  if (n <? 128)%N then [byte_of_N n]
  else [byte_of_N (192 + n / 64); byte_of_N (128 + n mod 64)].

(** [s.encode()] *)
Fixpoint encode (s : string) : list byte :=
  match s with
  | EmptyString => []
  | String c s' => encode_char c ++ encode s'
  end.

(** [b.decode()] on the UTF-8 of code points below U+0100; other byte
    sequences are not decoded by this model and end the text. *)
Fixpoint decode (b : list byte) : string :=
  match b with
  | [] => EmptyString
  | x :: rest =>
      let n := Byte.to_N x in
      if (n <? 128)%N then String (ascii_of_N n) (decode rest)
      else
        match rest with
        | y :: rest' =>
            String (ascii_of_N ((n - 192) * 64 + (Byte.to_N y - 128))) (decode rest')
        | [] => EmptyString
        end
  end.

(** *** Subscript chains, [obj[i][j]...] *)

Inductive index : Type :=
| Key (k : string)
| Idx (i : nat).

Definition subscript (obj : pyval) (i : index) : res pyval :=
  match i with
  | Key k => getitem obj k
  | Idx n =>
      match obj with
      | PList l =>
          match nth_error l n with
          | Some v => Ok v
          | None => Raise IndexError
          end
      | PDict _ => Raise (KeyError (str_of_int (Z.of_nat n)))
      | _ => Raise (TypeError "object is not subscriptable")
      end
  end.

Fixpoint at_path (obj : pyval) (path : list index) : res pyval :=
  match path with
  | [] => Ok obj
  | i :: rest => v <- subscript obj i ;; at_path v rest
  end.

(** Two values with the same content: equal scalars, lists equal item
    by item, dicts with the same number of items and, under every key of
    the first, a value of the second with the same content.  The order in
    which a dict received its keys does not count. *)
Fixpoint same_content (a b : pyval) {struct a} : bool :=
  match a, b with
  | PNone, PNone => true
  | PBool x, PBool y => Bool.eqb x y
  | PInt x, PInt y => Z.eqb x y
  | PStr x, PStr y => String.eqb x y
  | PBytes x, PBytes y =>
      (fix go (l1 l2 : list byte) : bool :=
         match l1, l2 with
         | [], [] => true
         | u :: l1', v :: l2' => Byte.eqb u v && go l1' l2'
         | _, _ => false
         end) x y
  | PList l1, PList l2 =>
      (fix go (l1 l2 : list pyval) : bool :=
         match l1, l2 with
         | [], [] => true
         | u :: l1', v :: l2' => same_content u v && go l1' l2'
         | _, _ => false
         end) l1 l2
  | PDict d1, PDict d2 =>
      Nat.eqb (List.length d1) (List.length d2)
      && (fix go (d : list (string * pyval)) : bool :=
            match d with
            | [] => true
            | kv :: d' =>
                match dict_get (fst kv) d2 with
                | Some v' => same_content (snd kv) v'
                | None => false
                end && go d'
            end) d1
  | _, _ => false
  end.

(** *** [repr] and [str] *)

Definition in_range (lo hi : N) (c : ascii) : bool :=
  let n := N_of_ascii c in ((lo <=? n) && (n <=? hi))%N.

(** [c.isprintable()] on U+0000..U+00FF: the C0 and C1 controls, DEL,
    the no-break space and the soft hyphen are not printable. *)
Definition printable (c : ascii) : bool :=
  in_range 32 126 c || (in_range 161 255 c && negb (in_range 173 173 c)).

Fixpoint has_char (c : ascii) (s : string) : bool :=
  match s with
  | EmptyString => false
  | String a s' => Ascii.eqb a c || has_char c s'
  end.

(** The quote [repr] chooses: double quotes only when the text holds a
    single quote and no double quote. *)
Definition repr_quote (s : string) : ascii :=
  if has_char squote s && negb (has_char dquote s) then dquote else squote.

Definition repr_char (wide : bool) (quote c : ascii) : string :=
  if Ascii.eqb c quote || Ascii.eqb c backslash then String backslash (str1 c)
  else if Ascii.eqb c "009"%char then "\t"
  else if Ascii.eqb c "010"%char then "\n"
  else if Ascii.eqb c "013"%char then "\r"
  else if (if wide then printable c else in_range 32 126 c) then str1 c
  else ("\x" ++ hex2 c)%string.

Fixpoint repr_chars (wide : bool) (quote : ascii) (s : string) : string :=
  match s with
  | EmptyString => EmptyString
  | String c s' => (repr_char wide quote c ++ repr_chars wide quote s')%string
  end.

(** [repr(s)] for a [str]. *)
Definition repr_str (s : string) : string :=
  let q := repr_quote s in
  (String q (repr_chars true q s) ++ str1 q)%string.

Definition string_of_bytes (b : list byte) : string :=
  string_of_list_ascii (map ascii_of_byte b).

(** [repr(b)] for [bytes]. *)
Definition repr_bytes (b : list byte) : string :=
  let s := string_of_bytes b in
  let q := repr_quote s in
  ("b" ++ String q (repr_chars false q s) ++ str1 q)%string.

Fixpoint repr (v : pyval) : string :=
  match v with
  | PNone => "None"
  | PBool true => "True"
  | PBool false => "False"
  | PInt n => str_of_int n
  | PStr s => repr_str s
  | PBytes b => repr_bytes b
  | PList l => ("[" ++ join ", " (map repr l) ++ "]")%string
  | PDict d =>
      ("{" ++ join ", " (map (fun kv => (repr_str (fst kv) ++ ": " ++ repr (snd kv))%string) d)
           ++ "}")%string
  end.

(** [str(v)], which is also what an f-string field formats. *)
Definition str (v : pyval) : string :=
  match v with
  | PStr s => s
  | _ => repr v
  end.

(** *** [int(x)] *)

(** The white space that [int] and [float] strip from a [str] of
    characters below U+0100 (U+0009..U+000D, the space, U+0085 and
    U+00A0; the separators U+001C..U+001F are not stripped), and the
    ASCII white space that [int] strips from [bytes]. *)
Definition is_space (c : ascii) : bool :=
  in_range 9 13 c || in_range 32 32 c || in_range 133 133 c || in_range 160 160 c.

Definition is_space_ascii (c : ascii) : bool :=
  in_range 9 13 c || in_range 32 32 c.

Definition is_digit (c : ascii) : bool := in_range 48 57 c.

Definition digit_value (c : ascii) : Z := Z.of_N (N_of_ascii c) - 48.

(** Decimal digits, a single underscore allowed between two digits. *)
Fixpoint digits_value (acc : Z) (after_digit : bool) (s : string) : option Z :=
  match s with
  | EmptyString => if after_digit then Some acc else None
  | String c s' =>
      if is_digit c then digits_value (10 * acc + digit_value c) true s'
      else if Ascii.eqb c "_"%char
           then (if after_digit then digits_value acc false s' else None)
           else None
  end.

(** [sys.get_int_max_str_digits()] as the interpreter starts with it. *)
Definition int_max_str_digits : Z := 4300.

(** The digits of a text; signs, underscores and white space do not
    count. *)
Fixpoint count_digits (s : string) : Z :=
  match s with
  | EmptyString => 0
  | String c s' => (if is_digit c then 1 else 0) + count_digits s'
  end.

(** A text that is no number, or one of more than [int_max_str_digits]
    digits, leading zeros included, is a [ValueError]. *)
Definition int_of_text (space : ascii -> bool) (s : string) : res Z :=
  let t := lstrip_if space (rstrip_if space s) in
  let '(neg, body) :=
    match t with
    | String c t' =>
        if Ascii.eqb c "-"%char then (true, t')
        else if Ascii.eqb c "+"%char then (false, t')
        else (false, t)
    | EmptyString => (false, t)
    end in
  match digits_value 0 false body with
  | Some n =>
      if int_max_str_digits <? count_digits body then Raise ValueError
      else Ok (if neg then - n else n)
  | None => Raise ValueError
  end.

(** [int(v)] *)
Definition int (v : pyval) : res Z :=
  match v with
  | PInt n => Ok n
  | PBool b => Ok (if b then 1 else 0)
  | PStr s => int_of_text is_space s
  | PBytes b => int_of_text is_space_ascii (string_of_bytes b)
  | PNone =>
      Raise (TypeError "int() argument must be a string, a bytes-like object or a real number, not 'NoneType'")
  | PList _ =>
      Raise (TypeError "int() argument must be a string, a bytes-like object or a real number, not 'list'")
  | PDict _ =>
      Raise (TypeError "int() argument must be a string, a bytes-like object or a real number, not 'dict'")
  end.

End Py.

(* ------------------------------------------------------------------ *)
(** ** [json.dumps] *)

Module Json.

(** One character of a string literal with [ensure_ascii=True]: the two
    characters of [ESCAPE_DCT] written with a backslash, the short escapes,
    and every other character outside [' '..'~'] as a 4-digit escape. *)
Definition escape_char (c : ascii) : string :=
  if Ascii.eqb c Py.dquote || Ascii.eqb c Py.backslash
  then String Py.backslash (Py.str1 c)
  else if Ascii.eqb c "010"%char then "\n"
  else if Ascii.eqb c "013"%char then "\r"
  else if Ascii.eqb c "009"%char then "\t"
  else if Ascii.eqb c "008"%char then "\b"
  else if Ascii.eqb c "012"%char then "\f"
  else if Py.in_range 32 126 c then Py.str1 c
  else ("\u00" ++ Py.hex2 c)%string.

Fixpoint escape (s : string) : string :=
  match s with
  | EmptyString => EmptyString
  | String c s' => (escape_char c ++ escape s')%string
  end.

Definition quote (s : string) : string :=
  (String Py.dquote (escape s) ++ Py.str1 Py.dquote)%string.

(** [sorted(dct.items())]: the keys of a dict are distinct, so the order
    is the code-point order of the keys. *)
Fixpoint insert_item {A : Type} (kv : string * A) (l : list (string * A))
  : list (string * A) :=
  match l with
  | [] => [kv]
  | kv' :: rest =>
      if String.leb (fst kv) (fst kv') then kv :: l
      else kv' :: insert_item kv rest
  end.

Fixpoint sort_items {A : Type} (l : list (string * A)) : list (string * A) :=
  match l with
  | [] => []
  | kv :: rest => insert_item kv (sort_items rest)
  end.

(** [bytes] is the one type of [pyval] the default encoder refuses. *)
Fixpoint serializable (v : pyval) : bool :=
  match v with
  | PBytes _ => false
  | PList l => forallb serializable l
  | PDict d => forallb (fun kv => serializable (snd kv)) d
  | _ => true
  end.

(** The text [json.dumps] writes for a serializable value; [isep] and
    [ksep] are the item and key separators. *)
Fixpoint text (sort_keys : bool) (isep ksep : string) (v : pyval) : string :=
  match v with
  | PNone => "null"
  | PBool true => "true"
  | PBool false => "false"
  | PInt n => Py.str_of_int n
  | PStr s => quote s
  | PBytes _ => EmptyString
  | PList l => ("[" ++ Py.join isep (map (text sort_keys isep ksep) l) ++ "]")%string
  | PDict d =>
      let items := map (fun kv => (fst kv, text sort_keys isep ksep (snd kv))) d in
      let items := if sort_keys then sort_items items else items in
      ("{" ++ Py.join isep (map (fun kt => (quote (fst kt) ++ ksep ++ snd kt)%string) items)
           ++ "}")%string
  end.

Definition not_serializable : exn :=
  TypeError "Object of type bytes is not JSON serializable".

(** [json.dumps(obj, sort_keys=..., separators=(isep, ksep))] *)
Definition dumps_with (sort_keys : bool) (isep ksep : string) (obj : pyval)
  : res string :=
  if serializable obj then Ok (text sort_keys isep ksep obj)
  else Raise not_serializable.

(** What decides the outcome of [dumps_with] with [sort_keys=True]. *)
Definition canon (isep ksep : string) (v : pyval) : bool * string :=
  (serializable v, text true isep ksep v).

(** The default separators are [(', ', ': ')]. *)
Definition dumps (sort_keys : bool) (obj : pyval) : res string :=
  dumps_with sort_keys ", " ": " obj.

End Json.

(* ------------------------------------------------------------------ *)
(** ** [base64.b64encode] *)

Module Base64.

(** The character of a 6-bit group in the standard alphabet. *)
Definition alphabet (n : N) : ascii :=
  if (n <? 26)%N then ascii_of_N (65 + n)
  else if (n <? 52)%N then ascii_of_N (71 + n)
  else if (n <? 62)%N then ascii_of_N (n - 4)
  else if (n =? 62)%N then "+"%char
  else "/"%char.

(** [base64.b64encode(b).decode()]: the output is ASCII, so decoding it
    is the identity on its characters. *)
Fixpoint b64encode (b : list byte) : string :=
  match b with
  | [] => EmptyString
  | [x] =>
      let n := Byte.to_N x in
      String (alphabet (n / 4))
        (String (alphabet ((n mod 4) * 16)) "==")
  | [x; y] =>
      let n := Byte.to_N x in
      let m := Byte.to_N y in
      String (alphabet (n / 4))
        (String (alphabet ((n mod 4) * 16 + m / 16))
           (String (alphabet ((m mod 16) * 4)) "="))
  | x :: y :: z :: rest =>
      let n := Byte.to_N x in
      let m := Byte.to_N y in
      let o := Byte.to_N z in
      String (alphabet (n / 4))
        (String (alphabet ((n mod 4) * 16 + m / 16))
           (String (alphabet ((m mod 16) * 4 + o / 64))
              (String (alphabet (o mod 64)) (b64encode rest))))
  end.

End Base64.

(* ------------------------------------------------------------------ *)
(** ** [hashlib.sha256] (FIPS 180-4), on 32-bit words held in [Z] *)

Module Sha256.

Definition modulus : Z := 4294967296.

Definition wrap (x : Z) : Z := x mod modulus.

Definition add32 (x y : Z) : Z := wrap (x + y).

Definition rotr (k x : Z) : Z :=
  Z.lor (Z.shiftr x k) (wrap (Z.shiftl x (32 - k))).

Definition not32 (x : Z) : Z := modulus - 1 - x.

Definition choose (e f g : Z) : Z :=
  Z.lxor (Z.land e f) (Z.land (not32 e) g).

Definition majority (a b c : Z) : Z :=
  Z.lxor (Z.lxor (Z.land a b) (Z.land a c)) (Z.land b c).

Definition big_sigma0 (a : Z) : Z :=
  Z.lxor (Z.lxor (rotr 2 a) (rotr 13 a)) (rotr 22 a).

Definition big_sigma1 (e : Z) : Z :=
  Z.lxor (Z.lxor (rotr 6 e) (rotr 11 e)) (rotr 25 e).

Definition small_sigma0 (x : Z) : Z :=
  Z.lxor (Z.lxor (rotr 7 x) (rotr 18 x)) (Z.shiftr x 3).

Definition small_sigma1 (x : Z) : Z :=
  Z.lxor (Z.lxor (rotr 17 x) (rotr 19 x)) (Z.shiftr x 10).

(** Round constants, in decimal. *)
Definition round_constants : list Z :=
  [1116352408; 1899447441; 3049323471; 3921009573; 961987163; 1508970993;
   2453635748; 2870763221; 3624381080; 310598401; 607225278; 1426881987;
   1925078388; 2162078206; 2614888103; 3248222580; 3835390401; 4022224774;
   264347078; 604807628; 770255983; 1249150122; 1555081692; 1996064986;
   2554220882; 2821834349; 2952996808; 3210313671; 3336571891; 3584528711;
   113926993; 338241895; 666307205; 773529912; 1294757372; 1396182291;
   1695183700; 1986661051; 2177026350; 2456956037; 2730485921; 2820302411;
   3259730800; 3345764771; 3516065817; 3600352804; 4094571909; 275423344;
   430227734; 506948616; 659060556; 883997877; 958139571; 1322822218;
   1537002063; 1747873779; 1955562222; 2024104815; 2227730452; 2361852424;
   2428436474; 2756734187; 3204031479; 3329325298].

Definition initial_state : list Z :=
  [1779033703; 3144134277; 1013904242; 2773480762;
   1359893119; 2600822924; 528734635; 1541459225].

Definition byte_val (b : byte) : Z := Z.of_N (Byte.to_N b).

(** The low byte of a number. *)
Definition low_byte (x : Z) : byte :=
  match Byte.of_N (Z.to_N (x mod 256)) with
  | Some b => b
  | None => x00
  end.

(** [len] bytes of [x], most significant first. *)
Fixpoint to_bytes_be (len : nat) (x : Z) : list byte :=
  match len with
  | O => []
  | S len' => to_bytes_be len' (x / 256) ++ [low_byte x]
  end.

Definition of_bytes_be (b : list byte) : Z :=
  fold_left (fun acc x => acc * 256 + byte_val x) b 0.

(** The message, a one bit, zeros up to 56 modulo 64, then the bit length
    on 8 bytes. *)
Definition pad (msg : list byte) : list byte :=
  let len := Z.of_nat (List.length msg) in
  msg ++ [x80] ++ repeat x00 (Z.to_nat ((55 - len) mod 64))
      ++ to_bytes_be 8 (8 * len).

(** Big-endian 32-bit words of a byte string; a tail shorter than four
    bytes does not occur after padding. *)
Fixpoint words (b : list byte) : list Z :=
  match b with
  | b0 :: b1 :: b2 :: b3 :: rest => of_bytes_be [b0; b1; b2; b3] :: words rest
  | _ => []
  end.

(** Appends [count] words to a schedule that holds at least sixteen. *)
Fixpoint extend (count : nat) (w : list Z) : list Z :=
  match count with
  | O => w
  | S count' =>
      let t := List.length w in
      let at_back k := nth (t - k) w 0 in
      let next :=
        add32 (add32 (small_sigma1 (at_back 2%nat)) (at_back 7%nat))
              (add32 (small_sigma0 (at_back 15%nat)) (at_back 16%nat)) in
      extend count' (w ++ [next])
  end.

Definition schedule (block : list Z) : list Z := extend 48 block.

Record regs : Type :=
  mk_regs { ra : Z; rb : Z; rc : Z; rd : Z; re : Z; rf : Z; rg : Z; rh : Z }.

Definition round (s : regs) (kw : Z * Z) : regs :=
  let t1 :=
    add32 (add32 (add32 (rh s) (big_sigma1 (re s)))
                 (add32 (choose (re s) (rf s) (rg s)) (fst kw))) (snd kw) in
  let t2 := add32 (big_sigma0 (ra s)) (majority (ra s) (rb s) (rc s)) in
  mk_regs (add32 t1 t2) (ra s) (rb s) (rc s) (add32 (rd s) t1) (re s) (rf s) (rg s).

Definition regs_of_list (l : list Z) : regs :=
  mk_regs (nth 0 l 0) (nth 1 l 0) (nth 2 l 0) (nth 3 l 0)
          (nth 4 l 0) (nth 5 l 0) (nth 6 l 0) (nth 7 l 0).

Definition list_of_regs (s : regs) : list Z :=
  [ra s; rb s; rc s; rd s; re s; rf s; rg s; rh s].

Definition compress (h : list Z) (block : list Z) : list Z :=
  let final :=
    fold_left round (combine round_constants (schedule block)) (regs_of_list h) in
  map (fun xy => add32 (fst xy) (snd xy)) (combine h (list_of_regs final)).

(** Consumes the padded words sixteen at a time; [blocks] bounds the
    number of blocks. *)
Fixpoint absorb (blocks : nat) (h : list Z) (w : list Z) : list Z :=
  match blocks with
  | O => h
  | S blocks' =>
      match w with
      | [] => h
      | _ => absorb blocks' (compress h (firstn 16 w)) (skipn 16 w)
      end
  end.

(** [hashlib.sha256(msg).digest()] *)
Definition digest (msg : list byte) : list byte :=
  let w := words (pad msg) in
  flat_map (to_bytes_be 4) (absorb (S (List.length w / 16)) initial_state w).

End Sha256.

(* ------------------------------------------------------------------ *)
(** ** The curve secp256k1 and [ecdsa.SigningKey] *)

Module Ecdsa.

(** Field prime, group order and generator of [ecdsa.SECP256k1]. *)
Definition field_p : Z :=
  115792089237316195423570985008687907853269984665640564039457584007908834671663.
Definition order : Z :=
  115792089237316195423570985008687907852837564279074904382605163141518161494337.
Definition gen_x : Z :=
  55066263022277343669578718895168534326250603453777594175500187360389116729240.
Definition gen_y : Z :=
  32670510020758816978083085130507043184471273380659243275938904335757337482424.

(** [curve.baselen] *)
Definition baselen : nat := 32.

Inductive point : Type :=
| Infinity
| Affine (x y : Z).

Definition generator : point := Affine gen_x gen_y.

(** Extended Euclid on the remainders [r0], [r1] with the coefficients
    [s0], [s1] of the inverted number; two steps at least halve the
    remainder, which bounds the number of steps. *)
Fixpoint euclid (steps : nat) (r0 r1 s0 s1 : Z) : Z :=
  match steps with
  | O => s0
  | S steps' =>
      if r1 =? 0 then s0
      else
        let (q, r) := Z.div_eucl r0 r1 in
        euclid steps' r1 r s1 (s0 - q * s1)
  end.

(** [numbertheory.inverse_mod(a, m)] *)
Definition inverse_mod (a m : Z) : Z :=
  (euclid (Z.to_nat (2 * Z.log2 m + 2)) (a mod m) m 1 0) mod m.

Definition double (P : point) : point :=
  match P with
  | Infinity => Infinity
  | Affine x y =>
      if y =? 0 then Infinity
      else
        let l := (3 * x * x * inverse_mod (2 * y) field_p) mod field_p in
        let x3 := (l * l - 2 * x) mod field_p in
        Affine x3 ((l * (x - x3) - y) mod field_p)
  end.

Definition add (P Q : point) : point :=
  match P, Q with
  | Infinity, _ => Q
  | _, Infinity => P
  | Affine x1 y1, Affine x2 y2 =>
      if x1 =? x2 then
        if (y1 + y2) mod field_p =? 0 then Infinity else double P
      else
        let l := ((y2 - y1) * inverse_mod (x2 - x1) field_p) mod field_p in
        let x3 := (l * l - x1 - x2) mod field_p in
        Affine x3 ((l * (x1 - x3) - y1) mod field_p)
  end.

Fixpoint mul_pos (k : positive) (P : point) : point :=
  match k with
  | xH => P
  | xO k' => double (mul_pos k' P)
  | xI k' => add P (double (mul_pos k' P))
  end.

(** [k * P] *)
Definition mul (k : Z) (P : point) : point :=
  match k with
  | Zpos k' => mul_pos k' P
  | _ => Infinity
  end.

(** [ecdsa.util.string_to_number] and [number_to_string(x, order)] *)
Definition string_to_number (b : list byte) : Z := Sha256.of_bytes_be b.
Definition number_to_string (x : Z) : list byte := Sha256.to_bytes_be baselen x.

Record SigningKey : Type := { secret_multiplier : Z }.

(** [SigningKey.from_string(string, curve=SECP256k1)] *)
Definition from_string (s : list byte) : res SigningKey :=
  if negb (Nat.eqb (List.length s) baselen) then Raise MalformedPointError
  else
    let secexp := string_to_number s in
    if (1 <=? secexp) && (secexp <? order)
    then Ok {| secret_multiplier := secexp |}
    else Raise MalformedPointError.

(** [Private_key.sign(hash, k)]: the pair [(r, s)].  The library adds a
    multiple of the order to [k] before the multiplication to fix its bit
    length; the point is the same. *)
Definition sign_number (key : SigningKey) (number k : Z) : res (Z * Z) :=
  if negb ((1 <=? k) && (k <? order)) then Raise AssertionError
  else
    match mul (k mod order) generator with
    | Infinity => Raise (TypeError "unsupported operand type(s) for %: 'NoneType' and 'int'")
    | Affine x _ =>
        let r := x mod order in
        if r =? 0 then Raise RSZeroError
        else
          let s :=
            (inverse_mod (k mod order) order
             * (number + (secret_multiplier key * r) mod order)) mod order in
          if s =? 0 then Raise RSZeroError
          else Ok (r, s)
    end.

(** The [r] of every signature made with the nonce [k]: the abscissa of
    [k * G], reduced modulo the order. *)
Definition nonce_r (k : Z) : Z :=
  match mul (k mod order) generator with
  | Infinity => 0
  | Affine x _ => x mod order
  end.

(** [sigencode_string(r, s, order)] *)
Definition sigencode_string (rs : Z * Z) : list byte :=
  number_to_string (fst rs) ++ number_to_string (snd rs).

(** [signing_key.sign(data, hashfunc=hashlib.sha256)] when the nonce the
    library draws with [randrange(order)] from [os.urandom] is [k]: the
    data is hashed, the 32-byte digest read as a number, and the pair
    written as two 32-byte big-endian numbers. *)
Definition sign (key : SigningKey) (data : list byte) (k : Z) : res (list byte) :=
  let number := string_to_number (Sha256.digest data) in
  rs <- sign_number key number k ;;
  Ok (sigencode_string rs).

End Ecdsa.

(* ------------------------------------------------------------------ *)
(** ** Python [float]: IEEE 754 binary64, as [spec_float] *)

Module PyFloat.

Definition prec : Z := 53.
Definition emax : Z := 1024.

Definition lower (c : ascii) : ascii :=
  if Py.in_range 65 90 c then ascii_of_N (N_of_ascii c + 32) else c.

Fixpoint lower_str (s : string) : string :=
  match s with
  | EmptyString => EmptyString
  | String c s' => String (lower c) (lower_str s')
  end.

(** A run of decimal digits continuing the number [acc]; an underscore
    may stand between two digits only.  Returns the number, how many
    digits were read and the rest of the text. *)
Fixpoint scan_digits (acc count : Z) (after_digit : bool) (s : string)
  : option (Z * Z * string) :=
  match s with
  | EmptyString => Some (acc, count, s)
  | String c s' =>
      if Py.is_digit c
      then scan_digits (10 * acc + Py.digit_value c) (count + 1) true s'
      else if Ascii.eqb c "_"%char then
        match after_digit, s' with
        | true, String c' _ =>
            if Py.is_digit c' then scan_digits acc count false s' else None
        | _, _ => None
        end
      else Some (acc, count, s)
  end.

Definition split_sign (s : string) : bool * string :=
  match s with
  | String c s' =>
      if Ascii.eqb c "-"%char then (true, s')
      else if Ascii.eqb c "+"%char then (false, s')
      else (false, s)
  | EmptyString => (false, s)
  end.

(** [digitpart ["." [digitpart]] | "." digitpart], then an optional
    exponent: the mantissa, the decimal exponent and the number of
    mantissa digits. *)
Definition parse_decimal (s : string) : option (Z * Z * Z) :=
  match scan_digits 0 0 false s with
  | None => None
  | Some (ip, ni, r1) =>
      let frac :=
        match r1 with
        | String c r2 =>
            if Ascii.eqb c "."%char then scan_digits ip 0 false r2
            else Some (ip, 0, r1)
        | EmptyString => Some (ip, 0, r1)
        end in
      match frac with
      | None => None
      | Some (mant, nf, r3) =>
          if ni + nf =? 0 then None
          else
            match r3 with
            | EmptyString => Some (mant, - nf, ni + nf)
            | String c r4 =>
                if Ascii.eqb (lower c) "e"%char then
                  let '(eneg, r5) := split_sign r4 in
                  match scan_digits 0 0 false r5 with
                  | Some (ev, ne, EmptyString) =>
                      if ne =? 0 then None
                      else Some (mant, (if eneg then - ev else ev) - nf, ni + nf)
                  | _ => None
                  end
                else None
            end
      end
  end.

(** The double nearest to [mant * 10 ^ exp10], ties to even.  A number
    of [nd] digits with [exp10 > 400] overflows and one with
    [exp10 + nd < -400] rounds to zero; in between the integer or the
    quotient is rounded by the functions that specify binary64. *)
Definition of_decimal (neg : bool) (mant exp10 nd : Z) : spec_float :=
  match mant with
  | Zpos m =>
      if 400 <? exp10 then S754_infinity neg
      else if exp10 + nd <? -400 then S754_zero neg
      else if 0 <=? exp10
      then binary_round prec emax neg (Z.to_pos (Zpos m * 10 ^ exp10)) 0
      else
        let '(q, e, l) :=
          SFdiv_core_binary prec emax (Zpos m) 0 (10 ^ (- exp10)) 0 in
        binary_round_aux prec emax neg q e l
  | _ => S754_zero neg
  end.

(** [float(s)] for a [str] *)
Definition of_string (s : string) : res spec_float :=
  let t := Py.lstrip_if Py.is_space (Py.rstrip_if Py.is_space s) in
  let '(neg, body) := split_sign t in
  let word := lower_str body in
  if String.eqb word "inf" || String.eqb word "infinity" then Ok (S754_infinity neg)
  else if String.eqb word "nan" then Ok S754_nan
  else
    match parse_decimal body with
    | Some (mant, exp10, nd) => Ok (of_decimal neg mant exp10 nd)
    | None => Raise ValueError
    end.

(** The conversion of an [int] operand of a float operation: the nearest
    double, [OverflowError] beyond the largest one. *)
Definition of_int (n : Z) : res spec_float :=
  match binary_normalize prec emax n 0 false with
  | S754_infinity _ => Raise OverflowError
  | f => Ok f
  end.

(** [x * y] on two floats *)
Definition mul (x y : spec_float) : spec_float := SFmul prec emax x y.

(** [int(x)]: the integer part, rounding toward zero. *)
Definition to_int (x : spec_float) : res Z :=
  match x with
  | S754_zero _ => Ok 0
  | S754_infinity _ => Raise OverflowError
  | S754_nan => Raise ValueError
  | S754_finite s m e =>
      let a := if 0 <=? e then Zpos m * 2 ^ e else Zpos m / 2 ^ (- e) in
      Ok (if s then - a else a)
  end.

(** A zero, or a finite double with a mantissa of at most 53 bits and an
    exponent of at most 971. *)
Definition finite_or_zero (x : spec_float) : Prop :=
  match x with
  | S754_zero _ => True
  | S754_finite _ m e => Zpos (digits2_pos m) <= prec /\ e <= 971
  | _ => False
  end.

End PyFloat.

(* ------------------------------------------------------------------ *)
(** ** The network, as seen by a coroutine *)

(** What [session.get] / [session.post] and [response.json()] deliver:
    no connection, or a status with a body that [response.json()] decodes
    ([Some]) or refuses ([None]). *)
Inductive http_outcome : Type :=
| ConnectionFailed
| Responded (status : Z) (body : option pyval).

(* ------------------------------------------------------------------ *)
(** ** transaction.py *)

Module Transaction.

Record TransactionInfo : Type :=
  { chain_id : string;
    account_number : Z;
    sequence : Z;
    fee : pyval;
    memo : string }.

Record Wallet : Type :=
  { private_key : list byte;
    public_key : list byte;
    address : string }.

(** The attributes [__init__] stores. *)
Record AkashTransactionSigner : Type :=
  { self_rpc_endpoint : string;
    self_chain_id : string;
    self_gas_price : string }.

Definition default_chain_id : string := "akashnet-2".
Definition default_gas_price : string := "0.025uakt".
Definition default_deposit : string := "10000000uakt".
Definition default_gas_limit : Z := 200000.

(** [AkashTransactionSigner.__init__]; [crypto_available] is the module
    flag [CRYPTO_AVAILABLE]. *)
Definition init (crypto_available : bool) (rpc_endpoint chain gas : string)
  : res AkashTransactionSigner :=
  if negb crypto_available
  then Raise (AkashTransactionError "Cryptography libraries required for transaction signing")
  else Ok {| self_rpc_endpoint := Py.rstrip_char "/" rpc_endpoint;
             self_chain_id := chain;
             self_gas_price := gas |}.

(** [create_signer(rpc_endpoint, chain_id)]: the gas price is the
    default of [__init__]. *)
Definition create_signer (crypto_available : bool) (rpc_endpoint chain : string)
  : res AkashTransactionSigner :=
  init crypto_available rpc_endpoint chain default_gas_price.

Definition _sdl_to_groups (sdl : pyval) : pyval :=
  PList
    [PDict
       [("name", PStr "default");
        ("requirements",
          PDict [("signed_by", PDict [("all_of", PList []); ("any_of", PList [])])]);
        ("resources",
          PList
            [PDict
               [("resources",
                  PDict
                    [("cpu", PDict [("units", PDict [("val", PStr "1000")])]);
                     ("memory", PDict [("quantity", PDict [("val", PStr "1073741824")])]);
                     ("storage",
                       PList
                         [PDict
                            [("name", PStr "default");
                             ("quantity", PDict [("val", PStr "1073741824")])]])]);
                ("count", PInt 1);
                ("price", PDict [("denom", PStr "uakt"); ("amount", PStr "1000")])]])]].

Definition create_deployment_msg (self : AkashTransactionSigner)
           (owner : string) (sdl : pyval) (deposit : string) : res pyval :=
  let groups := _sdl_to_groups sdl in
  sdl_text <- Json.dumps false sdl ;;
  Ok (PDict
        [("@type", PStr "/akash.deployment.v1beta3.MsgCreateDeployment");
         ("id", PDict [("owner", PStr owner); ("dseq", PStr "0")]);
         ("groups", groups);
         ("version", PStr (Base64.b64encode (Py.encode sdl_text)));
         ("deposit",
           PDict [("denom", PStr "uakt");
                  ("amount", PStr (Py.replace deposit "uakt" EmptyString))]);
         ("depositor", PStr owner)]).

Definition create_bid_msg (self : AkashTransactionSigner)
           (bidder : string) (order_id : pyval) (price : string) : res pyval :=
  Ok (PDict
        [("@type", PStr "/akash.market.v1beta4.MsgCreateBid");
         ("order", order_id);
         ("provider", PStr bidder);
         ("price",
           PDict [("denom", PStr "uakt");
                  ("amount", PStr (Py.replace price "uakt" EmptyString))])]).

Definition create_lease_msg (self : AkashTransactionSigner)
           (tenant provider : string) (bid_id : pyval) : res pyval :=
  Ok (PDict
        [("@type", PStr "/akash.market.v1beta4.MsgCreateLease");
         ("bid_id", bid_id)]).

(** The fee of [create_transaction]: the gas price without its [uakt]
    suffix, read as a float, times the gas limit, cut to an [int]. *)
Definition gas_amount (self : AkashTransactionSigner) (gas_limit : Z) : res Z :=
  price <- PyFloat.of_string (Py.replace (self_gas_price self) "uakt" EmptyString) ;;
  limit <- PyFloat.of_int gas_limit ;;
  PyFloat.to_int (PyFloat.mul price limit).

(** The ["body"] entry of the dict [create_transaction] returns. *)
Definition tx_body (messages : list pyval) (tx_info : TransactionInfo) : pyval :=
  PDict
    [("messages", PList messages);
     ("memo", PStr (memo tx_info));
     ("timeout_height", PStr "0");
     ("extension_options", PList []);
     ("non_critical_extension_options", PList [])].

(** Its ["auth_info"] entry; [amount] is the computed [gas_amount]. *)
Definition tx_auth_info (wallet : Wallet) (tx_info : TransactionInfo)
           (amount gas_limit : Z) : pyval :=
  PDict
    [("signer_infos",
       PList
         [PDict
            [("public_key",
               PDict
                 [("@type", PStr "/cosmos.crypto.secp256k1.PubKey");
                  ("key", PStr (Base64.b64encode (public_key wallet)))]);
             ("mode_info",
               PDict [("single", PDict [("mode", PStr "SIGN_MODE_DIRECT")])]);
             ("sequence", PStr (Py.str_of_int (sequence tx_info)))]]);
     ("fee",
       PDict
         [("amount",
            PList
              [PDict [("denom", PStr "uakt");
                      ("amount", PStr (Py.str_of_int amount))]]);
          ("gas_limit", PStr (Py.str_of_int gas_limit));
          ("payer", PStr EmptyString);
          ("granter", PStr EmptyString)])].

Definition create_transaction (self : AkashTransactionSigner) (wallet : Wallet)
           (messages : list pyval) (tx_info : TransactionInfo) (gas_limit : Z)
  : res pyval :=
  amount <- gas_amount self gas_limit ;;
  Ok (PDict
        [("body", tx_body messages tx_info);
         ("auth_info", tx_auth_info wallet tx_info amount gas_limit);
         ("signatures", PList [])]).

(** [tx["auth_info"]["fee"]["amount"][0]["amount"]], [tx["body"]["messages"]]
    and [tx["auth_info"]["fee"]["gas_limit"]]: reading a transaction back. *)
Definition fee_amount_of (tx : pyval) : res pyval :=
  Py.at_path tx [Py.Key "auth_info"; Py.Key "fee"; Py.Key "amount"; Py.Idx 0;
                 Py.Key "amount"].

Definition fee_denom_of (tx : pyval) : res pyval :=
  Py.at_path tx [Py.Key "auth_info"; Py.Key "fee"; Py.Key "amount"; Py.Idx 0;
                 Py.Key "denom"].

(** [group["resources"][0]["resources"]] *)
Definition group_resources : list Py.index :=
  [Py.Key "resources"; Py.Idx 0; Py.Key "resources"].

Definition messages_of (tx : pyval) : res pyval :=
  Py.at_path tx [Py.Key "body"; Py.Key "messages"].

Definition gas_limit_of (tx : pyval) : res pyval :=
  Py.at_path tx [Py.Key "auth_info"; Py.Key "fee"; Py.Key "gas_limit"].

(** [json.dumps(body, sort_keys=True).encode()] *)
Definition _encode_body (self : AkashTransactionSigner) (body : pyval)
  : res (list byte) :=
  t <- Json.dumps true body ;; Ok (Py.encode t).

Definition _encode_auth_info (self : AkashTransactionSigner) (auth_info : pyval)
  : res (list byte) :=
  t <- Json.dumps true auth_info ;; Ok (Py.encode t).

(** The signing document of [sign_transaction]: its two first values
    are [bytes] objects. *)
Definition sign_doc (self : AkashTransactionSigner) (transaction : pyval)
           (tx_info : TransactionInfo) : res pyval :=
  body <- Py.getitem transaction "body" ;;
  body_bytes <- _encode_body self body ;;
  auth_info <- Py.getitem transaction "auth_info" ;;
  auth_info_bytes <- _encode_auth_info self auth_info ;;
  Ok (PDict
        [("body_bytes", PBytes body_bytes);
         ("auth_info_bytes", PBytes auth_info_bytes);
         ("chain_id", PStr (chain_id tx_info));
         ("account_number", PStr (Py.str_of_int (account_number tx_info)))]).

(** [json.dumps(sign_doc, sort_keys=True, separators=(',', ':')).encode()] *)
Definition sign_bytes (doc : pyval) : res (list byte) :=
  t <- Json.dumps_with true "," ":" doc ;; Ok (Py.encode t).

(** The two statements under [# Sign with ECDSA]; [k] is the nonce that
    [sign] draws. *)
Definition ecdsa_sign (wallet : Wallet) (signature_hash : list byte) (k : Z)
  : res (list byte) :=
  signing_key <- Ecdsa.from_string (private_key wallet) ;;
  Ecdsa.sign signing_key signature_hash k.

(** [sign_transaction]; the returned value is the dict the caller
    passed, after the assignment to its ["signatures"] key. *)
Definition sign_transaction (self : AkashTransactionSigner) (wallet : Wallet)
           (transaction : pyval) (tx_info : TransactionInfo) (k : Z) : res pyval :=
  doc <- sign_doc self transaction tx_info ;;
  payload <- sign_bytes doc ;;
  let signature_hash := Sha256.digest payload in
  signature <- ecdsa_sign wallet signature_hash k ;;
  Py.setitem transaction "signatures" (PList [PStr (Base64.b64encode signature)]).

(** The JSON-RPC request of [broadcast_transaction]. *)
Definition broadcast_data (signed_tx : pyval) : res pyval :=
  tx_text <- Json.dumps false signed_tx ;;
  Ok (PDict
        [("jsonrpc", PStr "2.0");
         ("id", PInt 1);
         ("method", PStr "broadcast_tx_commit");
         ("params", PDict [("tx", PStr (Base64.b64encode (Py.encode tx_text)))])]).

(** What [broadcast_transaction] does with the decoded response. *)
Definition interpret_response (result : pyval) : res pyval :=
  has_error <- Py.contains "error" result ;;
  if (has_error : bool) then
    err <- Py.getitem result "error" ;;
    Raise (AkashTransactionError ("Broadcast failed: " ++ Py.str err)%string)
  else Py.getitem result "result".

(** [broadcast_transaction]; [reply] is the outcome of the one POST. *)
Definition broadcast_transaction (self : AkashTransactionSigner)
           (signed_tx : pyval) (reply : http_outcome) : res pyval :=
  _ <- broadcast_data signed_tx ;;
  match reply with
  | ConnectionFailed => Raise ClientConnectionError
  | Responded _ None => Raise JSONDecodeError
  | Responded _ (Some result) => interpret_response result
  end.

End Transaction.

(* ------------------------------------------------------------------ *)
(** ** async_client.py *)

Module AsyncClient.

Import Transaction.

(** The attributes of [AkashAsyncClient] the transaction methods read:
    [_rest_session] and [_transaction_signer] are [None] until
    [__aenter__] sets them. *)
Record AkashAsyncClient : Type :=
  { rest_endpoint : string;
    client_chain_id : string;
    _rest_session : bool;
    _transaction_signer : option AkashTransactionSigner }.

(** [_get_account_info]; [reply] is the outcome of the GET. *)
Definition _get_account_info (self : AkashAsyncClient) (address : string)
           (reply : http_outcome) : res pyval :=
  if negb (_rest_session self)
  then Raise (AkashAsyncClientError "REST session not available")
  else
    match reply with
    | ConnectionFailed => Raise ClientConnectionError
    | Responded status body =>
        if 400 <=? status then Raise (ClientResponseError status)
        else
          match body with
          | None => Raise JSONDecodeError
          | Some data =>
              account <- Py.get data "account" (PDict []) ;;
              number <- (v <- Py.get account "account_number" (PInt 0) ;; Py.int v) ;;
              seq <- (v <- Py.get account "sequence" (PInt 0) ;; Py.int v) ;;
              Ok (PDict [("account_number", PInt number); ("sequence", PInt seq)])
          end
    end.

(** [account_info['account_number']] read back as the [int] it holds. *)
Definition int_field (info : pyval) (key : string) : res Z :=
  v <- Py.getitem info key ;;
  match v with
  | PInt n => Ok n
  | _ => Raise (TypeError "not an int")
  end.

(** [create_deployment]: resolve the account, build the message,
    assemble, sign, broadcast. *)
Definition create_deployment (self : AkashAsyncClient) (wallet : Wallet)
           (sdl : pyval) (deposit : string) (gas_limit : Z)
           (account_reply broadcast_reply : http_outcome) (k : Z) : res pyval :=
  match _transaction_signer self with
  | None => Raise (AkashAsyncClientError "RPC endpoint not configured for transactions")
  | Some signer =>
      account_info <- _get_account_info self (address wallet) account_reply ;;
      msg <- create_deployment_msg signer (address wallet) sdl deposit ;;
      number <- int_field account_info "account_number" ;;
      seq <- int_field account_info "sequence" ;;
      let tx_info :=
        {| chain_id := client_chain_id self;
           account_number := number;
           sequence := seq;
           fee := PDict [];
           memo := EmptyString |} in
      transaction <- create_transaction signer wallet [msg] tx_info gas_limit ;;
      signed_tx <- sign_transaction signer wallet transaction tx_info k ;;
      broadcast_transaction signer signed_tx broadcast_reply
  end.

End AsyncClient.

(* ------------------------------------------------------------------ *)
(** ** The fee as the specification words it *)

Module SpecWords.

Import Transaction.

(** [math.ceil(x)] *)
Definition float_ceil (x : spec_float) : res Z :=
  match x with
  | S754_zero _ => Ok 0
  | S754_infinity _ => Raise OverflowError
  | S754_nan => Raise ValueError
  | S754_finite s m e =>
      if 0 <=? e then Ok ((if s then -1 else 1) * (Zpos m * 2 ^ e))
      else
        let d := 2 ^ (- e) in
        Ok (if s then - (Zpos m / d) else - ((- Zpos m) / d))
  end.

(** The specification's formula, fee = ceil(gas_price * gas_limit), on
    the same product as [gas_amount]. *)
Definition fee_ceil (self : AkashTransactionSigner) (gas_limit : Z) : res Z :=
  price <- PyFloat.of_string (Py.replace (self_gas_price self) "uakt" EmptyString) ;;
  limit <- PyFloat.of_int gas_limit ;;
  float_ceil (PyFloat.mul price limit).

End SpecWords.

(* ------------------------------------------------------------------ *)
(** ** Induction on Python values *)

Section PyvalInduction.

Variable P : pyval -> Prop.
Hypothesis HNone : P PNone.
Hypothesis HBool : forall b, P (PBool b).
Hypothesis HInt : forall n, P (PInt n).
Hypothesis HStr : forall s, P (PStr s).
Hypothesis HBytes : forall b, P (PBytes b).
Hypothesis HList : forall l, Forall P l -> P (PList l).
Hypothesis HDict : forall d, Forall (fun kv => P (snd kv)) d -> P (PDict d).

Fixpoint pyval_ind (v : pyval) : P v :=
  match v with
  | PNone => HNone
  | PBool b => HBool b
  | PInt n => HInt n
  | PStr s => HStr s
  | PBytes b => HBytes b
  | PList l =>
      HList l ((fix items (l : list pyval) : Forall P l :=
                  match l with
                  | [] => Forall_nil P
                  | x :: r => Forall_cons x (pyval_ind x) (items r)
                  end) l)
  | PDict d =>
      HDict d ((fix items (d : list (string * pyval))
                  : Forall (fun kv => P (snd kv)) d :=
                  match d with
                  | [] => Forall_nil _
                  | kv :: r => Forall_cons kv (pyval_ind (snd kv)) (items r)
                  end) d)
  end.

End PyvalInduction.

(** Characters that [json.dumps] copies unchanged into a string literal. *)
Definition plain_char (c : ascii) : bool :=
  Py.in_range 32 126 c && negb (Ascii.eqb c Py.dquote)
  && negb (Ascii.eqb c Py.backslash).

Fixpoint plain (s : string) : bool :=
  match s with
  | EmptyString => true
  | String c s' => plain_char c && plain s'
  end.

(* ------------------------------------------------------------------ *)
(** ** The end-to-end scenario of the specification

    Private key [11 11 ... 11], deposit [10000000uakt], gas limit 200000,
    account number 5, sequence 2. *)

Module Scenario.

Import Transaction AsyncClient.

Definition signer : AkashTransactionSigner :=
  {| self_rpc_endpoint := "http://localhost:26657";
     self_chain_id := default_chain_id;
     self_gas_price := default_gas_price |}.

(** The key pair and address that [Wallet.from_private_key] derives from
    the private key of the scenario. *)
Definition wallet : Wallet :=
  {| private_key := repeat x11 32;
     public_key :=
       map Py.byte_of_N
         [3; 79; 53; 91; 220; 183; 204; 10; 247; 40; 239; 60; 206; 185; 97;
          93; 144; 104; 75; 181; 178; 202; 95; 133; 154; 176; 240; 183; 4;
          7; 88; 113; 170]%N;
     address := "akash1l3e9pgs3mmwuwrh95fecme0s0qtn2880y3lusr" |}.

Definition tx_info : TransactionInfo :=
  {| chain_id := default_chain_id;
     account_number := 5;
     sequence := 2;
     fee := PDict [];
     memo := EmptyString |}.

Definition sdl : pyval :=
  PDict
    [("version", PStr "2.0");
     ("services",
       PDict [("web", PDict [("image", PStr "nginx"); ("count", PInt 1)])])].

(** The same SDL, its keys inserted in another order. *)
Definition sdl_reordered : pyval :=
  PDict
    [("services",
       PDict [("web", PDict [("count", PInt 1); ("image", PStr "nginx")])]);
     ("version", PStr "2.0")].

Definition other_sdl : pyval :=
  PDict [("version", PStr "2.0"); ("services", PDict [])].

Definition order_id : pyval :=
  PDict
    [("owner", PStr (address wallet)); ("dseq", PInt 1137);
     ("gseq", PInt 1); ("oseq", PInt 1)].

Definition value_of (r : res pyval) : pyval :=
  match r with Ok v => v | Raise _ => PNone end.

(** The message [create_deployment_msg] builds and the transaction
    [create_transaction] assembles from it, as values. *)
Definition deployment_msg : pyval :=
  Eval vm_compute in
    value_of (create_deployment_msg signer (address wallet) sdl default_deposit).

Definition transaction : pyval :=
  Eval vm_compute in
    value_of (create_transaction signer wallet [deployment_msg] tx_info
                                 default_gas_limit).

(** A transaction with the same content whose dicts received their keys
    in another order. *)
Definition reordered_transaction : pyval :=
  PDict
    [("signatures", PList []);
     ("auth_info",
       PDict
         [("fee",
            PDict
              [("granter", PStr EmptyString);
               ("payer", PStr EmptyString);
               ("gas_limit", PStr "200000");
               ("amount",
                 PList [PDict [("amount", PStr "5000"); ("denom", PStr "uakt")]])]);
          ("signer_infos",
            PList
              [PDict
                 [("sequence", PStr "2");
                  ("mode_info",
                    PDict [("single", PDict [("mode", PStr "SIGN_MODE_DIRECT")])]);
                  ("public_key",
                    PDict
                      [("key", PStr (Base64.b64encode (public_key wallet)));
                       ("@type", PStr "/cosmos.crypto.secp256k1.PubKey")])]])]);
     ("body",
       PDict
         [("non_critical_extension_options", PList []);
          ("extension_options", PList []);
          ("timeout_height", PStr "0");
          ("memo", PStr EmptyString);
          ("messages", PList [deployment_msg])])].

(** A transaction as [sign_transaction] is meant to return it. *)
Definition signed_transaction : pyval :=
  value_of (Py.setitem transaction "signatures" (PList [PStr "c2lnbmF0dXJl"])).

(** A 32-byte digest for the two ECDSA statements. *)
Definition signature_hash : list byte :=
  Sha256.digest (Py.encode "akash sign bytes").

Definition client : AkashAsyncClient :=
  {| rest_endpoint := "http://localhost:1317";
     client_chain_id := default_chain_id;
     _rest_session := true;
     _transaction_signer := Some signer |}.

(** A JSON-RPC rejection, an acceptance, and a reply with neither key. *)
Definition rejection : pyval :=
  PDict
    [("jsonrpc", PStr "2.0"); ("id", PInt 1);
     ("error",
       PDict [("code", PInt (-32603)); ("message", PStr "Internal error")])].

Definition acceptance : pyval :=
  PDict
    [("jsonrpc", PStr "2.0"); ("id", PInt 1);
     ("result", PDict [("hash", PStr "ABCD")])].

Definition bare_reply : pyval :=
  PDict [("jsonrpc", PStr "2.0"); ("id", PInt 1)].

End Scenario.

(* ------------------------------------------------------------------ *)
(** ** [bytes.fromhex] *)

Module Hex.

Definition digit (c : ascii) : option Z :=
  let n := Z.of_N (N_of_ascii c) in
  if Py.in_range 48 57 c then Some (n - 48)
  else if Py.in_range 97 102 c then Some (n - 87)
  else if Py.in_range 65 70 c then Some (n - 55)
  else None.

(** White space is skipped before each byte, never between its two
    digits; anything else that is not a pair of hexadecimal digits is a
    [ValueError]. *)
Fixpoint fromhex (s : string) : res (list byte) :=
  match s with
  | EmptyString => Ok []
  | String c s' =>
      if Py.is_space_ascii c then fromhex s'
      else
        match digit c, s' with
        | Some hi, String c' s'' =>
            match digit c' with
            | Some lo =>
                rest <- fromhex s'' ;;
                Ok (Sha256.low_byte (16 * hi + lo) :: rest)
            | None => Raise ValueError
            end
        | _, _ => Raise ValueError
        end
  end.

End Hex.

(* ------------------------------------------------------------------ *)
(** ** [hashlib.new('ripemd160')], on 32-bit words held in [Z] *)

Module Ripemd160.

Definition wrap (x : Z) : Z := x mod 4294967296.

Definition rol (k x : Z) : Z :=
  wrap (Z.lor (Z.shiftl x k) (Z.shiftr x (32 - k))).

Definition not32 (x : Z) : Z := 4294967295 - x.

(** The five boolean functions, by group of sixteen steps. *)
Definition f (group : nat) (x y z : Z) : Z :=
  match group with
  | 0%nat => Z.lxor (Z.lxor x y) z
  | 1%nat => Z.lor (Z.land x y) (Z.land (not32 x) z)
  | 2%nat => Z.lxor (Z.lor x (not32 y)) z
  | 3%nat => Z.lor (Z.land x z) (Z.land y (not32 z))
  | _ => Z.lxor x (Z.lor y (not32 z))
  end.

Definition left_constants : list Z :=
  [0; 1518500249; 1859775393; 2400959708; 2840853838].
Definition right_constants : list Z :=
  [1352829926; 1548603684; 1836072691; 2053994217; 0].

(** Message word and rotation amount of each of the eighty steps, for the
    left and the right line. *)
Definition left_words : list nat :=
  [0; 1; 2; 3; 4; 5; 6; 7; 8; 9; 10; 11; 12; 13; 14; 15;
   7; 4; 13; 1; 10; 6; 15; 3; 12; 0; 9; 5; 2; 14; 11; 8;
   3; 10; 14; 4; 9; 15; 8; 1; 2; 7; 0; 6; 13; 11; 5; 12;
   1; 9; 11; 10; 0; 8; 12; 4; 13; 3; 7; 15; 14; 5; 6; 2;
   4; 0; 5; 9; 7; 12; 2; 10; 14; 1; 3; 8; 11; 6; 15; 13]%nat.

Definition right_words : list nat :=
  [5; 14; 7; 0; 9; 2; 11; 4; 13; 6; 15; 8; 1; 10; 3; 12;
   6; 11; 3; 7; 0; 13; 5; 10; 14; 15; 8; 12; 4; 9; 1; 2;
   15; 5; 1; 3; 7; 14; 6; 9; 11; 8; 12; 2; 10; 0; 4; 13;
   8; 6; 4; 1; 3; 11; 15; 0; 5; 12; 2; 13; 9; 7; 10; 14;
   12; 15; 10; 4; 1; 5; 8; 7; 6; 2; 13; 14; 0; 3; 9; 11]%nat.

Definition left_shifts : list Z :=
  [11; 14; 15; 12; 5; 8; 7; 9; 11; 13; 14; 15; 6; 7; 9; 8;
   7; 6; 8; 13; 11; 9; 7; 15; 7; 12; 15; 9; 11; 7; 13; 12;
   11; 13; 6; 7; 14; 9; 13; 15; 14; 8; 13; 6; 5; 12; 7; 5;
   11; 12; 14; 15; 14; 15; 9; 8; 9; 14; 5; 6; 8; 6; 5; 12;
   9; 15; 5; 11; 6; 8; 13; 12; 5; 12; 13; 14; 11; 8; 5; 6].

Definition right_shifts : list Z :=
  [8; 9; 9; 11; 13; 15; 15; 5; 7; 7; 8; 11; 14; 14; 12; 6;
   9; 13; 15; 7; 12; 8; 9; 11; 7; 7; 12; 7; 6; 15; 13; 11;
   9; 7; 15; 11; 8; 6; 6; 14; 12; 13; 5; 14; 13; 13; 7; 5;
   15; 5; 8; 11; 14; 14; 6; 14; 6; 9; 12; 9; 12; 5; 15; 8;
   8; 5; 12; 9; 12; 5; 14; 6; 8; 13; 6; 5; 15; 13; 11; 11].

Record regs : Type := mk_regs { ra : Z; rb : Z; rc : Z; rd : Z; re : Z }.

Definition initial_state : regs :=
  mk_regs 1732584193 4023233417 2562383102 271733878 3285377520.

(** One step of a line: [fn] is the boolean function, [x] the message
    word, [k] the constant and [s] the rotation. *)
Definition step (fn : Z -> Z -> Z -> Z) (x k s : Z) (r : regs) : regs :=
  let t := wrap (rol s (wrap (ra r + fn (rb r) (rc r) (rd r) + x + k)) + re r) in
  mk_regs (re r) t (rb r) (rol 10 (rc r)) (rd r).

Definition line (right : bool) (block : list Z) (r : regs) : regs :=
  fold_left
    (fun acc j =>
       let group := (j / 16)%nat in
       if right
       then step (f (4 - group)) (nth (nth j right_words 0%nat) block 0)
                 (nth group right_constants 0) (nth j right_shifts 0) acc
       else step (f group) (nth (nth j left_words 0%nat) block 0)
                 (nth group left_constants 0) (nth j left_shifts 0) acc)
    (seq 0 80) r.

Definition compress (h : regs) (block : list Z) : regs :=
  let l := line false block h in
  let r := line true block h in
  mk_regs (wrap (rb h + rc l + rd r))
          (wrap (rc h + rd l + re r))
          (wrap (rd h + re l + ra r))
          (wrap (re h + ra l + rb r))
          (wrap (ra h + rb l + rc r)).

(** [len] bytes of [x], least significant first. *)
Fixpoint to_bytes_le (len : nat) (x : Z) : list byte :=
  match len with
  | O => []
  | S len' => Sha256.low_byte x :: to_bytes_le len' (x / 256)
  end.

Definition of_bytes_le (b : list byte) : Z :=
  fold_right (fun x acc => Sha256.byte_val x + 256 * acc) 0 b.

Definition pad (msg : list byte) : list byte :=
  let len := Z.of_nat (List.length msg) in
  msg ++ [x80] ++ repeat x00 (Z.to_nat ((55 - len) mod 64))
      ++ to_bytes_le 8 (8 * len).

Fixpoint words (b : list byte) : list Z :=
  match b with
  | b0 :: b1 :: b2 :: b3 :: rest => of_bytes_le [b0; b1; b2; b3] :: words rest
  | _ => []
  end.

Fixpoint absorb (blocks : nat) (h : regs) (w : list Z) : regs :=
  match blocks with
  | O => h
  | S blocks' =>
      match w with
      | [] => h
      | _ => absorb blocks' (compress h (firstn 16 w)) (skipn 16 w)
      end
  end.

(** [hashlib.new('ripemd160', msg).digest()] *)
Definition digest (msg : list byte) : list byte :=
  let w := words (pad msg) in
  let h := absorb (S (List.length w / 16)) initial_state w in
  to_bytes_le 4 (ra h) ++ to_bytes_le 4 (rb h) ++ to_bytes_le 4 (rc h)
    ++ to_bytes_le 4 (rd h) ++ to_bytes_le 4 (re h).

End Ripemd160.

(* ------------------------------------------------------------------ *)
(** ** The [bech32] package *)

Module Bech32.

Definition charset : string := "qpzry9x8gf2tvdw0s3jn54khce6mua7l".

Definition generator : list Z :=
  [996825010; 642813549; 513874426; 1027748829; 705979059].

(** The generator words selected by the five bits of [top], xored. *)
Definition feedback (top : Z) : Z :=
  fold_left
    (fun acc ig => if Z.testbit top (fst ig) then Z.lxor acc (snd ig) else acc)
    (combine [0; 1; 2; 3; 4] generator) 0.

Definition polymod_step (chk value : Z) : Z :=
  Z.lxor (Z.lxor (Z.shiftl (Z.land chk 33554431) 5) value)
         (feedback (Z.shiftr chk 25)).

(** [bech32_polymod(values)] *)
Definition polymod (values : list Z) : Z := fold_left polymod_step values 1.

Definition ord (c : ascii) : Z := Z.of_N (N_of_ascii c).

(** [bech32_hrp_expand(hrp)] *)
Definition hrp_expand (hrp : string) : list Z :=
  let cs := list_ascii_of_string hrp in
  map (fun c => Z.shiftr (ord c) 5) cs ++ [0] ++ map (fun c => Z.land (ord c) 31) cs.

(** [bech32_verify_checksum(hrp, data)] *)
Definition verify_checksum (hrp : string) (data : list Z) : bool :=
  polymod (hrp_expand hrp ++ data) =? 1.

(** [[(polymod >> 5 * (5 - i)) & 31 for i in range(6)]] *)
Definition quintets_of (pm : Z) : list Z :=
  map (fun i => Z.land (Z.shiftr pm (5 * (5 - i))) 31) [0; 1; 2; 3; 4; 5].

(** [bech32_create_checksum(hrp, data)] *)
Definition create_checksum (hrp : string) (data : list Z) : list Z :=
  let pm := Z.lxor (polymod (hrp_expand hrp ++ data ++ [0; 0; 0; 0; 0; 0])) 1 in
  quintets_of pm.

(** [CHARSET[d]]; an index outside the string raises [IndexError]. *)
Definition charset_at (d : Z) : res ascii :=
  if (0 <=? d) && (d <? 32)
  then match String.get (Z.to_nat d) charset with
       | Some c => Ok c
       | None => Raise IndexError
       end
  else if (-32 <=? d) && (d <? 0)
  then match String.get (Z.to_nat (32 + d)) charset with
       | Some c => Ok c
       | None => Raise IndexError
       end
  else Raise IndexError.

Fixpoint chars_of (ds : list Z) : res string :=
  match ds with
  | [] => Ok EmptyString
  | d :: rest =>
      c <- charset_at d ;;
      t <- chars_of rest ;;
      Ok (String c t)
  end.

(** [bech32_encode(hrp, data)] *)
Definition encode (hrp : string) (data : list Z) : res string :=
  t <- chars_of (data ++ create_checksum hrp data) ;;
  Ok (hrp ++ "1" ++ t)%string.

(** The inner [while bits >= tobits] loop of [convertbits]; it runs at
    most [bits] times. *)
Fixpoint drain (fuel : nat) (acc bits tobits maxv : Z) (ret : list Z)
  : Z * list Z :=
  match fuel with
  | O => (bits, ret)
  | S fuel' =>
      if tobits <=? bits
      then drain fuel' acc (bits - tobits) tobits maxv
                 (ret ++ [Z.land (Z.shiftr acc (bits - tobits)) maxv])
      else (bits, ret)
  end.

Fixpoint convert_loop (data : list Z) (frombits tobits maxv max_acc acc bits : Z)
         (ret : list Z) : option (Z * Z * list Z) :=
  match data with
  | [] => Some (acc, bits, ret)
  | value :: rest =>
      if (value <? 0) || negb (Z.shiftr value frombits =? 0) then None
      else
        let acc := Z.land (Z.lor (Z.shiftl acc frombits) value) max_acc in
        let bits := bits + frombits in
        let '(bits, ret) := drain (Z.to_nat bits) acc bits tobits maxv ret in
        convert_loop rest frombits tobits maxv max_acc acc bits ret
  end.

(** [convertbits(data, frombits, tobits)] with the default [pad=True];
    [None] is the Python [None] returned for a value out of range. *)
Definition convertbits (data : list Z) (frombits tobits : Z) : option (list Z) :=
  let maxv := Z.shiftl 1 tobits - 1 in
  let max_acc := Z.shiftl 1 (frombits + tobits - 1) - 1 in
  match convert_loop data frombits tobits maxv max_acc 0 0 [] with
  | None => None
  | Some (acc, bits, ret) =>
      if bits =? 0 then Some ret
      else Some (ret ++ [Z.land (Z.shiftl acc (tobits - bits)) maxv])
  end.

(** [CHARSET.find(x)] *)
Fixpoint find_from (c : ascii) (s : string) (i : Z) : Z :=
  match s with
  | EmptyString => -1
  | String a s' => if Ascii.eqb a c then i else find_from c s' (i + 1)
  end.

Definition charset_find (c : ascii) : Z := find_from c charset 0.

(** [bech.rfind(c)] *)
Fixpoint rfind_from (c : ascii) (s : string) (i last : Z) : Z :=
  match s with
  | EmptyString => last
  | String a s' => rfind_from c s' (i + 1) (if Ascii.eqb a c then i else last)
  end.

Definition rfind (c : ascii) (s : string) : Z := rfind_from c s 0 (-1).

Definition lower_char (c : ascii) : ascii :=
  if Py.in_range 65 90 c then ascii_of_N (N_of_ascii c + 32) else c.

Definition upper_char (c : ascii) : ascii :=
  if Py.in_range 97 122 c then ascii_of_N (N_of_ascii c - 32) else c.

Fixpoint map_chars (f : ascii -> ascii) (s : string) : string :=
  match s with
  | EmptyString => EmptyString
  | String c s' => String (f c) (map_chars f s')
  end.

(** [bech32_decode(bech)]; [None] is the pair [(None, None)].  The case
    conversions are applied to texts of characters 33 to 126 only. *)
Definition decode (bech : string) : option (string * list Z) :=
  let cs := list_ascii_of_string bech in
  if existsb (fun x => (ord x <? 33) || (126 <? ord x)) cs
     || (negb (String.eqb (map_chars lower_char bech) bech)
         && negb (String.eqb (map_chars upper_char bech) bech))
  then None
  else
    let bech := map_chars lower_char bech in
    let pos := rfind "1" bech in
    let len := Z.of_nat (String.length bech) in
    if (pos <? 1) || (len <? pos + 7) || (90 <? len) then None
    else
      let tail :=
        list_ascii_of_string
          (substring (Z.to_nat (pos + 1)) (String.length bech) bech) in
      if negb (forallb (fun x => 0 <=? charset_find x) tail) then None
      else
        let hrp := substring 0 (Z.to_nat pos) bech in
        let data := map charset_find tail in
        if negb (verify_checksum hrp data) then None
        else Some (hrp, firstn (List.length data - 6) data).

(** A five-bit group. *)
Definition quintet (d : Z) : Prop := 0 <= d < 32.

(** What [decode] asks of a character after the separator, and of a text
    it leaves as it is: a code from 33 to 126, no upper-case letter, not
    the separator, a place in [charset]. *)
Definition data_char (c : ascii) : bool :=
  negb ((ord c <? 33) || (126 <? ord c))
  && Ascii.eqb (lower_char c) c
  && negb (Ascii.eqb c "1")
  && (0 <=? charset_find c).

End Bech32.

(* ------------------------------------------------------------------ *)
(** ** [Wallet.from_private_key] *)

Module Wallets.

Definition crypto_required : string :=
  "Cryptography libraries required. Install with: pip install cryptography ecdsa bech32".

(** [signing_key.get_verifying_key().to_string()]: the two coordinates of
    the public point, 32 bytes each.  The point at infinity has no
    coordinates, and writing them down is a [TypeError]. *)
Definition verifying_key_string (key : Ecdsa.SigningKey) : res (list byte) :=
  match Ecdsa.mul (Ecdsa.secret_multiplier key) Ecdsa.generator with
  | Ecdsa.Infinity => Raise (TypeError "'NoneType' object cannot be interpreted as an integer")
  | Ecdsa.Affine x y => Ok (Ecdsa.number_to_string x ++ Ecdsa.number_to_string y)
  end.

(** [b[i]] on bytes, for an index that is not negative. *)
Definition byte_at (b : list byte) (i : nat) : res Z :=
  match nth_error b i with
  | Some x => Ok (Sha256.byte_val x)
  | None => Raise IndexError
  end.

(** [hashlib.new('ripemd160', data).digest()]; a build of OpenSSL without
    the algorithm answers [ValueError]. *)
Definition hashlib_ripemd160 (ripemd_available : bool) (data : list byte)
  : res (list byte) :=
  if ripemd_available then Ok (Ripemd160.digest data) else Raise ValueError.

(** The body of the [try] block. *)
Definition derive (ripemd_available : bool) (private_key_hex : string)
  : res Transaction.Wallet :=
  private_key_bytes <- Hex.fromhex private_key_hex ;;
  signing_key <- Ecdsa.from_string private_key_bytes ;;
  vk <- verifying_key_string signing_key ;;
  parity <- byte_at vk 63 ;;
  let public_key_bytes :=
    if parity mod 2 =? 0 then x02 :: firstn 32 vk else x03 :: firstn 32 vk in
  let pubkey_hash := Sha256.digest public_key_bytes in
  ripemd160 <- hashlib_ripemd160 ripemd_available pubkey_hash ;;
  match Bech32.convertbits (map Sha256.byte_val ripemd160) 8 5 with
  | None => Raise (TypeError "unsupported operand type(s) for +: 'NoneType' and 'list'")
  | Some data =>
      address <- Bech32.encode "akash" data ;;
      Ok {| Transaction.private_key := private_key_bytes;
            Transaction.public_key := public_key_bytes;
            Transaction.address := address |}
  end.

(** [Wallet.from_private_key(private_key_hex)].  [describe] is [str(e)]
    for the exception caught. *)
Definition from_private_key (crypto_available ripemd_available : bool)
           (describe : exn -> string) (private_key_hex : string)
  : res Transaction.Wallet :=
  if negb crypto_available then Raise (AkashTransactionError crypto_required)
  else
    match derive ripemd_available private_key_hex with
    | Ok w => Ok w
    | Raise e =>
        Raise (AkashTransactionError
                 ("Failed to create wallet from private key: " ++ describe e)%string)
    end.

Definition create_wallet_from_private_key := from_private_key.

End Wallets.

(* ------------------------------------------------------------------ *)
(** ** A sample key *)

Module Sample.

Definition key_one : string :=
  "0000000000000000000000000000000000000000000000000000000000000001".

(** The wallet of the private key 1, whose public point is the generator. *)
Definition wallet_one : Transaction.Wallet :=
  {| Transaction.private_key := repeat x00 31 ++ [x01];
     Transaction.public_key := x02 :: Ecdsa.number_to_string Ecdsa.gen_x;
     Transaction.address := "akash1w508d6qejxtdg4y5r3zarvary0c5xw7khx6akz" |}.

End Sample.

(* ------------------------------------------------------------------ *)
(** ** async_client.py: the bid and lease pipelines *)

Module AsyncTx.

Import Transaction AsyncClient.

(** [create_bid]: as [create_deployment], around [create_bid_msg]. *)
Definition create_bid (self : AkashAsyncClient) (wallet : Wallet)
           (order_id : pyval) (price : string) (gas_limit : Z)
           (account_reply broadcast_reply : http_outcome) (k : Z) : res pyval :=
  match _transaction_signer self with
  | None => Raise (AkashAsyncClientError "RPC endpoint not configured for transactions")
  | Some signer =>
      account_info <- _get_account_info self (address wallet) account_reply ;;
      msg <- create_bid_msg signer (address wallet) order_id price ;;
      number <- int_field account_info "account_number" ;;
      seq <- int_field account_info "sequence" ;;
      let tx_info :=
        {| chain_id := client_chain_id self;
           account_number := number;
           sequence := seq;
           fee := PDict [];
           memo := EmptyString |} in
      transaction <- create_transaction signer wallet [msg] tx_info gas_limit ;;
      signed_tx <- sign_transaction signer wallet transaction tx_info k ;;
      broadcast_transaction signer signed_tx broadcast_reply
  end.

(** [create_lease]: the wallet's address is passed as tenant and as
    provider. *)
Definition create_lease (self : AkashAsyncClient) (wallet : Wallet)
           (bid_id : pyval) (gas_limit : Z)
           (account_reply broadcast_reply : http_outcome) (k : Z) : res pyval :=
  match _transaction_signer self with
  | None => Raise (AkashAsyncClientError "RPC endpoint not configured for transactions")
  | Some signer =>
      account_info <- _get_account_info self (address wallet) account_reply ;;
      msg <- create_lease_msg signer (address wallet) (address wallet) bid_id ;;
      number <- int_field account_info "account_number" ;;
      seq <- int_field account_info "sequence" ;;
      let tx_info :=
        {| chain_id := client_chain_id self;
           account_number := number;
           sequence := seq;
           fee := PDict [];
           memo := EmptyString |} in
      transaction <- create_transaction signer wallet [msg] tx_info gas_limit ;;
      signed_tx <- sign_transaction signer wallet transaction tx_info k ;;
      broadcast_transaction signer signed_tx broadcast_reply
  end.

End AsyncTx.

(* ------------------------------------------------------------------ *)
(** ** Query parameters *)

Module Params.

(** An [Optional[str]] or [Optional[int]] argument as the object it is. *)
Definition of_str (v : option string) : pyval :=
  match v with Some s => PStr s | None => PNone end.

Definition of_int (v : option Z) : pyval :=
  match v with Some n => PInt n | None => PNone end.

(** [bool(v)] *)
Definition truthy (v : pyval) : bool :=
  match v with
  | PNone => false
  | PBool b => b
  | PInt n => negb (n =? 0)
  | PStr s => negb (String.eqb s EmptyString)
  | PBytes b => negb (Nat.eqb (List.length b) 0)
  | PList l => negb (Nat.eqb (List.length l) 0)
  | PDict d => negb (Nat.eqb (List.length d) 0)
  end.

(** The three [if] statements of [get_deployments], in both clients. *)
Definition deployments (owner state : option string) (dseq : option Z) : pydict :=
  let params := [] in
  let params :=
    if truthy (of_str owner) then Py.dict_set "owner" (of_str owner) params
    else params in
  let params :=
    if truthy (of_str state) then Py.dict_set "state" (of_str state) params
    else params in
  let params :=
    if truthy (of_int dseq) then Py.dict_set "dseq" (PStr (Py.str (of_int dseq))) params
    else params in
  params.

(** The three [if] statements of the asynchronous [get_bids] and
    [get_leases]. *)
Definition market_async (owner provider state : option string) : pydict :=
  let params := [] in
  let params :=
    if truthy (of_str owner) then Py.dict_set "owner" (of_str owner) params
    else params in
  let params :=
    if truthy (of_str provider) then Py.dict_set "provider" (of_str provider) params
    else params in
  let params :=
    if truthy (of_str state) then Py.dict_set "state" (of_str state) params
    else params in
  params.

(** The loop of the synchronous [get_bids] and [get_leases]:
    [if value is not None: params[key] = str(value)]. *)
Definition market (owner : option string) (dseq gseq oseq : option Z)
           (provider state : option string) : pydict :=
  fold_left
    (fun params kv =>
       match snd kv with
       | PNone => params
       | value => Py.dict_set (fst kv) (PStr (Py.str value)) params
       end)
    [("owner", of_str owner); ("dseq", of_int dseq); ("gseq", of_int gseq);
     ("oseq", of_int oseq); ("provider", of_str provider); ("state", of_str state)]
    [].

End Params.

(* ------------------------------------------------------------------ *)
(** ** client.py *)

Module Client.

(** The exceptions of the [requests] package that a request meets. *)
Inductive request_exception : Type :=
| ConnectionError
| HTTPError (status : Z)
| InvalidJSON.

(** What a method of [AkashClient] raises: the module's own
    [AkashClientError], or an exception that passes through. *)
Inductive failure : Type :=
| AkashClientError (msg : string)
| Uncaught (e : exn).

Inductive outcome : Type :=
| Returned (v : pyval)
| Failed (f : failure).

(** The [requests] name of the module: the package or, when it cannot be
    imported, the stand-in class whose [get] answers a fixed message.
    [get] is the network and [describe] is [str(e)].  In the releases of
    the package where [response.json()] raises a [RequestException],
    [json_error_is_request_exception] holds; the earlier ones raise a
    plain [ValueError] of the [json] module. *)
Record requests : Type :=
  { REQUESTS_AVAILABLE : bool;
    json_error_is_request_exception : bool;
    get : string -> option pydict -> Z -> http_outcome;
    describe : request_exception -> string }.

Record AkashClient : Type :=
  { rest_endpoint : string;
    timeout : Z }.

(** [AkashClient.__init__] *)
Definition init (endpoint : string) (seconds : Z) : AkashClient :=
  {| rest_endpoint := Py.rstrip_char "/" endpoint;
     timeout := seconds |}.

Definition mock_message : pyval :=
  PDict [("message",
           PStr "requests module not available - install with: pip install requests")].

(** The [url] of [_make_rest_request]. *)
Definition request_url (self : AkashClient) (path : string) : string :=
  (rest_endpoint self ++ "/" ++ Py.lstrip_if (Ascii.eqb "/") path)%string.

Definition rest_failed (env : requests) (e : request_exception) : outcome :=
  Failed (AkashClientError ("REST request failed: " ++ describe env e)%string).

(** [_make_rest_request]: [raise_for_status] raises for the statuses 400
    to 599. *)
Definition _make_rest_request (env : requests) (self : AkashClient)
           (path : string) (params : option pydict) : outcome :=
  let url := request_url self path in
  if negb (REQUESTS_AVAILABLE env) then Returned mock_message
  else
    match get env url params (timeout self) with
    | ConnectionFailed => rest_failed env ConnectionError
    | Responded status body =>
        if (400 <=? status) && (status <? 600)
        then rest_failed env (HTTPError status)
        else
          match body with
          | Some v => Returned v
          | None =>
              if json_error_is_request_exception env
              then rest_failed env InvalidJSON
              else Failed (Uncaught JSONDecodeError)
          end
    end.

Definition get_deployments (env : requests) (self : AkashClient)
           (owner state : option string) (dseq : option Z) : outcome :=
  _make_rest_request env self "/akash/deployment/v1beta3/deployments"
                     (Some (Params.deployments owner state dseq)).

Definition get_deployment (env : requests) (self : AkashClient)
           (owner : string) (dseq : Z) : outcome :=
  _make_rest_request env self
    ("/akash/deployment/v1beta3/deployments/" ++ owner ++ "/" ++ Py.str_of_int dseq)%string
    None.

Definition get_bids (env : requests) (self : AkashClient)
           (owner : option string) (dseq gseq oseq : option Z)
           (provider state : option string) : outcome :=
  _make_rest_request env self "/akash/market/v1beta4/bids/list"
                     (Some (Params.market owner dseq gseq oseq provider state)).

Definition get_leases (env : requests) (self : AkashClient)
           (owner : option string) (dseq gseq oseq : option Z)
           (provider state : option string) : outcome :=
  _make_rest_request env self "/akash/market/v1beta4/leases/list"
                     (Some (Params.market owner dseq gseq oseq provider state)).

Definition get_providers (env : requests) (self : AkashClient) : outcome :=
  _make_rest_request env self "/akash/provider/v1beta3/providers" None.

Definition get_provider (env : requests) (self : AkashClient) (address : string)
  : outcome :=
  _make_rest_request env self ("/akash/provider/v1beta3/providers/" ++ address)%string
                     None.

(** [health_check]: any exception is a [False]. *)
Definition health_check (env : requests) (self : AkashClient) : bool :=
  match _make_rest_request env self "/akash/deployment/v1beta3/deployments"
                           (Some [("limit", PStr "1")]) with
  | Returned _ => true
  | Failed _ => false
  end.

End Client.

(* ------------------------------------------------------------------ *)
(** ** async_client.py: the REST queries *)

Module AsyncRest.

Import AsyncClient.

Definition not_initialized : exn :=
  AkashAsyncClientError "Client not properly initialized. Use async context manager.".

(** [response.raise_for_status()] then [await response.json()]. *)
Definition read (reply : http_outcome) : res pyval :=
  match reply with
  | ConnectionFailed => Raise ClientConnectionError
  | Responded status body =>
      if 400 <=? status then Raise (ClientResponseError status)
      else
        match body with
        | None => Raise JSONDecodeError
        | Some data => Ok data
        end
  end.

(** [session_get] is [self._rest_session.get(url, params=params)]. *)
Definition get_deployments (self : AkashAsyncClient)
           (session_get : string -> option pydict -> http_outcome)
           (owner state : option string) (dseq : option Z) : res pyval :=
  if negb (_rest_session self) then Raise not_initialized
  else
    let params := Params.deployments owner state dseq in
    let url := (rest_endpoint self ++ "/akash/deployment/v1beta3/deployments")%string in
    read (session_get url (Some params)).

Definition get_providers (self : AkashAsyncClient)
           (session_get : string -> option pydict -> http_outcome) : res pyval :=
  if negb (_rest_session self) then Raise not_initialized
  else
    let url := (rest_endpoint self ++ "/akash/provider/v1beta3/providers")%string in
    read (session_get url None).

Definition get_bids (self : AkashAsyncClient)
           (session_get : string -> option pydict -> http_outcome)
           (owner provider state : option string) : res pyval :=
  if negb (_rest_session self) then Raise not_initialized
  else
    let params := Params.market_async owner provider state in
    let url := (rest_endpoint self ++ "/akash/market/v1beta4/bids/list")%string in
    read (session_get url (Some params)).

Definition get_leases (self : AkashAsyncClient)
           (session_get : string -> option pydict -> http_outcome)
           (owner provider state : option string) : res pyval :=
  if negb (_rest_session self) then Raise not_initialized
  else
    let params := Params.market_async owner provider state in
    let url := (rest_endpoint self ++ "/akash/market/v1beta4/leases/list")%string in
    read (session_get url (Some params)).

End AsyncRest.

(* ------------------------------------------------------------------ *)
(** ** grpc_client.py *)

Module Grpc.

(** A channel as the call that made it: [grpc.aio.secure_channel] with
    the credentials, or [grpc.aio.insecure_channel]. *)
Inductive channel : Type :=
| Insecure (endpoint : string)
| Secure (endpoint : string) (credentials : string).

(** The calls into the [grpc] package. *)
Inductive event : Type :=
| Opened (c : channel)
| Closed (c : channel).

(** The attributes of [AkashGrpcClient]; a stub is [true] once made. *)
Record AkashGrpcClient : Type :=
  { endpoint : string;
    timeout : Z;
    max_retries : Z;
    credentials : option string;
    _channel : option channel;
    _deployment_stub : bool;
    _market_stub : bool;
    _provider_stub : bool;
    _cert_stub : bool }.

(** [AkashGrpcClient.__init__]; the message of the [AkashGrpcClientError]
    it raises is on the left. *)
Definition init (grpc_available protobuf_available : bool)
           (grpc_endpoint : string) (seconds retries : Z) (creds : option string)
  : string + AkashGrpcClient :=
  if negb grpc_available
  then inl "grpcio is required for gRPC support. Install with: pip install grpcio"
  else if negb protobuf_available
  then inl "Protobuf services not available. Run protobuf generation first."
  else inr {| endpoint := grpc_endpoint;
              timeout := seconds;
              max_retries := retries;
              credentials := creds;
              _channel := None;
              _deployment_stub := false;
              _market_stub := false;
              _provider_stub := false;
              _cert_stub := false |}.

Definition with_channel (self : AkashGrpcClient) (c : option channel)
  : AkashGrpcClient :=
  {| endpoint := endpoint self;
     timeout := timeout self;
     max_retries := max_retries self;
     credentials := credentials self;
     _channel := c;
     _deployment_stub := _deployment_stub self;
     _market_stub := _market_stub self;
     _provider_stub := _provider_stub self;
     _cert_stub := _cert_stub self |}.

(** Entering [_get_channel]: the client afterwards and the calls made. *)
Definition _get_channel (self : AkashGrpcClient) : AkashGrpcClient * list event :=
  match _channel self with
  | Some _ => (self, [])
  | None =>
      let c :=
        match credentials self with
        | Some creds => Secure (endpoint self) creds
        | None => Insecure (endpoint self)
        end in
      (with_channel self (Some c), [Opened c])
  end.

(** [close] *)
Definition close (self : AkashGrpcClient) : AkashGrpcClient * list event :=
  match _channel self with
  | Some c => (with_channel self None, [Closed c])
  | None => (self, [])
  end.

Definition placeholder (key : string) : pyval :=
  PDict [(key, PList []); ("pagination", PDict [("next_key", PNone)])].

(** [range(n)] *)
Definition range (n : Z) : list Z := map Z.of_nat (seq 0 (Z.to_nat n)).

(** The [for attempt in range(self.max_retries)] loop: its body returns
    in the first round, and the function ends without a [return] when
    there is no round. *)
Definition retry_loop (attempts : list Z) : pyval :=
  match attempts with
  | [] => PNone
  | _ :: _ => placeholder "deployments"
  end.

(** [query_deployments]: the value returned, the client afterwards and
    the calls made. *)
Definition query_deployments (self : AkashGrpcClient)
           (owner state : option string) (pagination_key : option (list byte))
           (pagination_limit : Z) : pyval * AkashGrpcClient * list event :=
  let '(self, calls) := _get_channel self in
  let self :=
    {| endpoint := endpoint self; timeout := timeout self;
       max_retries := max_retries self; credentials := credentials self;
       _channel := _channel self; _deployment_stub := true;
       _market_stub := _market_stub self; _provider_stub := _provider_stub self;
       _cert_stub := _cert_stub self |} in
  (retry_loop (range (max_retries self)), self, calls).

Definition query_market (key : string) (self : AkashGrpcClient)
  : pyval * AkashGrpcClient * list event :=
  let '(self, calls) := _get_channel self in
  let self :=
    {| endpoint := endpoint self; timeout := timeout self;
       max_retries := max_retries self; credentials := credentials self;
       _channel := _channel self; _deployment_stub := _deployment_stub self;
       _market_stub := true; _provider_stub := _provider_stub self;
       _cert_stub := _cert_stub self |} in
  (placeholder key, self, calls).

Definition query_bids (self : AkashGrpcClient) (owner provider state : option string)
  : pyval * AkashGrpcClient * list event :=
  query_market "bids" self.

Definition query_leases (self : AkashGrpcClient) (owner provider state : option string)
  : pyval * AkashGrpcClient * list event :=
  query_market "leases" self.

Definition query_providers (self : AkashGrpcClient) (filters : pyval)
  : pyval * AkashGrpcClient * list event :=
  let '(self, calls) := _get_channel self in
  let self :=
    {| endpoint := endpoint self; timeout := timeout self;
       max_retries := max_retries self; credentials := credentials self;
       _channel := _channel self; _deployment_stub := _deployment_stub self;
       _market_stub := _market_stub self; _provider_stub := true;
       _cert_stub := _cert_stub self |} in
  (placeholder "providers", self, calls).

Definition query_certificates (self : AkashGrpcClient) (owner : option string)
  : pyval * AkashGrpcClient * list event :=
  let '(self, calls) := _get_channel self in
  let self :=
    {| endpoint := endpoint self; timeout := timeout self;
       max_retries := max_retries self; credentials := credentials self;
       _channel := _channel self; _deployment_stub := _deployment_stub self;
       _market_stub := _market_stub self; _provider_stub := _provider_stub self;
       _cert_stub := true |} in
  (placeholder "certificates", self, calls).

(** A use of the client: one of the queries, or [close]. *)
Inductive call : Type :=
| QueryDeployments (owner state : option string)
                   (pagination_key : option (list byte)) (pagination_limit : Z)
| QueryBids (owner provider state : option string)
| QueryLeases (owner provider state : option string)
| QueryProviders (filters : pyval)
| QueryCertificates (owner : option string)
| Close.

Definition perform (c : call) (self : AkashGrpcClient)
  : AkashGrpcClient * list event :=
  match c with
  | QueryDeployments o s k l =>
      let '(_, self, calls) := query_deployments self o s k l in (self, calls)
  | QueryBids o p s => let '(_, self, calls) := query_bids self o p s in (self, calls)
  | QueryLeases o p s => let '(_, self, calls) := query_leases self o p s in (self, calls)
  | QueryProviders f => let '(_, self, calls) := query_providers self f in (self, calls)
  | QueryCertificates o =>
      let '(_, self, calls) := query_certificates self o in (self, calls)
  | Close => close self
  end.

(** The calls into the package made by a sequence of uses. *)
Fixpoint run (cs : list call) (self : AkashGrpcClient)
  : AkashGrpcClient * list event :=
  match cs with
  | [] => (self, [])
  | c :: rest =>
      let '(self, made) := perform c self in
      let '(self, later) := run rest self in
      (self, made ++ later)
  end.

End Grpc.

(* ------------------------------------------------------------------ *)
(** ** A sample gRPC client *)

Module GrpcSample.

(** A client as [AkashGrpcClient("grpc.akash.network:9090")] makes it. *)
Definition client : Grpc.AkashGrpcClient :=
  {| Grpc.endpoint := "grpc.akash.network:9090";
     Grpc.timeout := 30;
     Grpc.max_retries := 3;
     Grpc.credentials := None;
     Grpc._channel := None;
     Grpc._deployment_stub := false;
     Grpc._market_stub := false;
     Grpc._provider_stub := false;
     Grpc._cert_stub := false |}.

Definition calls : list Grpc.call :=
  [Grpc.QueryDeployments None None None 100;
   Grpc.QueryBids None None None;
   Grpc.QueryProviders PNone].

End GrpcSample.

(* ------------------------------------------------------------------ *)
(** ** Texts *)

Module Text.

(** Every character of [s] satisfies [p]. *)
Definition all_chars (p : ascii -> bool) (s : string) : bool :=
  forallb p (list_ascii_of_string s).

(** [s] ends with the character [c]. *)
Fixpoint ends_with (c : ascii) (s : string) : bool :=
  match s with
  | EmptyString => false
  | String a EmptyString => Ascii.eqb a c
  | String _ s' => ends_with c s'
  end.

(** [s] starts with the character [c]. *)
Definition starts_with (c : ascii) (s : string) : bool :=
  match s with
  | EmptyString => false
  | String a _ => Ascii.eqb a c
  end.

(** Every character is one of the 95 printable characters of ASCII. *)
Definition printable_ascii (s : string) : bool :=
  all_chars (Py.in_range 32 126) s.

End Text.

(* ================================================================== *)
(** * Properties *)

Import Transaction.

(** Order of keys *)
Lemma ascii_compare_N a b : Ascii.compare a b = N.compare (N_of_ascii a) (N_of_ascii b).
Proof. reflexivity. Qed.

Lemma string_leb_trans : forall a b c,
  String.leb a b = true -> String.leb b c = true -> String.leb a c = true.
Proof.
  unfold String.leb.
  induction a as [|x a IH]; intros [|y b] [|z c]; simpl; try congruence.
  rewrite !ascii_compare_N.
  destruct (N.compare_spec (N_of_ascii x) (N_of_ascii y));
    destruct (N.compare_spec (N_of_ascii y) (N_of_ascii z));
    destruct (N.compare_spec (N_of_ascii x) (N_of_ascii z)); try congruence; try lia; subst.
  apply IH.
Qed.

Lemma string_leb_false a b : String.leb a b = false -> String.leb b a = true.
Proof. intros H. destruct (String.leb_total a b); congruence. Qed.

(** Sorting the items of a dict *)
Section SortItems.
Context {A : Type}.
Implicit Types (kv : string * A) (l : list (string * A)).

Lemma insert_item_comm kv1 kv2 l :
  fst kv1 <> fst kv2 ->
  Json.insert_item kv1 (Json.insert_item kv2 l)
  = Json.insert_item kv2 (Json.insert_item kv1 l).
Proof.
  intros Hne.
  assert (Hx : String.leb (fst kv1) (fst kv2) = true -> String.leb (fst kv2) (fst kv1) = false).
  { intros H. destruct (String.leb (fst kv2) (fst kv1)) eqn:E; [|reflexivity].
    exfalso. apply Hne. apply String.leb_antisym; assumption. }
  assert (Hy : String.leb (fst kv1) (fst kv2) = false -> String.leb (fst kv2) (fst kv1) = true)
    by apply string_leb_false.
  induction l as [|x l IH].
  - cbn [Json.insert_item].
    destruct (String.leb (fst kv1) (fst kv2)) eqn:E12.
    + rewrite (Hx eq_refl). reflexivity.
    + rewrite (Hy eq_refl). reflexivity.
  - cbn [Json.insert_item].
    destruct (String.leb (fst kv2) (fst x)) eqn:E2x;
      destruct (String.leb (fst kv1) (fst x)) eqn:E1x;
      cbn [Json.insert_item]; rewrite ?E2x, ?E1x.
    + destruct (String.leb (fst kv1) (fst kv2)) eqn:E12.
      * rewrite (Hx eq_refl). reflexivity.
      * rewrite (Hy eq_refl). reflexivity.
    + assert (E12 : String.leb (fst kv1) (fst kv2) = false).
      { destruct (String.leb (fst kv1) (fst kv2)) eqn:E; [|reflexivity].
        rewrite (string_leb_trans _ _ _ E E2x) in E1x. discriminate. }
      rewrite E12. reflexivity.
    + assert (E21 : String.leb (fst kv2) (fst kv1) = false).
      { destruct (String.leb (fst kv2) (fst kv1)) eqn:E; [|reflexivity].
        rewrite (string_leb_trans _ _ _ E E1x) in E2x. discriminate. }
      rewrite E21. reflexivity.
    + rewrite IH. reflexivity.
Qed.

Lemma sort_items_perm l l' :
  Permutation l l' -> NoDup (map fst l) ->
  Json.sort_items l = Json.sort_items l'.
Proof.
  induction 1 as [|x l l' Hp IH|x y l|l l' l'' Hp1 IH1 Hp2 IH2]; intros Hnd; simpl.
  - reflexivity.
  - inversion Hnd; subst. rewrite IH by assumption. reflexivity.
  - apply insert_item_comm. inversion Hnd as [|? ? Hin _]; subst.
    intros E. apply Hin. simpl. left. symmetry. exact E.
  - rewrite IH1 by assumption. apply IH2.
    eapply Permutation_NoDup; [|exact Hnd]. apply Permutation_map. exact Hp1.
Qed.
End SortItems.

Lemma uniq_NoDup l : Py.uniq l = true -> NoDup l.
Proof.
  induction l as [|x l IH]; simpl; intros H; constructor.
  - apply andb_prop in H. destruct H as [H _].
    intros Hin. apply negb_true_iff in H.
    assert (existsb (String.eqb x) l = true).
    { apply existsb_exists. exists x. split; [assumption|apply String.eqb_refl]. }
    congruence.
  - apply IH. apply andb_prop in H. tauto.
Qed.

Lemma dict_get_In k v (d : pydict) : Py.dict_get k d = Some v -> In (k, v) d.
Proof.
  induction d as [|[k' v'] d IH]; simpl; [discriminate|].
  destruct (String.eqb_spec k k') as [->|Hne].
  - intros [= ->]. left. reflexivity.
  - intros H. right. apply IH. exact H.
Qed.

Lemma forallb_perm {A : Type} (f : A -> bool) l l' :
  Permutation l l' -> forallb f l = forallb f l'.
Proof.
  induction 1; simpl; try congruence.
  rewrite !andb_assoc, (andb_comm (f y)). reflexivity.
Qed.

Lemma forallb_map {A B : Type} (f : B -> bool) (g : A -> B) l :
  forallb f (map g l) = forallb (fun x => f (g x)) l.
Proof. induction l; simpl; congruence. Qed.

(** Same content, same canonical text *)
Section Canonical.
Variables isep ksep : string.

Lemma same_items_perm (d1 d2 : pydict) :
  NoDup (map fst d1) -> NoDup (map fst d2) ->
  List.length d1 = List.length d2 ->
  (forall k v, In (k, v) d1 ->
     exists v', Py.dict_get k d2 = Some v' /\ Json.canon isep ksep v = Json.canon isep ksep v') ->
  Permutation (map (fun kv => (fst kv, Json.canon isep ksep (snd kv))) d1)
              (map (fun kv => (fst kv, Json.canon isep ksep (snd kv))) d2).
Proof.
  intros Hnd1 Hnd2 Hlen Hsub.
  apply NoDup_Permutation_bis.
  - apply (NoDup_map_inv fst). rewrite map_map. simpl. exact Hnd1.
  - rewrite !length_map. lia.
  - intros [k c] Hin. apply in_map_iff in Hin.
    destruct Hin as [[k0 v] [Heq Hin]]. simpl in Heq. injection Heq as -> <-.
    destruct (Hsub _ _ Hin) as [v' [Hget Hc]].
    apply in_map_iff. exists (k, v'). simpl. split.
    + rewrite Hc. reflexivity.
    + apply dict_get_In. exact Hget.
Qed.

Lemma same_content_canon : forall a b,
  Py.wf a = true -> Py.wf b = true -> Py.same_content a b = true ->
  Json.canon isep ksep a = Json.canon isep ksep b.
Proof.
  induction a as [| x | x | x | x | l IH | d IH] using pyval_ind;
    intros [| y | y | y | y | l2 | d2] Hwa Hwb Hs; simpl in Hs; try discriminate.
  - reflexivity.
  - apply Bool.eqb_prop in Hs. subst. reflexivity.
  - apply Z.eqb_eq in Hs. subst. reflexivity.
  - apply String.eqb_eq in Hs. subst. reflexivity.
  - reflexivity.
  - (* lists: item by item *)
    assert (H : forallb Json.serializable l = forallb Json.serializable l2
                /\ map (Json.text true isep ksep) l = map (Json.text true isep ksep) l2).
    { simpl in Hwa, Hwb. revert l2 Hwb Hs.
      induction IH as [|u l Hu _ IHl]; intros [|w l2] Hwb Hs; try discriminate.
      - split; reflexivity.
      - simpl in Hwa, Hwb.
        apply andb_prop in Hwa. destruct Hwa as [Hwu Hwl].
        apply andb_prop in Hwb. destruct Hwb as [Hww Hwl2].
        apply andb_prop in Hs. destruct Hs as [Huw Hs].
        destruct (IHl Hwl l2 Hwl2 Hs) as [E1 E2].
        pose proof (Hu w Hwu Hww Huw) as Ec. unfold Json.canon in Ec.
        injection Ec as Ec1 Ec2.
        split; simpl; congruence. }
    destruct H as [E1 E2]. unfold Json.canon. simpl. rewrite E1, E2. reflexivity.
  - (* dicts: the items of one are a permutation of the items of the other *)
    simpl in Hwa, Hwb.
    apply andb_prop in Hwa. destruct Hwa as [Hu1 Hw1].
    apply andb_prop in Hwb. destruct Hwb as [Hu2 Hw2].
    apply andb_prop in Hs. destruct Hs as [Hlen Hs].
    apply Nat.eqb_eq in Hlen.
    apply uniq_NoDup in Hu1. apply uniq_NoDup in Hu2.
    assert (Hsub : forall k v, In (k, v) d ->
              exists v', Py.dict_get k d2 = Some v' /\ Json.canon isep ksep v = Json.canon isep ksep v').
    { clear Hlen Hu1. revert Hw1 Hs.
      induction IH as [|[k0 v0] d Hv _ IHd]; intros Hw1 Hs k v Hin; [destruct Hin|].
      simpl in Hw1, Hs, Hv.
      apply andb_prop in Hw1. destruct Hw1 as [Hwv Hw1].
      apply andb_prop in Hs. destruct Hs as [Hg Hs].
      destruct Hin as [Heq|Hin].
      - injection Heq as <- <-.
        destruct (Py.dict_get k0 d2) as [v'|] eqn:Eg; [|discriminate].
        exists v'. split; [reflexivity|].
        apply Hv; [assumption| |assumption].
        apply dict_get_In in Eg.
        rewrite forallb_forall in Hw2. exact (Hw2 _ Eg).
      - exact (IHd Hw1 Hs k v Hin). }
    pose proof (same_items_perm d d2 Hu1 Hu2 Hlen Hsub) as Hp.
    unfold Json.canon. simpl. f_equal.
    + transitivity (forallb (fun kc => fst (snd kc))
                      (map (fun kv => (fst kv, Json.canon isep ksep (snd kv))) d)).
      { rewrite forallb_map. reflexivity. }
      rewrite (forallb_perm _ _ _ Hp), forallb_map. reflexivity.
    + apply (Permutation_map (fun kc => (fst kc, snd (snd kc)))) in Hp.
      rewrite !map_map in Hp. simpl in Hp.
      rewrite (sort_items_perm _ _ Hp).
      * reflexivity.
      * rewrite map_map. simpl. exact Hu1.
Qed.
End Canonical.

(** Strings *)
Lemma append_assoc (a b c : string) : ((a ++ b) ++ c = a ++ (b ++ c))%string.
Proof. induction a; simpl; congruence. Qed.

Lemma append_length (a b : string) :
  String.length (a ++ b) = (String.length a + String.length b)%nat.
Proof. induction a; simpl; congruence. Qed.

Lemma append_inv_head (a x y : string) : (a ++ x = a ++ y)%string -> x = y.
Proof. induction a; simpl; intros H; [assumption|]. injection H. auto. Qed.

Lemma append_inv_tail (b x y : string) : (x ++ b = y ++ b)%string -> x = y.
Proof.
  revert y. induction x as [|c x IH]; intros [|d y] H; simpl in H.
  - reflexivity.
  - apply (f_equal String.length) in H. simpl in H. rewrite append_length in H. lia.
  - apply (f_equal String.length) in H. simpl in H. rewrite append_length in H. lia.
  - injection H as -> H. f_equal. apply IH. exact H.
Qed.

(** UTF-8 *)
Lemma decode_encode_char c rest :
  Py.decode (Py.encode_char c ++ rest) = String c (Py.decode rest).
Proof.
  destruct c as [[] [] [] [] [] [] [] []]; reflexivity.
Qed.

Lemma decode_encode s : Py.decode (Py.encode s) = s.
Proof.
  induction s as [|c s IH]; simpl; [reflexivity|].
  rewrite decode_encode_char, IH. reflexivity.
Qed.

Lemma encode_inj s t : Py.encode s = Py.encode t -> s = t.
Proof.
  intros H. rewrite <- (decode_encode s), <- (decode_encode t), H. reflexivity.
Qed.

(** [str] of an [int] *)
Lemma str_of_int_inj m n : Py.str_of_int m = Py.str_of_int n -> m = n.
Proof.
  unfold Py.str_of_int. intros H.
  apply DecimalZ.to_int_inj.
  assert (E : Some (Z.to_int m) = Some (Z.to_int n)).
  { rewrite <- !NilEmpty.isi. rewrite H. reflexivity. }
  congruence.
Qed.

Lemma escape_char_plain c : plain_char c = true -> Json.escape_char c = Py.str1 c.
Proof.
  destruct c as [[] [] [] [] [] [] [] []]; intros H; try discriminate H; reflexivity.
Qed.

Lemma escape_plain s : plain s = true -> Json.escape s = s.
Proof.
  induction s as [|c s IH]; simpl; [reflexivity|].
  intros H. apply andb_prop in H. destruct H as [Hc Hs].
  rewrite (escape_char_plain c Hc), (IH Hs). reflexivity.
Qed.

Lemma plain_string_of_uint d : plain (NilEmpty.string_of_uint d) = true.
Proof. induction d; simpl; auto. Qed.

Lemma plain_str_of_int n : plain (Py.str_of_int n) = true.
Proof.
  unfold Py.str_of_int. destruct (Z.to_int n); simpl; apply plain_string_of_uint.
Qed.

Lemma escape_str_of_int n : Json.escape (Py.str_of_int n) = Py.str_of_int n.
Proof. apply escape_plain, plain_str_of_int. Qed.

Ltac eval_key_order :=
  repeat match goal with
         | |- context [String.leb ?a ?b] =>
             let r := eval vm_compute in (String.leb a b) in
             change (String.leb a b) with r;
             cbn [Json.insert_item fst snd]
         end.

Ltac canonical_text :=
  cbn [Json.text map fst snd Json.sort_items Json.insert_item];
  eval_key_order;
  cbn [map fst snd Py.join].

Ltac peel H :=
  repeat first [ apply append_inv_head in H | apply append_inv_tail in H ].

Lemma auth_text_inj (w : Wallet) (ti1 ti2 : TransactionInfo) (amount g : Z) :
  Json.text true ", " ": " (tx_auth_info w ti1 amount g)
  = Json.text true ", " ": " (tx_auth_info w ti2 amount g) ->
  sequence ti1 = sequence ti2.
Proof.
  unfold tx_auth_info. canonical_text. intros H.
  peel H.
  injection H as H. rewrite !escape_str_of_int in H.
  apply str_of_int_inj. exact H.
Qed.

(* ------------------------------------------------------------------ *)
(** ** The embedded library functions on known values *)

Example sha256_abc :
  Sha256.of_bytes_be (Sha256.digest (Py.encode "abc"))
  = 0xba7816bf8f01cfea414140de5dae2223b00361a396177a9cb410ff61f20015ad.
Proof. vm_compute. reflexivity. Qed.

Example sha256_empty :
  Sha256.of_bytes_be (Sha256.digest [])
  = 0xe3b0c44298fc1c149afbf4c8996fb92427ae41e4649b934ca495991b7852b855.
Proof. vm_compute. reflexivity. Qed.

Example sha256_two_blocks :
  Sha256.of_bytes_be (Sha256.digest (repeat "a"%byte 100))
  = 0x2816597888e4a0d3a36b82b83316ab32680eb8f00f8cd3b904d681246d285a0e.
Proof. vm_compute. reflexivity. Qed.

Example b64encode_vectors :
  map (fun t => Base64.b64encode (Py.encode t)) ["f"; "fo"; "foo"; "foob"]
  = ["Zg=="; "Zm8="; "Zm9v"; "Zm9vYg=="].
Proof. vm_compute. reflexivity. Qed.

Example generator_on_curve :
  (Ecdsa.gen_y * Ecdsa.gen_y - (Ecdsa.gen_x * Ecdsa.gen_x * Ecdsa.gen_x + 7))
    mod Ecdsa.field_p = 0.
Proof. vm_compute. reflexivity. Qed.

Example generator_doubled :
  Ecdsa.mul 2 Ecdsa.generator
  = Ecdsa.Affine
      0xc6047f9441ed7d6d3045406e95c07cd85c778e4b8cef3ca7abac09b95c709ee5
      0x1ae168fea63dc339a3c58419466ceaeef7f632653266d0e1236431a950cfe52a.
Proof. vm_compute. reflexivity. Qed.

Example inverse_mod_two :
  (2 * Ecdsa.inverse_mod 2 Ecdsa.order) mod Ecdsa.order = 1.
Proof. vm_compute. reflexivity. Qed.

Example float_of_string_vectors :
  map PyFloat.of_string ["0.025"; " 1_0.5e1 "; "1e23"; "5e-324"; "1e400"; "-0"; "1_"; "0x10"]
  = [Ok (S754_finite false 7205759403792794 (-58));
     Ok (S754_finite false 7388718138654720 (-46));
     Ok (S754_finite false 5960464477539062 (24));
     Ok (S754_finite false 1 (-1074));
     Ok (S754_infinity false);
     Ok (S754_zero true);
     Raise ValueError;
     Raise ValueError].
Proof. vm_compute. reflexivity. Qed.

Example gas_amount_vectors :
  map (gas_amount Scenario.signer) [200000; 300000; 39; 40; 41; -41; 9007199254740959]
  = [Ok 5000; Ok 7500; Ok 0; Ok 1; Ok 1; Ok (-1); Ok 225179981368524].
Proof. vm_compute. reflexivity. Qed.

Example json_dumps_sorted :
  Json.dumps true
    (PDict [("b", PInt (-12));
            ("a", PList [PNone; PBool true; PStr "x'y"; PStr (Py.backquoted "`q\z")]);
            ("c", PDict [("z", PStr (String "233"%char (String "010"%char "~")));
                         ("y", PDict []); ("x", PList [])])])
  = Ok (Py.backquoted
          "{`a`: [null, true, `x'y`, `\`q\\z`], `b`: -12, `c`: {`x`: [], `y`: {}, `z`: `\u00e9\n~`}}").
Proof. vm_compute. reflexivity. Qed.

Example json_dumps_bytes :
  Json.dumps true (PDict [("a", PBytes [x61])])
  = Raise (TypeError "Object of type bytes is not JSON serializable").
Proof. reflexivity. Qed.

Example str_of_dict :
  Py.str (PDict [("code", PInt (-1)); ("message", PStr "it's");
                 ("data", PList [PNone; PBool false; PBytes [x61; xff]])])
  = Py.backquoted "{'code': -1, 'message': `it's`, 'data': [None, False, b'a\xff']}".
Proof. vm_compute. reflexivity. Qed.

Example int_vectors :
  map Py.int [PStr "  -1_000 "; PStr "+07"; PStr "1__0"; PStr "1_"; PStr "- 1";
              PBool true; PInt 5; PNone]
  = [Ok (-1000); Ok 7; Raise ValueError; Raise ValueError; Raise ValueError;
     Ok 1; Ok 5;
     Raise (TypeError "int() argument must be a string, a bytes-like object or a real number, not 'NoneType'")].
Proof. vm_compute. reflexivity. Qed.

Example white_space_vectors :
  map Py.int [PStr (String "028"%char "5"); PStr (String "031"%char "5");
              PStr (String "133"%char "5"); PStr (String "160"%char "5");
              PStr (String "011"%char "5"); PBytes [xa0; x35]; PBytes [x0b; x35]]
  = [Raise ValueError; Raise ValueError; Ok 5; Ok 5; Ok 5; Raise ValueError; Ok 5]
  /\ map PyFloat.of_string [String "028"%char "1"; String "160"%char "1"]
     = [Raise ValueError; Ok (S754_finite false 4503599627370496 (-52))].
Proof. vm_compute. split; reflexivity. Qed.

Example digit_limit_vectors :
  map Py.int [PStr (string_of_list_ascii (repeat "1"%char 4301));
              PStr (string_of_list_ascii (repeat "0"%char 4301));
              PStr (String "-" (string_of_list_ascii (repeat "9"%char 4301)));
              PStr "-000000000000000000000000000012"]
  = [Raise ValueError; Raise ValueError; Raise ValueError; Ok (-12)].
Proof. vm_compute. reflexivity. Qed.

Example replace_vectors :
  map (fun t => Py.replace t "uakt" EmptyString)
      ["10000000uakt"; "uauaktkt"; "uaktuaktx"; "5uatom"]
  = ["10000000"; "uakt"; "x"; "5uatom"].
Proof. vm_compute. reflexivity. Qed.

(* ------------------------------------------------------------------ *)
(** ** The signing document is never encoded *)

Lemma bind_ok {A B : Type} (m : res A) (f : A -> res B) (b : B) :
  bind m f = Ok b -> exists a, m = Ok a /\ f a = Ok b.
Proof. destruct m as [a|e]; simpl; [eauto|discriminate]. Qed.

Lemma sign_doc_not_serializable self tx ti doc :
  sign_doc self tx ti = Ok doc -> Json.serializable doc = false.
Proof.
  unfold sign_doc. intros H.
  apply bind_ok in H. destruct H as [body [_ H]].
  apply bind_ok in H. destruct H as [bb [_ H]].
  apply bind_ok in H. destruct H as [auth [_ H]].
  apply bind_ok in H. destruct H as [ab [_ H]].
  injection H as <-. reflexivity.
Qed.

Lemma sign_bytes_refused self tx ti doc :
  sign_doc self tx ti = Ok doc -> sign_bytes doc = Raise Json.not_serializable.
Proof.
  intros H. unfold sign_bytes, Json.dumps_with.
  rewrite (sign_doc_not_serializable _ _ _ _ H). reflexivity.
Qed.

Lemma sign_transaction_outcome self w tx ti k :
  sign_transaction self w tx ti k
  = match sign_doc self tx ti with
    | Ok _ => Raise Json.not_serializable
    | Raise e => Raise e
    end.
Proof.
  unfold sign_transaction.
  destruct (sign_doc self tx ti) as [doc|e] eqn:E; simpl; [|reflexivity].
  rewrite (sign_bytes_refused _ _ _ _ E). reflexivity.
Qed.

Lemma dumps_serializable sort_keys obj :
  Json.serializable obj = true ->
  Json.dumps sort_keys obj = Ok (Json.text sort_keys ", " ": " obj).
Proof. intros H. unfold Json.dumps, Json.dumps_with. rewrite H. reflexivity. Qed.

Lemma created_sign_doc self w msgs ti amount g :
  forallb Json.serializable msgs = true ->
  exists doc,
    sign_doc self
      (PDict [("body", tx_body msgs ti);
              ("auth_info", tx_auth_info w ti amount g);
              ("signatures", PList [])]) ti = Ok doc.
Proof.
  intros Hm. unfold sign_doc, _encode_body, _encode_auth_info.
  cbn [Py.getitem Py.dict_get String.eqb Ascii.eqb Bool.eqb bind].
  rewrite dumps_serializable.
  2:{ simpl. rewrite Hm. reflexivity. }
  cbn [bind]. rewrite dumps_serializable by reflexivity.
  cbn [bind]. eexists. reflexivity.
Qed.

Lemma sign_transaction_refused self w tx ti k doc :
  sign_doc self tx ti = Ok doc ->
  sign_transaction self w tx ti k = Raise Json.not_serializable.
Proof. intros H. rewrite sign_transaction_outcome, H. reflexivity. Qed.

(** C10.  [sign_transaction] is written to return the transaction with a
    one-element ["signatures"] list and everything else unchanged, but it
    returns for no input at all: whenever the signing document is built,
    [json.dumps] refuses the [bytes] it holds and the call raises the
    [TypeError] before a signature exists. *)
Theorem sign_transaction_never_returns :
  forall self w tx ti k,
    (forall signed, sign_transaction self w tx ti k <> Ok signed) /\
    (forall doc, sign_doc self tx ti = Ok doc ->
       sign_transaction self w tx ti k = Raise Json.not_serializable).
Proof.
  intros self w tx ti k. rewrite sign_transaction_outcome. split.
  - intros signed. destruct (sign_doc self tx ti); discriminate.
  - intros doc H. rewrite H. reflexivity.
Qed.

Lemma sign_transaction_never_returns_witness :
  sign_transaction Scenario.signer Scenario.wallet Scenario.transaction
                   Scenario.tx_info 1
  = Raise (TypeError "Object of type bytes is not JSON serializable").
Proof.
  eapply (proj2 (sign_transaction_never_returns _ _ _ _ _)).
  vm_compute. reflexivity.
Defined.

(** The scenario of the specification, from the account query to the
    broadcast: it stops in [sign_transaction]. *)
Example scenario_stops_at_signing :
  AsyncClient.create_deployment Scenario.client Scenario.wallet Scenario.sdl
    default_deposit default_gas_limit
    (Responded 200 (Some (PDict [("account",
        PDict [("account_number", PStr "5"); ("sequence", PStr "2")])])))
    (Responded 200 (Some Scenario.acceptance)) 1
  = Raise (TypeError "Object of type bytes is not JSON serializable").
Proof. vm_compute. reflexivity. Qed.

Example scenario_transaction :
  (msg <- create_deployment_msg Scenario.signer (address Scenario.wallet)
                                Scenario.sdl default_deposit ;;
   create_transaction Scenario.signer Scenario.wallet [msg] Scenario.tx_info
                      default_gas_limit)
  = Ok Scenario.transaction.
Proof. vm_compute. reflexivity. Qed.

(* ------------------------------------------------------------------ *)
(** ** Canonical encoding *)

Lemma same_content_dumps a b :
  Py.wf a = true -> Py.wf b = true -> Py.same_content a b = true ->
  Json.dumps true a = Json.dumps true b.
Proof.
  intros Ha Hb Hs.
  pose proof (same_content_canon ", " ": " a b Ha Hb Hs) as H.
  unfold Json.canon in H. injection H as H1 H2.
  unfold Json.dumps, Json.dumps_with. rewrite H1, H2. reflexivity.
Qed.

(** C6.  Transactions with the same content, whatever the order in which
    their dicts received their keys, have the same body bytes and the same
    auth_info bytes; the third encoding, the signing payload, is never
    produced: [json.dumps] refuses the signing document for both. *)
Theorem canonical_bytes_stable_payload_refused :
  forall self ti tx1 tx2 b1 b2 a1 a2,
    Py.getitem tx1 "body" = Ok b1 -> Py.getitem tx2 "body" = Ok b2 ->
    Py.getitem tx1 "auth_info" = Ok a1 -> Py.getitem tx2 "auth_info" = Ok a2 ->
    Py.wf b1 = true -> Py.wf b2 = true -> Py.wf a1 = true -> Py.wf a2 = true ->
    Py.same_content b1 b2 = true -> Py.same_content a1 a2 = true ->
    _encode_body self b1 = _encode_body self b2 /\
    _encode_auth_info self a1 = _encode_auth_info self a2 /\
    sign_doc self tx1 ti = sign_doc self tx2 ti /\
    (forall doc, sign_doc self tx1 ti = Ok doc ->
       sign_bytes doc = Raise Json.not_serializable).
Proof.
  intros self ti tx1 tx2 b1 b2 a1 a2 Hb1 Hb2 Ha1 Ha2 W1 W2 W3 W4 Sb Sa.
  assert (Eb : _encode_body self b1 = _encode_body self b2).
  { unfold _encode_body. rewrite (same_content_dumps _ _ W1 W2 Sb). reflexivity. }
  assert (Ea : _encode_auth_info self a1 = _encode_auth_info self a2).
  { unfold _encode_auth_info. rewrite (same_content_dumps _ _ W3 W4 Sa). reflexivity. }
  repeat split; try assumption.
  - unfold sign_doc. rewrite Hb1, Hb2, Ha1, Ha2. cbn [bind]. rewrite Eb, Ea. reflexivity.
  - intros doc. apply sign_bytes_refused.
Qed.

Lemma canonical_bytes_stable_payload_refused_witness :
  _encode_body Scenario.signer (Scenario.value_of (Py.getitem Scenario.transaction "body"))
  = _encode_body Scenario.signer
      (Scenario.value_of (Py.getitem Scenario.reordered_transaction "body"))
  /\ sign_doc Scenario.signer Scenario.transaction Scenario.tx_info
     = sign_doc Scenario.signer Scenario.reordered_transaction Scenario.tx_info
  /\ (exists doc, sign_doc Scenario.signer Scenario.transaction Scenario.tx_info = Ok doc
                  /\ sign_bytes doc = Raise Json.not_serializable).
Proof.
  destruct (canonical_bytes_stable_payload_refused
              Scenario.signer Scenario.tx_info
              Scenario.transaction Scenario.reordered_transaction
              _ _ _ _ eq_refl eq_refl eq_refl eq_refl
              eq_refl eq_refl eq_refl eq_refl eq_refl eq_refl)
    as [Hb [Ha [Hd Hp]]].
  split; [exact Hb|]. split; [exact Hd|].
  eexists. split; [vm_compute; reflexivity|].
  apply Hp. vm_compute. reflexivity.
Defined.

(* ------------------------------------------------------------------ *)
(** ** Sequence sensitivity *)

Lemma create_transaction_ok self w msgs ti g amount :
  gas_amount self g = Ok amount ->
  create_transaction self w msgs ti g
  = Ok (PDict [("body", tx_body msgs ti);
               ("auth_info", tx_auth_info w ti amount g);
               ("signatures", PList [])]).
Proof. intros H. unfold create_transaction. rewrite H. reflexivity. Qed.

Lemma encode_auth_info_created self w ti amount g :
  _encode_auth_info self (tx_auth_info w ti amount g)
  = Ok (Py.encode (Json.text true ", " ": " (tx_auth_info w ti amount g))).
Proof.
  unfold _encode_auth_info. rewrite dumps_serializable by reflexivity. reflexivity.
Qed.

(** C7.  Two transactions assembled from the same wallet, messages and
    gas limit with different sequences have different auth_info bytes;
    the encoded signing payload and the signatures that should differ do
    not exist, since [sign_transaction] raises the [TypeError] of
    [json.dumps] for both. *)
Theorem sequence_changes_auth_info_bytes_only :
  forall self w msgs ti1 ti2 g amount k1 k2,
    forallb Json.serializable msgs = true ->
    gas_amount self g = Ok amount ->
    sequence ti1 <> sequence ti2 ->
    exists tx1 tx2 a1 a2,
      create_transaction self w msgs ti1 g = Ok tx1 /\
      create_transaction self w msgs ti2 g = Ok tx2 /\
      (a <- Py.getitem tx1 "auth_info" ;; _encode_auth_info self a) = Ok a1 /\
      (a <- Py.getitem tx2 "auth_info" ;; _encode_auth_info self a) = Ok a2 /\
      a1 <> a2 /\
      sign_transaction self w tx1 ti1 k1 = Raise Json.not_serializable /\
      sign_transaction self w tx2 ti2 k2 = Raise Json.not_serializable.
Proof.
  intros self w msgs ti1 ti2 g amount k1 k2 Hm Hg Hseq.
  do 4 eexists.
  split; [apply create_transaction_ok; exact Hg|].
  split; [apply create_transaction_ok; exact Hg|].
  split; [cbn [Py.getitem Py.dict_get String.eqb Ascii.eqb Bool.eqb bind];
          apply encode_auth_info_created|].
  split; [cbn [Py.getitem Py.dict_get String.eqb Ascii.eqb Bool.eqb bind];
          apply encode_auth_info_created|].
  split.
  - intros E. apply encode_inj in E. apply auth_text_inj in E. contradiction.
  - split.
    + destruct (created_sign_doc self w msgs ti1 amount g Hm) as [doc Hd].
      exact (sign_transaction_refused _ _ _ _ _ doc Hd).
    + destruct (created_sign_doc self w msgs ti2 amount g Hm) as [doc Hd].
      exact (sign_transaction_refused _ _ _ _ _ doc Hd).
Qed.

Lemma sequence_changes_auth_info_bytes_only_witness :
  exists tx1 tx2 a1 a2,
    create_transaction Scenario.signer Scenario.wallet [Scenario.deployment_msg]
      Scenario.tx_info default_gas_limit = Ok tx1 /\
    create_transaction Scenario.signer Scenario.wallet [Scenario.deployment_msg]
      {| chain_id := default_chain_id; account_number := 5; sequence := 3;
         fee := PDict []; memo := EmptyString |} default_gas_limit = Ok tx2 /\
    (a <- Py.getitem tx1 "auth_info" ;; _encode_auth_info Scenario.signer a) = Ok a1 /\
    (a <- Py.getitem tx2 "auth_info" ;; _encode_auth_info Scenario.signer a) = Ok a2 /\
    a1 <> a2 /\
    sign_transaction Scenario.signer Scenario.wallet tx1 Scenario.tx_info 1
    = Raise Json.not_serializable /\
    sign_transaction Scenario.signer Scenario.wallet tx2
      {| chain_id := default_chain_id; account_number := 5; sequence := 3;
         fee := PDict []; memo := EmptyString |} 2
    = Raise Json.not_serializable.
Proof.
  apply (sequence_changes_auth_info_bytes_only
           Scenario.signer Scenario.wallet [Scenario.deployment_msg]
           Scenario.tx_info
           {| chain_id := default_chain_id; account_number := 5; sequence := 3;
              fee := PDict []; memo := EmptyString |}
           default_gas_limit 5000 1 2).
  - reflexivity.
  - vm_compute. reflexivity.
  - simpl. lia.
Defined.

(* ------------------------------------------------------------------ *)
(** ** The two ECDSA statements *)

Lemma of_bytes_be_snoc l b :
  Sha256.of_bytes_be (l ++ [b]) = Sha256.of_bytes_be l * 256 + Sha256.byte_val b.
Proof. unfold Sha256.of_bytes_be. rewrite fold_left_app. reflexivity. Qed.

Lemma byte_val_low_byte x : Sha256.byte_val (Sha256.low_byte x) = x mod 256.
Proof.
  unfold Sha256.byte_val, Sha256.low_byte.
  assert (Hr : 0 <= x mod 256 < 256) by (apply Z.mod_pos_bound; lia).
  destruct (Byte.of_N (Z.to_N (x mod 256))) as [b|] eqn:E.
  - apply Byte.to_of_N in E. rewrite E. rewrite Z2N.id; lia.
  - apply Byte.of_N_None_iff in E. lia.
Qed.

Lemma of_to_bytes_be len x :
  Sha256.of_bytes_be (Sha256.to_bytes_be len x) = x mod 256 ^ Z.of_nat len.
Proof.
  revert x. induction len as [|len IH]; intros x.
  - simpl. rewrite Z.mod_1_r. reflexivity.
  - cbn [Sha256.to_bytes_be]. rewrite of_bytes_be_snoc, IH, byte_val_low_byte.
    rewrite Nat2Z.inj_succ, Z.pow_succ_r by lia.
    assert (Hp : 0 < 256 ^ Z.of_nat len) by (apply Z.pow_pos_nonneg; lia).
    rewrite (Z.rem_mul_r x 256 (256 ^ Z.of_nat len)) by lia.
    lia.
Qed.

Lemma to_bytes_be_length len x : List.length (Sha256.to_bytes_be len x) = len.
Proof.
  revert x. induction len as [|len IH]; intros x; simpl; [reflexivity|].
  rewrite length_app, IH. simpl. lia.
Qed.

Lemma order_below_2_256 : Ecdsa.order < 256 ^ Z.of_nat Ecdsa.baselen.
Proof. vm_compute. reflexivity. Qed.

Lemma sign_number_r key number k r s :
  Ecdsa.sign_number key number k = Ok (r, s) ->
  r = Ecdsa.nonce_r k /\ 0 <= r < Ecdsa.order.
Proof.
  unfold Ecdsa.sign_number, Ecdsa.nonce_r.
  destruct (negb _); [discriminate|].
  destruct (Ecdsa.mul _ _) as [|x y]; [discriminate|].
  destruct (x mod Ecdsa.order =? 0); [discriminate|].
  destruct (_ =? 0); [discriminate|].
  intros [= <- _]. split; [reflexivity|].
  apply Z.mod_pos_bound. reflexivity.
Qed.

(** C1.  Two calls of [sign_transaction] with the same wallet, the same
    transaction and the same tx_info are written to sign the same digest
    (lines 272-277), but neither yields a signature: the call raises at
    [json.dumps] before the two ECDSA statements run, so that the outcome
    is the same exception whatever nonce the library would have drawn,
    and never a signed transaction. *)
Theorem two_signings_yield_no_signature :
  forall self w tx ti k1 k2,
    sign_transaction self w tx ti k1 = sign_transaction self w tx ti k2
    /\ (forall signed, sign_transaction self w tx ti k1 <> Ok signed)
    /\ (forall signed, sign_transaction self w tx ti k2 <> Ok signed)
    /\ (forall doc, sign_doc self tx ti = Ok doc ->
          sign_transaction self w tx ti k1 = Raise Json.not_serializable
          /\ sign_transaction self w tx ti k2 = Raise Json.not_serializable).
Proof.
  intros self w tx ti k1 k2. rewrite !sign_transaction_outcome.
  split; [reflexivity|]. split; [|split].
  - intros signed. destruct (sign_doc self tx ti); discriminate.
  - intros signed. destruct (sign_doc self tx ti); discriminate.
  - intros doc H. rewrite H. split; reflexivity.
Qed.

Lemma two_signings_yield_no_signature_witness :
  sign_transaction Scenario.signer Scenario.wallet Scenario.transaction
                   Scenario.tx_info 1
  = Raise (TypeError "Object of type bytes is not JSON serializable")
  /\ sign_transaction Scenario.signer Scenario.wallet Scenario.transaction
                      Scenario.tx_info 2
     = Raise (TypeError "Object of type bytes is not JSON serializable").
Proof.
  eapply (proj2 (proj2 (proj2 (two_signings_yield_no_signature
                                 Scenario.signer Scenario.wallet Scenario.transaction
                                 Scenario.tx_info 1 2)))).
  vm_compute. reflexivity.
Defined.

(* ------------------------------------------------------------------ *)
(** ** Binary64 rounding never overflows below the largest double *)

Lemma digits2_pos_bounds p :
  2 ^ (Zpos (digits2_pos p) - 1) <= Zpos p < 2 ^ Zpos (digits2_pos p).
Proof.
  induction p as [p IH|p IH|]; cbn [digits2_pos].
  - rewrite Pos2Z.inj_succ, Z.pow_succ_r by lia.
    replace (Z.succ (Zpos (digits2_pos p)) - 1) with (Z.succ (Zpos (digits2_pos p) - 1)) by lia.
    rewrite Z.pow_succ_r by lia. lia.
  - rewrite Pos2Z.inj_succ, Z.pow_succ_r by lia.
    replace (Z.succ (Zpos (digits2_pos p)) - 1) with (Z.succ (Zpos (digits2_pos p) - 1)) by lia.
    rewrite Z.pow_succ_r by lia. lia.
  - simpl. lia.
Qed.

Lemma digits2_pos_le p n : 0 <= n -> Zpos p < 2 ^ n -> Zpos (digits2_pos p) <= n.
Proof.
  intros Hn Hp. pose proof (digits2_pos_bounds p) as [Hlo _].
  destruct (Z_le_gt_dec (Zpos (digits2_pos p)) n) as [H|H]; [exact H|].
  exfalso.
  assert (2 ^ n <= 2 ^ (Zpos (digits2_pos p) - 1)) by (apply Z.pow_le_mono_r; lia).
  lia.
Qed.

Lemma Zdigits2_nonneg m : 0 <= Zdigits2 m.
Proof. destruct m; simpl; lia. Qed.

Lemma Zdigits2_lt m : 0 <= m -> m < 2 ^ Zdigits2 m.
Proof.
  destruct m as [|p|p]; simpl; intros H; [lia| |lia].
  apply digits2_pos_bounds.
Qed.

Lemma Zdigits2_le m n : 0 <= m -> 0 <= n -> m < 2 ^ n -> Zdigits2 m <= n.
Proof.
  destruct m as [|p|p]; simpl; intros Hm Hn H; [lia| |lia].
  apply digits2_pos_le; assumption.
Qed.

Lemma Zdigits2_succ m : 0 <= m -> Zdigits2 (m + 1) <= Zdigits2 m + 1.
Proof.
  intros Hm. pose proof (Zdigits2_nonneg m). pose proof (Zdigits2_lt m Hm).
  apply Zdigits2_le; try lia.
  rewrite Z.pow_add_r by lia. simpl. lia.
Qed.

Lemma Zdigits2_mul p q :
  Zpos (digits2_pos (p * q)) <= Zpos (digits2_pos p) + Zpos (digits2_pos q).
Proof.
  pose proof (digits2_pos_bounds p) as [_ Hp].
  pose proof (digits2_pos_bounds q) as [_ Hq].
  apply digits2_pos_le; [lia|].
  rewrite Z.pow_add_r by lia. rewrite Pos2Z.inj_mul. nia.
Qed.

Lemma shr_1_m mrs :
  0 <= shr_m mrs ->
  0 <= shr_m (shr_1 mrs) /\
  Zdigits2 (shr_m (shr_1 mrs)) = Z.max 0 (Zdigits2 (shr_m mrs) - 1).
Proof.
  destruct mrs as [m r s]. cbn [shr_m]. intros Hm.
  destruct m as [|[p|p|]|p]; cbn [shr_1 shr_m Zdigits2 digits2_pos]; try lia.
Qed.

Lemma iter_shr_1_m p : forall mrs,
  0 <= shr_m mrs ->
  0 <= shr_m (iter_pos shr_1 p mrs) /\
  Zdigits2 (shr_m (iter_pos shr_1 p mrs)) = Z.max 0 (Zdigits2 (shr_m mrs) - Zpos p).
Proof.
  induction p as [p IH|p IH|]; intros mrs Hm; cbn [iter_pos].
  - destruct (shr_1_m mrs Hm) as [H1 D1].
    destruct (IH _ H1) as [H2 D2]. destruct (IH _ H2) as [H3 D3].
    split; [exact H3|]. rewrite D3, D2, D1. lia.
  - destruct (IH _ Hm) as [H2 D2]. destruct (IH _ H2) as [H3 D3].
    split; [exact H3|]. rewrite D3, D2. lia.
  - apply shr_1_m. exact Hm.
Qed.

Lemma shr_record_of_loc_m m l : shr_m (shr_record_of_loc m l) = m.
Proof. destruct l as [|[]]; reflexivity. Qed.

(** One pass of [shr_fexp] on a non-negative mantissa: the mantissa stays
    non-negative and fits the precision, the exponent is the larger of
    the given one and the canonical one. *)
Lemma shr_fexp_spec m e l :
  0 <= m ->
  let '(mrs, e') := shr_fexp PyFloat.prec PyFloat.emax m e l in
  0 <= shr_m mrs /\
  e' = Z.max e (fexp PyFloat.prec PyFloat.emax (Zdigits2 m + e)) /\
  (Zdigits2 (shr_m mrs) <= PyFloat.prec \/ (shr_m mrs = m /\ e' = e /\ Zdigits2 m <= PyFloat.prec)).
Proof.
  intros Hm. unfold shr_fexp, shr.
  pose proof (Zdigits2_nonneg m) as Hd.
  remember (fexp PyFloat.prec PyFloat.emax (Zdigits2 m + e)) as fe eqn:Hfe.
  assert (Hfe' : Zdigits2 m + e - PyFloat.prec <= fe)
    by (subst fe; unfold fexp; lia).
  destruct (fe - e) as [|p|p] eqn:Hn.
  - rewrite shr_record_of_loc_m. split; [exact Hm|]. split; [lia|].
    right. repeat split; lia.
  - destruct (iter_shr_1_m p (shr_record_of_loc m l)) as [H1 D1];
      [rewrite shr_record_of_loc_m; exact Hm|].
    rewrite shr_record_of_loc_m in D1.
    split; [exact H1|]. split; [lia|]. left. rewrite D1. unfold PyFloat.prec in *. lia.
  - rewrite shr_record_of_loc_m. split; [exact Hm|]. split; [lia|].
    right. repeat split; lia.
Qed.

Lemma round_nearest_even_range m l :
  0 <= m -> m <= round_nearest_even m l <= m + 1.
Proof. destruct l as [|[]]; cbn [round_nearest_even]; try lia. destruct (Z.even m); lia. Qed.

Lemma binary_round_aux_finite s mx ex l :
  0 <= mx -> ex <= 970 -> Zdigits2 mx + ex <= 1023 ->
  PyFloat.finite_or_zero (binary_round_aux PyFloat.prec PyFloat.emax s mx ex l).
Proof.
  intros Hm He Hd. unfold binary_round_aux.
  pose proof (shr_fexp_spec mx ex l Hm) as H1.
  destruct (shr_fexp PyFloat.prec PyFloat.emax mx ex l) as [mrs' e'].
  destruct H1 as [Hm' [He' Hd']].
  set (m1 := round_nearest_even (shr_m mrs') (loc_of_shr_record mrs')).
  pose proof (round_nearest_even_range (shr_m mrs') (loc_of_shr_record mrs') Hm') as Hr.
  fold m1 in Hr.
  assert (Hm1 : 0 <= m1) by lia.
  pose proof (shr_fexp_spec m1 e' loc_Exact Hm1) as H2.
  destruct (shr_fexp PyFloat.prec PyFloat.emax m1 e' loc_Exact) as [mrs'' e''].
  destruct H2 as [Hm'' [He'' Hd'']].
  assert (Hd1 : Zdigits2 (shr_m mrs') <= PyFloat.prec).
  { destruct Hd' as [H|[-> [_ H]]]; exact H. }
  assert (Hdm1 : Zdigits2 m1 <= PyFloat.prec + 1).
  { pose proof (Zdigits2_nonneg (shr_m mrs')).
    pose proof (Zdigits2_lt _ Hm').
    apply Zdigits2_le; [lia|unfold PyFloat.prec; lia|].
    assert (2 ^ Zdigits2 (shr_m mrs') <= 2 ^ PyFloat.prec) by (apply Z.pow_le_mono_r; lia).
    rewrite Z.pow_add_r by (unfold PyFloat.prec; lia). change (2 ^ 1) with 2. lia. }
  assert (Hfin : e'' <= 971).
  { unfold fexp, emin, PyFloat.prec, PyFloat.emax in *. lia. }
  destruct (shr_m mrs'') as [|m|m] eqn:Em; [exact I| |lia].
  unfold PyFloat.emax, PyFloat.prec. 
  destruct (Z.leb_spec e'' (1024 - 53)) as [_|Hbad]; [|lia].
  split; [|exact Hfin].
  destruct Hd'' as [H|[Heq [_ H]]].
  - simpl in H. exact H.
  - rewrite <- Heq in H. simpl in H. exact H.
Qed.

Lemma digits2_pos_iter_xO d m :
  Zpos (digits2_pos (Pos.iter xO m d)) = Zpos (digits2_pos m) + Zpos d.
Proof.
  revert m. induction d as [|d IH] using Pos.peano_ind; intros m.
  - cbn [Pos.iter digits2_pos]. lia.
  - rewrite Pos.iter_succ. cbn [digits2_pos]. rewrite Pos2Z.inj_succ, IH. lia.
Qed.

Lemma binary_round_finite s m :
  Zpos m < 2 ^ 1023 ->
  PyFloat.finite_or_zero (binary_round PyFloat.prec PyFloat.emax s m 0).
Proof.
  intros Hm. unfold binary_round, shl_align.
  assert (Hd : Zpos (digits2_pos m) <= 1023) by (apply digits2_pos_le; lia).
  remember (fexp PyFloat.prec PyFloat.emax (Zpos (digits2_pos m) + 0)) as fe eqn:Hfe.
  assert (Hfe' : fe = Z.max (Zpos (digits2_pos m) - 53) (-1074))
    by (subst fe; unfold fexp, emin, PyFloat.prec, PyFloat.emax; lia).
  destruct (fe - 0) as [|d|d] eqn:Hn.
  - apply binary_round_aux_finite; simpl; lia.
  - apply binary_round_aux_finite; simpl; lia.
  - apply binary_round_aux_finite; [lia|lia|].
    cbn [Zdigits2]. rewrite digits2_pos_iter_xO. lia.
Qed.

Lemma of_int_ok g :
  - 2 ^ 1023 < g < 2 ^ 1023 ->
  exists f, PyFloat.of_int g = Ok f /\ PyFloat.finite_or_zero f.
Proof.
  intros Hg. unfold PyFloat.of_int, binary_normalize.
  destruct g as [|m|m].
  - eexists. split; [reflexivity|exact I].
  - pose proof (binary_round_finite false m ltac:(lia)) as H.
    destruct (binary_round PyFloat.prec PyFloat.emax false m 0) eqn:E;
      try contradiction; eexists; (split; [reflexivity|exact H]).
  - pose proof (binary_round_finite true m ltac:(lia)) as H.
    destruct (binary_round PyFloat.prec PyFloat.emax true m 0) eqn:E;
      try contradiction; eexists; (split; [reflexivity|exact H]).
Qed.

(** The default gas price as a double: 0.025 is read as
    7205759403792794 * 2^-58. *)
Lemma default_price_float :
  PyFloat.of_string (Py.replace default_gas_price "uakt" EmptyString)
  = Ok (S754_finite false 7205759403792794 (-58)).
Proof. vm_compute. reflexivity. Qed.

Lemma mul_default_price_finite f :
  PyFloat.finite_or_zero f ->
  PyFloat.finite_or_zero (PyFloat.mul (S754_finite false 7205759403792794 (-58)) f).
Proof.
  destruct f as [s|s| |s m e]; cbn [PyFloat.finite_or_zero]; try contradiction.
  - intros _. exact I.
  - intros [Hd He]. unfold PyFloat.mul. cbn [SFmul].
    pose proof (Zdigits2_mul 7205759403792794 m) as Hm.
    change (Zpos (digits2_pos 7205759403792794)) with 53 in Hm.
    unfold PyFloat.prec in Hd.
    apply binary_round_aux_finite; [lia|lia|]. cbn [Zdigits2]. lia.
Qed.

Lemma to_int_finite f : PyFloat.finite_or_zero f -> exists a, PyFloat.to_int f = Ok a.
Proof.
  destruct f; cbn [PyFloat.finite_or_zero]; try contradiction; intros _; eexists; reflexivity.
Qed.

Lemma default_gas_amount_ok self g :
  self_gas_price self = default_gas_price ->
  - 2 ^ 1023 < g < 2 ^ 1023 ->
  exists amount, gas_amount self g = Ok amount.
Proof.
  intros Hp Hg. unfold gas_amount. rewrite Hp, default_price_float. cbn [bind].
  destruct (of_int_ok g Hg) as [f [-> Hf]]. cbn [bind].
  apply to_int_finite, mul_default_price_finite, Hf.
Qed.

(* ------------------------------------------------------------------ *)
(** ** The fee and the assembly *)

(** C2 (amended).  The fee amount embedded by [create_transaction] is the
    double-precision product of the gas price and the gas limit cut to an
    integer toward zero (the floor of a positive product, not its
    ceiling), written in decimal and denominated in uakt; a product that
    is infinite or not a number raises instead. *)
Theorem fee_is_truncated_product :
  forall self w msgs ti g price limit,
    PyFloat.of_string (Py.replace (self_gas_price self) "uakt" EmptyString) = Ok price ->
    PyFloat.of_int g = Ok limit ->
    match PyFloat.mul price limit with
    | S754_finite s m e =>
        exists a,
          (tx <- create_transaction self w msgs ti g ;; fee_amount_of tx)
          = Ok (PStr (Py.str_of_int (if s then - a else a))) /\
          (tx <- create_transaction self w msgs ti g ;; fee_denom_of tx)
          = Ok (PStr "uakt") /\
          0 <= a /\
          (0 <= e -> a = Zpos m * 2 ^ e) /\
          (e < 0 -> a * 2 ^ (- e) <= Zpos m < (a + 1) * 2 ^ (- e))
    | S754_zero _ =>
        (tx <- create_transaction self w msgs ti g ;; fee_amount_of tx)
        = Ok (PStr "0")
    | S754_infinity _ => create_transaction self w msgs ti g = Raise OverflowError
    | S754_nan => create_transaction self w msgs ti g = Raise ValueError
    end.
Proof.
  intros self w msgs ti g price limit Hp Hl.
  unfold create_transaction, gas_amount. rewrite Hp, Hl. cbn [bind].
  destruct (PyFloat.mul price limit) as [s|s| |s m e]; cbn [PyFloat.to_int bind];
    try reflexivity.
  exists (if 0 <=? e then Zpos m * 2 ^ e else Zpos m / 2 ^ (- e)).
  split; [reflexivity|]. split; [reflexivity|].
  destruct (Z.leb_spec 0 e) as [He|He].
  - split; [|split; [reflexivity|lia]].
    apply Z.mul_nonneg_nonneg; [lia|apply Z.pow_nonneg; lia].
  - assert (Hd : 0 < 2 ^ (- e)) by (apply Z.pow_pos_nonneg; lia).
    split; [apply Z.div_pos; lia|]. split; [lia|]. intros _.
    pose proof (Z.div_mod (Zpos m) (2 ^ (- e)) ltac:(lia)) as Hdm.
    pose proof (Z.mod_pos_bound (Zpos m) (2 ^ (- e)) Hd) as Hb.
    nia.
Qed.

Lemma fee_is_truncated_product_witness :
  exists a,
    (tx <- create_transaction Scenario.signer Scenario.wallet [Scenario.deployment_msg]
             Scenario.tx_info 7 ;; fee_amount_of tx)
    = Ok (PStr (Py.str_of_int a)) /\
    (tx <- create_transaction Scenario.signer Scenario.wallet [Scenario.deployment_msg]
             Scenario.tx_info 7 ;; fee_denom_of tx)
    = Ok (PStr "uakt") /\
    0 <= a /\
    (0 <= -55 -> a = 6305039478318695 * 2 ^ (-55)) /\
    (-55 < 0 -> a * 2 ^ 55 <= 6305039478318695 < (a + 1) * 2 ^ 55).
Proof.
  exact (fee_is_truncated_product
           Scenario.signer Scenario.wallet [Scenario.deployment_msg] Scenario.tx_info 7
           (S754_finite false 7205759403792794 (-58))
           (S754_finite false 7881299347898368 (-50))
           eq_refl eq_refl).
Defined.

(** C2 (counterexample).  With the default gas price [0.025uakt] and gas
    limit 1 the embedded fee amount is 0, while the ceiling of the product
    is 1; with gas limit 7 it is 0 as well. *)
Lemma fee_is_not_the_ceiling :
  (tx <- create_transaction Scenario.signer Scenario.wallet [Scenario.deployment_msg]
           Scenario.tx_info 1 ;; fee_amount_of tx) = Ok (PStr "0")
  /\ SpecWords.fee_ceil Scenario.signer 1 = Ok 1.
Proof. split; vm_compute; reflexivity. Qed.

(** C3 (amended).  [create_transaction] checks neither the messages nor
    the gas limit.  With the default gas price it succeeds for every list
    of messages, the empty one included, and every gas limit of magnitude
    below 2^1023, zero and negative ones included, and embeds both as
    given; with any gas price it returns whenever the fee computation
    returns and raises only what the fee computation raises. *)
Theorem assembly_checks_nothing :
  forall self w msgs ti g,
    (self_gas_price self = default_gas_price -> - 2 ^ 1023 < g < 2 ^ 1023 ->
       exists tx,
         create_transaction self w msgs ti g = Ok tx /\
         messages_of tx = Ok (PList msgs) /\
         gas_limit_of tx = Ok (PStr (Py.str_of_int g))) /\
    (forall amount, gas_amount self g = Ok amount ->
       exists tx,
         create_transaction self w msgs ti g = Ok tx /\
         messages_of tx = Ok (PList msgs) /\
         gas_limit_of tx = Ok (PStr (Py.str_of_int g)) /\
         fee_amount_of tx = Ok (PStr (Py.str_of_int amount))) /\
    (forall e, gas_amount self g = Raise e ->
       create_transaction self w msgs ti g = Raise e).
Proof.
  intros self w msgs ti g. split; [|split].
  - intros Hp Hg. destruct (default_gas_amount_ok self g Hp Hg) as [amount Ha].
    rewrite (create_transaction_ok _ w msgs ti _ _ Ha).
    eexists. split; [reflexivity|]. split; reflexivity.
  - intros amount Ha. rewrite (create_transaction_ok _ w msgs ti _ _ Ha).
    eexists. split; [reflexivity|]. repeat split; reflexivity.
  - intros e He. unfold create_transaction. rewrite He. reflexivity.
Qed.

Lemma assembly_checks_nothing_witness :
  exists tx,
    create_transaction Scenario.signer Scenario.wallet [] Scenario.tx_info (-3) = Ok tx /\
    messages_of tx = Ok (PList []) /\
    gas_limit_of tx = Ok (PStr (Py.str_of_int (-3))).
Proof.
  apply (proj1 (assembly_checks_nothing
                  Scenario.signer Scenario.wallet [] Scenario.tx_info (-3))).
  - reflexivity.
  - split; [vm_compute; reflexivity|vm_compute; reflexivity].
Defined.

(** C3 (counterexample).  An empty message list with gas limit 0, and a
    message with a negative gas limit, are both assembled without error. *)
Lemma empty_transaction_is_assembled :
  (exists tx,
     create_transaction Scenario.signer Scenario.wallet [] Scenario.tx_info 0 = Ok tx /\
     messages_of tx = Ok (PList []) /\ gas_limit_of tx = Ok (PStr "0"))
  /\ (exists tx,
        create_transaction Scenario.signer Scenario.wallet [Scenario.deployment_msg]
          Scenario.tx_info (-200000) = Ok tx /\
        gas_limit_of tx = Ok (PStr "-200000") /\
        fee_amount_of tx = Ok (PStr "-5000")).
Proof.
  split; eexists; (split; [vm_compute; reflexivity|]); split; vm_compute; reflexivity.
Qed.

(* ------------------------------------------------------------------ *)
(** ** Broadcast *)

Lemma broadcast_data_ok signed_tx :
  Json.serializable signed_tx = true -> exists data, broadcast_data signed_tx = Ok data.
Proof.
  intros H. unfold broadcast_data. rewrite dumps_serializable by exact H.
  eexists. reflexivity.
Qed.

(** C4 (amended).  For a decoded response that is a JSON object: with an
    [error] key, [broadcast_transaction] raises the module's base
    [AkashTransactionError], whose one argument is the text
    [Broadcast failed: ] followed by [str] of the error value, so that a
    code and a message appear only inside that text; without an [error] key
    and with a [result] key it returns the value under [result]. *)
Theorem rejection_raises_base_error :
  forall self signed_tx status d,
    Json.serializable signed_tx = true ->
    (forall err, Py.dict_get "error" d = Some err ->
       broadcast_transaction self signed_tx (Responded status (Some (PDict d)))
       = Raise (AkashTransactionError ("Broadcast failed: " ++ Py.str err)%string)) /\
    (forall r, Py.dict_get "error" d = None -> Py.dict_get "result" d = Some r ->
       broadcast_transaction self signed_tx (Responded status (Some (PDict d))) = Ok r) /\
    (forall code message,
       Py.str (PDict [("code", PInt code); ("message", PStr message)])
       = ("{'code': " ++ Py.str_of_int code ++ ", 'message': "
                      ++ Py.repr_str message ++ "}")%string).
Proof.
  intros self signed_tx status d Hs.
  destruct (broadcast_data_ok signed_tx Hs) as [data Hd].
  unfold broadcast_transaction, interpret_response. rewrite Hd. cbn [bind].
  unfold Py.contains, Py.dict_mem, Py.getitem.
  split; [|split].
  - intros err ->. reflexivity.
  - intros r -> ->. reflexivity.
  - intros code message. unfold Py.str.
    cbn [Py.repr map Py.join fst snd].
    change (Py.repr_str "code") with "'code'".
    change (Py.repr_str "message") with "'message'".
    rewrite !append_assoc. reflexivity.
Qed.

Lemma rejection_raises_base_error_witness :
  broadcast_transaction Scenario.signer Scenario.signed_transaction
    (Responded 200 (Some Scenario.rejection))
  = Raise (AkashTransactionError
             ("Broadcast failed: "
              ++ Py.str (PDict [("code", PInt (-32603));
                                ("message", PStr "Internal error")]))%string)
  /\ broadcast_transaction Scenario.signer Scenario.signed_transaction
       (Responded 200 (Some Scenario.acceptance))
     = Ok (PDict [("hash", PStr "ABCD")]).
Proof.
  destruct (rejection_raises_base_error
              Scenario.signer Scenario.signed_transaction 200
              [("jsonrpc", PStr "2.0"); ("id", PInt 1);
               ("error", PDict [("code", PInt (-32603));
                                ("message", PStr "Internal error")])]
              eq_refl) as [He _].
  destruct (rejection_raises_base_error
              Scenario.signer Scenario.signed_transaction 200
              [("jsonrpc", PStr "2.0"); ("id", PInt 1);
               ("result", PDict [("hash", PStr "ABCD")])]
              eq_refl) as [_ [Hr _]].
  split.
  - apply He. reflexivity.
  - apply Hr; reflexivity.
Defined.

(** C4 (counterexample).  A rejection with code -32603 and message
    [Internal error] surfaces as an [AkashTransactionError] carrying one
    formatted string, not as a [ChainRejectionError] carrying the code and
    the message; a JSON object with neither key raises [KeyError]. *)
Lemma rejection_is_a_generic_failure :
  (exists e,
     broadcast_transaction Scenario.signer Scenario.signed_transaction
       (Responded 200 (Some Scenario.rejection)) = Raise e /\
     e = AkashTransactionError
           "Broadcast failed: {'code': -32603, 'message': 'Internal error'}" /\
     exn_class e <> "ChainRejectionError")
  /\ broadcast_transaction Scenario.signer Scenario.signed_transaction
       (Responded 200 (Some Scenario.bare_reply)) = Raise (KeyError "result").
Proof.
  split.
  - eexists. split; [vm_compute; reflexivity|]. split; [reflexivity|].
    simpl. discriminate.
  - vm_compute. reflexivity.
Qed.

(* ------------------------------------------------------------------ *)
(** ** Account resolution *)

(** C5 (amended).  When the decoded account response is a JSON object
    without an [account] key, [_get_account_info] does not raise: it
    returns account number 0 and sequence 0 as an ordinary result, with
    nothing that marks the account as unknown. *)
Theorem missing_account_reads_as_zero :
  forall self addr status d,
    AsyncClient._rest_session self = true ->
    status < 400 ->
    Py.dict_get "account" d = None ->
    AsyncClient._get_account_info self addr (Responded status (Some (PDict d)))
    = Ok (PDict [("account_number", PInt 0); ("sequence", PInt 0)]).
Proof.
  intros self addr status d Hs Hst Hd.
  unfold AsyncClient._get_account_info. rewrite Hs. cbn [negb].
  destruct (Z.leb_spec 400 status) as [H|_]; [lia|].
  unfold Py.get at 1. rewrite Hd. reflexivity.
Qed.

Lemma missing_account_reads_as_zero_witness :
  AsyncClient._get_account_info Scenario.client (address Scenario.wallet)
    (Responded 200 (Some (PDict [("height", PStr "1")])))
  = Ok (PDict [("account_number", PInt 0); ("sequence", PInt 0)]).
Proof.
  apply missing_account_reads_as_zero; [reflexivity|lia|reflexivity].
Defined.

(** C5 (counterexample).  The empty JSON object as account response: the
    result is the pair (0, 0), returned like the numbers of an existing
    account, and no exception reaches the caller. *)
Lemma unknown_account_is_not_surfaced :
  AsyncClient._get_account_info Scenario.client (address Scenario.wallet)
    (Responded 200 (Some (PDict [])))
  = Ok (PDict [("account_number", PInt 0); ("sequence", PInt 0)])
  /\ AsyncClient._get_account_info Scenario.client (address Scenario.wallet)
       (Responded 200 (Some (PDict [("account",
          PDict [("account_number", PStr "0"); ("sequence", PStr "0")])])))
     = Ok (PDict [("account_number", PInt 0); ("sequence", PInt 0)]).
Proof. split; vm_compute; reflexivity. Qed.

(* ------------------------------------------------------------------ *)
(** ** Message building *)

Lemma replace_suffix n :
  Py.has_char "u" n = false ->
  Py.replace (n ++ "uakt")%string "uakt" EmptyString = n.
Proof.
  unfold Py.replace. induction n as [|c n IH]; intros H.
  - reflexivity.
  - simpl in H. apply orb_false_elim in H. destruct H as [Hc Hn].
    cbn [String.append Py.replace_from Py.is_prefix].
    rewrite Ascii.eqb_sym, Hc. cbn [andb].
    rewrite (IH Hn). reflexivity.
Qed.

Lemma create_deployment_msg_ok self owner sdl deposit :
  Json.serializable sdl = true ->
  create_deployment_msg self owner sdl deposit
  = Ok (PDict
          [("@type", PStr "/akash.deployment.v1beta3.MsgCreateDeployment");
           ("id", PDict [("owner", PStr owner); ("dseq", PStr "0")]);
           ("groups", _sdl_to_groups sdl);
           ("version",
             PStr (Base64.b64encode (Py.encode (Json.text false ", " ": " sdl))));
           ("deposit",
             PDict [("denom", PStr "uakt");
                    ("amount", PStr (Py.replace deposit "uakt" EmptyString))]);
           ("depositor", PStr owner)]).
Proof.
  intros H. unfold create_deployment_msg. rewrite dumps_serializable by exact H.
  reflexivity.
Qed.

(** C8 (amended).  The message builders do not validate amounts: for
    every deposit string (and every JSON-serializable SDL)
    [create_deployment_msg] succeeds, and for every price string
    [create_bid_msg] succeeds; the denomination written is always [uakt]
    and the amount is the given string with every occurrence of [uakt]
    removed, which for a text without [u] followed by [uakt] is that
    text. *)
Theorem amounts_are_not_validated :
  forall self owner sdl deposit bidder order_id price,
    Json.serializable sdl = true ->
    (exists m,
       create_deployment_msg self owner sdl deposit = Ok m /\
       Py.getitem m "deposit"
       = Ok (PDict [("denom", PStr "uakt");
                    ("amount", PStr (Py.replace deposit "uakt" EmptyString))])) /\
    (exists m,
       create_bid_msg self bidder order_id price = Ok m /\
       Py.getitem m "price"
       = Ok (PDict [("denom", PStr "uakt");
                    ("amount", PStr (Py.replace price "uakt" EmptyString))])) /\
    (forall n, Py.has_char "u" n = false ->
       Py.replace (n ++ "uakt")%string "uakt" EmptyString = n).
Proof.
  intros self owner sdl deposit bidder order_id price Hs. repeat split.
  - eexists. split; [apply create_deployment_msg_ok; exact Hs|reflexivity].
  - eexists. split; reflexivity.
  - apply replace_suffix.
Qed.

Lemma amounts_are_not_validated_witness :
  (exists m,
     create_deployment_msg Scenario.signer (address Scenario.wallet) Scenario.sdl
       "12.5.1uatom" = Ok m /\
     Py.getitem m "deposit"
     = Ok (PDict [("denom", PStr "uakt");
                  ("amount", PStr (Py.replace "12.5.1uatom" "uakt" EmptyString))])) /\
  Py.replace ("10000000" ++ "uakt")%string "uakt" EmptyString = "10000000".
Proof.
  destruct (amounts_are_not_validated
              Scenario.signer (address Scenario.wallet) Scenario.sdl "12.5.1uatom"
              (address Scenario.wallet) Scenario.order_id "7uakt" eq_refl)
    as [Hd [_ Hn]].
  split; [exact Hd|]. apply Hn. reflexivity.
Defined.

(** C8 (counterexample).  A deposit whose number does not parse and whose
    denomination is not uakt, and a price that is no amount at all: both
    builders succeed and label the text as an amount in uakt. *)
Lemma invalid_amounts_are_accepted :
  (exists m,
     create_deployment_msg Scenario.signer (address Scenario.wallet) Scenario.sdl
       "12.5.1uatom" = Ok m /\
     Py.getitem m "deposit"
     = Ok (PDict [("denom", PStr "uakt"); ("amount", PStr "12.5.1uatom")]))
  /\ (exists m,
        create_bid_msg Scenario.signer (address Scenario.wallet) Scenario.order_id
          "cheap" = Ok m /\
        Py.getitem m "price"
        = Ok (PDict [("denom", PStr "uakt"); ("amount", PStr "cheap")])).
Proof.
  split; eexists; split; vm_compute; reflexivity.
Qed.

(** C9.  The groups of a deployment message do not depend on the SDL:
    for any two (JSON-serializable) SDLs the messages hold the same single
    group, named [default], with CPU 1000, memory 1073741824, one storage
    volume of 1073741824, count 1 and price 1000 uakt; every field other
    than [version] is the same in both messages. *)
Theorem deployment_groups_ignore_sdl :
  forall self owner sdl1 sdl2 deposit,
    Json.serializable sdl1 = true -> Json.serializable sdl2 = true ->
    _sdl_to_groups sdl1 = _sdl_to_groups sdl2 /\
    exists m1 m2 g,
      create_deployment_msg self owner sdl1 deposit = Ok m1 /\
      create_deployment_msg self owner sdl2 deposit = Ok m2 /\
      Py.getitem m1 "groups" = Ok (PList [g]) /\
      Py.getitem m2 "groups" = Ok (PList [g]) /\
      Py.getitem g "name" = Ok (PStr "default") /\
      Py.at_path g (group_resources ++ [Py.Key "cpu"; Py.Key "units"; Py.Key "val"])
      = Ok (PStr "1000") /\
      Py.at_path g (group_resources ++ [Py.Key "memory"; Py.Key "quantity"; Py.Key "val"])
      = Ok (PStr "1073741824") /\
      Py.at_path g (group_resources ++ [Py.Key "storage"])
      = Ok (PList [PDict [("name", PStr "default");
                          ("quantity", PDict [("val", PStr "1073741824")])]]) /\
      Py.at_path g [Py.Key "resources"; Py.Idx 0; Py.Key "count"] = Ok (PInt 1) /\
      Py.at_path g [Py.Key "resources"; Py.Idx 0; Py.Key "price"]
      = Ok (PDict [("denom", PStr "uakt"); ("amount", PStr "1000")]) /\
      (forall key, key <> "version" -> Py.getitem m1 key = Py.getitem m2 key).
Proof.
  intros self owner sdl1 sdl2 deposit H1 H2. split; [reflexivity|].
  do 3 eexists.
  split; [apply create_deployment_msg_ok; exact H1|].
  split; [apply create_deployment_msg_ok; exact H2|].
  split; [reflexivity|]. split; [reflexivity|].
  repeat (split; [reflexivity|]).
  intros key Hk. cbn [Py.getitem Py.dict_get].
  rewrite (proj2 (String.eqb_neq key "version") Hk). reflexivity.
Qed.

(** The version field is [json.dumps(sdl)] without [sort_keys]: it follows
    the order in which the SDL received its keys. *)
Example version_follows_key_order :
  Py.same_content Scenario.sdl Scenario.sdl_reordered = true /\
  (m <- create_deployment_msg Scenario.signer (address Scenario.wallet)
          Scenario.sdl default_deposit ;; Py.getitem m "version")
  <> (m <- create_deployment_msg Scenario.signer (address Scenario.wallet)
            Scenario.sdl_reordered default_deposit ;; Py.getitem m "version").
Proof. split; [reflexivity|vm_compute; discriminate]. Qed.

Lemma deployment_groups_ignore_sdl_witness :
  exists m1 m2,
    create_deployment_msg Scenario.signer (address Scenario.wallet) Scenario.sdl
      default_deposit = Ok m1 /\
    create_deployment_msg Scenario.signer (address Scenario.wallet) Scenario.other_sdl
      default_deposit = Ok m2 /\
    Py.getitem m1 "groups" = Py.getitem m2 "groups" /\
    Py.getitem m1 "version" <> Py.getitem m2 "version".
Proof.
  destruct (deployment_groups_ignore_sdl
              Scenario.signer (address Scenario.wallet) Scenario.sdl
              Scenario.other_sdl default_deposit eq_refl eq_refl)
    as [_ [m1 [m2 [g [E1 [E2 [G1 [G2 _]]]]]]]].
  exists m1, m2. split; [exact E1|]. split; [exact E2|].
  split; [congruence|].
  vm_compute in E1, E2. injection E1 as <-. injection E2 as <-.
  vm_compute. discriminate.
Defined.
(** Bech32 checksum *)

Lemma feedback_bound (t : Z) : 0 <= Bech32.feedback t < 2 ^ 30.
Proof.
  unfold Bech32.feedback. cbn [combine Bech32.generator fold_left fst snd].
  destruct (Z.testbit t 0), (Z.testbit t 1), (Z.testbit t 2),
    (Z.testbit t 3), (Z.testbit t 4); vm_compute; split; congruence.
Qed.

Lemma feedback_lxor (a b : Z) :
  Bech32.feedback (Z.lxor a b) = Z.lxor (Bech32.feedback a) (Bech32.feedback b).
Proof.
  unfold Bech32.feedback. cbn [combine Bech32.generator fold_left fst snd].
  rewrite !Z.lxor_spec.
  destruct (Z.testbit a 0), (Z.testbit a 1), (Z.testbit a 2),
    (Z.testbit a 3), (Z.testbit a 4),
    (Z.testbit b 0), (Z.testbit b 1), (Z.testbit b 2),
    (Z.testbit b 3), (Z.testbit b 4); reflexivity.
Qed.

Lemma shiftr_lxor (a b n : Z) :
  Z.shiftr (Z.lxor a b) n = Z.lxor (Z.shiftr a n) (Z.shiftr b n).
Proof. apply Z.shiftr_lxor. Qed.

Lemma polymod_step_lxor (a b v w : Z) :
  Bech32.polymod_step (Z.lxor a b) (Z.lxor v w)
  = Z.lxor (Bech32.polymod_step a v) (Bech32.polymod_step b w).
Proof.
  unfold Bech32.polymod_step.
  rewrite Z.shiftr_lxor, feedback_lxor.
  assert (E : Z.land (Z.lxor a b) 33554431
              = Z.lxor (Z.land a 33554431) (Z.land b 33554431)).
  { apply Z.bits_inj'. intros n Hn.
    rewrite Z.land_spec, !Z.lxor_spec, !Z.land_spec.
    destruct (Z.testbit a n), (Z.testbit b n), (Z.testbit 33554431 n); reflexivity. }
  rewrite E, Z.shiftl_lxor.
  apply Z.bits_inj'. intros n Hn. rewrite !Z.lxor_spec.
  repeat match goal with |- context [Z.testbit ?x n] =>
    let t := fresh "t" in generalize (Z.testbit x n); intro t end.
  repeat match goal with t : bool |- _ => destruct t end; reflexivity.
Qed.

Lemma lxor_bound (n a b : Z) :
  0 <= n -> 0 <= a < 2 ^ n -> 0 <= b < 2 ^ n -> 0 <= Z.lxor a b < 2 ^ n.
Proof.
  intros Hn Ha Hb.
  assert (H0 : 0 <= Z.lxor a b) by (apply Z.lxor_nonneg; lia).
  split; [exact H0|].
  destruct (Z.eq_dec (Z.lxor a b) 0) as [E|E].
  { rewrite E. apply Z.pow_pos_nonneg; lia. }
  apply Z.log2_lt_pow2; [lia|].
  pose proof (Z.log2_lxor a b ltac:(lia) ltac:(lia)) as L.
  assert (La : a = 0 \/ Z.log2 a < n).
  { destruct (Z.eq_dec a 0); [now left|right; apply Z.log2_lt_pow2; lia]. }
  assert (Lb : b = 0 \/ Z.log2 b < n).
  { destruct (Z.eq_dec b 0); [now left|right; apply Z.log2_lt_pow2; lia]. }
  assert (Ln : 0 < n).
  { destruct (Z.eq_dec n 0) as [->|]; [|lia].
    change (2 ^ 0) with 1 in *. assert (a = 0) by lia. assert (b = 0) by lia.
    subst. now rewrite Z.lxor_0_l in E. }
  destruct La as [->|La], Lb as [->|Lb];
    change (Z.log2 0) with 0 in L; lia.
Qed.

Lemma masked_shift_bound (c : Z) :
  0 <= Z.shiftl (Z.land c 33554431) 5 < 2 ^ 30.
Proof.
  change 33554431 with (Z.ones 25). rewrite Z.land_ones by lia.
  rewrite Z.shiftl_mul_pow2 by lia.
  pose proof (Z.mod_pos_bound c (2 ^ 25) ltac:(lia)).
  change (2 ^ 30) with (2 ^ 25 * 2 ^ 5). change (2 ^ 5) with 32 in *. lia.
Qed.

Lemma polymod_step_bound (c v : Z) :
  0 <= v < 2 ^ 30 -> 0 <= Bech32.polymod_step c v < 2 ^ 30.
Proof.
  intros Hv. unfold Bech32.polymod_step.
  apply lxor_bound; [lia| |apply feedback_bound].
  apply lxor_bound; [lia|apply masked_shift_bound|exact Hv].
Qed.

Lemma polymod_step_small (s d : Z) :
  0 <= s < 2 ^ 25 -> 0 <= d < 32 -> Bech32.polymod_step s d = 32 * s + d.
Proof.
  intros Hs Hd. unfold Bech32.polymod_step.
  change 33554431 with (Z.ones 25). rewrite Z.land_ones by lia.
  rewrite Z.mod_small by lia.
  rewrite Z.shiftr_div_pow2 by lia. rewrite Z.div_small by lia.
  change (Bech32.feedback 0) with 0. rewrite Z.lxor_0_r.
  rewrite <- Z.add_nocarry_lxor.
  - rewrite Z.shiftl_mul_pow2 by lia. change (2 ^ 5) with 32. lia.
  - apply Z.bits_inj'. intros n Hn. rewrite Z.land_spec, Z.bits_0.
    destruct (Z.lt_ge_cases n 5) as [L|L].
    + rewrite Z.shiftl_spec_low by lia. reflexivity.
    + replace (Z.testbit d n) with false; [apply andb_false_r|].
      symmetry. destruct (Z.eq_dec d 0) as [->|]; [apply Z.bits_0|].
      apply Z.bits_above_log2; [lia|].
      assert (Z.log2 d < 5) by (apply Z.log2_lt_pow2; change (2 ^ 5) with 32; lia).
      lia.
Qed.

Lemma fold_polymod_lxor (vs ws : list Z) : forall a b,
  List.length vs = List.length ws ->
  fold_left Bech32.polymod_step
    (map (fun p => Z.lxor (fst p) (snd p)) (combine vs ws)) (Z.lxor a b)
  = Z.lxor (fold_left Bech32.polymod_step vs a)
           (fold_left Bech32.polymod_step ws b).
Proof.
  revert ws. induction vs as [|v vs IH]; intros [|w ws] a b E;
    try discriminate; [reflexivity|].
  cbn [combine map fold_left fst snd]. rewrite polymod_step_lxor.
  apply IH. now injection E.
Qed.

Lemma fold_polymod_digits (pm : Z) :
  0 <= pm < 2 ^ 30 -> fold_left Bech32.polymod_step (Bech32.quintets_of pm) 0 = pm.
Proof.
  intros H. unfold Bech32.quintets_of. cbn [map].
  change 31 with (Z.ones 5). rewrite !Z.land_ones by lia.
  rewrite !Z.shiftr_div_pow2 by lia.
  change (5 * (5 - 0)) with 25. change (5 * (5 - 1)) with 20.
  change (5 * (5 - 2)) with 15. change (5 * (5 - 3)) with 10.
  change (5 * (5 - 4)) with 5. change (5 * (5 - 5)) with 0.
  change (2 ^ 0) with 1. rewrite Z.div_1_r.
  change (2 ^ 5) with 32 in *. change (2 ^ 10) with (32 * 32).
  change (2 ^ 15) with (32 * (32 * 32)). change (2 ^ 20) with (32 * (32 * (32 * 32))).
  change (2 ^ 25) with (32 * (32 * (32 * (32 * 32)))).
  change (2 ^ 30) with (32 * (32 * (32 * (32 * (32 * 32))))) in H.
  cbn [fold_left].
  assert (B : forall x, 0 <= x mod 32 < 32) by (intro; apply Z.mod_pos_bound; lia).
  set (q5 := pm / (32 * (32 * (32 * (32 * 32))))).
  set (q4 := pm / (32 * (32 * (32 * 32)))).
  set (q3 := pm / (32 * (32 * 32))).
  set (q2 := pm / (32 * 32)).
  set (q1 := pm / 32).
  assert (E1 : q2 = q1 / 32) by (unfold q2, q1; rewrite Z.div_div; lia).
  assert (E2 : q3 = q2 / 32).
  { unfold q3, q2. rewrite Z.div_div by lia. reflexivity. }
  assert (E3 : q4 = q3 / 32).
  { unfold q4, q3. rewrite Z.div_div by lia. reflexivity. }
  assert (E4 : q5 = q4 / 32).
  { unfold q5, q4. rewrite Z.div_div by lia. reflexivity. }
  pose proof (Z.div_mod pm 32 ltac:(lia)) as D0. fold q1 in D0.
  pose proof (Z.div_mod q1 32 ltac:(lia)) as D1. rewrite <- E1 in D1.
  pose proof (Z.div_mod q2 32 ltac:(lia)) as D2. rewrite <- E2 in D2.
  pose proof (Z.div_mod q3 32 ltac:(lia)) as D3. rewrite <- E3 in D3.
  pose proof (Z.div_mod q4 32 ltac:(lia)) as D4. rewrite <- E4 in D4.
  pose proof (B pm) as B0. pose proof (B q1) as B1. pose proof (B q2) as B2.
  pose proof (B q3) as B3. pose proof (B q4) as B4. pose proof (B q5) as B5.
  assert (Q5 : 0 <= q5 < 32).
  { unfold q5. split; [apply Z.div_pos; lia|apply Z.div_lt_upper_bound; lia]. }
  rewrite (Z.mod_small q5) in * by lia.
  rewrite (polymod_step_small 0 q5) by lia.
  rewrite (polymod_step_small _ (q4 mod 32)) by lia.
  rewrite (polymod_step_small _ (q3 mod 32)) by lia.
  rewrite (polymod_step_small _ (q2 mod 32)) by lia.
  rewrite (polymod_step_small _ (q1 mod 32)) by lia.
  rewrite (polymod_step_small _ (pm mod 32)) by lia.
  lia.
Qed.

Lemma create_checksum_digits (hrp : string) (data : list Z) :
  Bech32.create_checksum hrp data
  = Bech32.quintets_of (Z.lxor (Bech32.polymod (Bech32.hrp_expand hrp ++ data ++ [0; 0; 0; 0; 0; 0])) 1).
Proof. reflexivity. Qed.

Lemma checksum_verifies (hrp : string) (data : list Z) :
  Bech32.verify_checksum hrp (data ++ Bech32.create_checksum hrp data) = true.
Proof.
  unfold Bech32.verify_checksum. apply Z.eqb_eq.
  rewrite create_checksum_digits.
  unfold Bech32.polymod. rewrite !app_assoc.
  rewrite !fold_left_app.
  set (c := fold_left Bech32.polymod_step data _).
  set (z := fold_left Bech32.polymod_step [0; 0; 0; 0; 0; 0] c).
  set (pm := Z.lxor z 1).
  assert (Hz : 0 <= z < 2 ^ 30).
  { unfold z. cbn [fold_left]. apply polymod_step_bound. lia. }
  assert (Hpm : 0 <= pm < 2 ^ 30).
  { unfold pm. apply lxor_bound; lia. }
  pose proof (fold_polymod_lxor [0; 0; 0; 0; 0; 0] (Bech32.quintets_of pm) c 0 eq_refl) as L.
  rewrite Z.lxor_0_r in L.
  replace (map (fun p => Z.lxor (fst p) (snd p)) (combine [0; 0; 0; 0; 0; 0] (Bech32.quintets_of pm)))
    with (Bech32.quintets_of pm) in L.
  2:{ unfold Bech32.quintets_of. cbn [map combine fst snd]. now rewrite !Z.lxor_0_l. }
  rewrite L. fold z. rewrite fold_polymod_digits by exact Hpm.
  unfold pm.
  rewrite <- Z.lxor_assoc, Z.lxor_nilpotent. reflexivity.
Qed.

Lemma charset_at_spec (d : Z) :
  0 <= d < 32 ->
  exists c, Bech32.charset_at d = Ok c /\ Bech32.charset_find c = d
            /\ Bech32.data_char c = true.
Proof.
  intros H. rewrite <- (Z2Nat.id d) by lia.
  assert (L : (Z.to_nat d < 32)%nat) by lia.
  generalize dependent (Z.to_nat d). clear H. intros n L.
  do 32 (destruct n as [|n];
         [eexists; split; [vm_compute; reflexivity|split; vm_compute; reflexivity]|]).
  lia.
Qed.

Lemma chars_of_spec (l : list Z) :
  Forall Bech32.quintet l ->
  exists s, Bech32.chars_of l = Ok s
            /\ map Bech32.charset_find (list_ascii_of_string s) = l
            /\ forallb Bech32.data_char (list_ascii_of_string s) = true
            /\ String.length s = List.length l.
Proof.
  induction 1 as [|d l Hd Hl IH].
  - exists EmptyString. repeat split.
  - destruct IH as (s & E & M & G & N).
    destruct (charset_at_spec d Hd) as (c & Ec & Fc & Gc).
    exists (String c s). cbn [Bech32.chars_of]. rewrite Ec, E. cbn [bind].
    cbn [list_ascii_of_string map forallb String.length List.length].
    rewrite Fc, M, Gc, G, N. repeat split.
Qed.

Lemma create_checksum_range (hrp : string) (data : list Z) :
  Forall Bech32.quintet (Bech32.create_checksum hrp data)
  /\ List.length (Bech32.create_checksum hrp data) = 6%nat.
Proof.
  rewrite create_checksum_digits. unfold Bech32.quintets_of. cbn [map]. split; [|reflexivity].
  change 31 with (Z.ones 5). rewrite !Z.land_ones by lia.
  repeat constructor; apply Z.mod_pos_bound; reflexivity.
Qed.

Lemma data_char_parts (c : ascii) :
  Bech32.data_char c = true ->
  ((Bech32.ord c <? 33) || (126 <? Bech32.ord c)) = false
  /\ Bech32.lower_char c = c
  /\ Ascii.eqb c "1" = false
  /\ (0 <=? Bech32.charset_find c) = true.
Proof.
  unfold Bech32.data_char. rewrite !andb_true_iff, !negb_true_iff, Ascii.eqb_eq. tauto.
Qed.

Lemma data_chars_existsb (s : string) :
  forallb Bech32.data_char (list_ascii_of_string s) = true ->
  existsb (fun x => (Bech32.ord x <? 33) || (126 <? Bech32.ord x))
          (list_ascii_of_string s) = false.
Proof.
  induction s as [|c s IH]; cbn [list_ascii_of_string forallb existsb]; [reflexivity|].
  rewrite andb_true_iff. intros [Hc Hs].
  destruct (data_char_parts c Hc) as (-> & _). now rewrite IH.
Qed.

Lemma data_chars_lower (s : string) :
  forallb Bech32.data_char (list_ascii_of_string s) = true ->
  Bech32.map_chars Bech32.lower_char s = s.
Proof.
  induction s as [|c s IH]; cbn [list_ascii_of_string forallb Bech32.map_chars];
    [reflexivity|].
  rewrite andb_true_iff. intros [Hc Hs].
  destruct (data_char_parts c Hc) as (_ & -> & _). now rewrite IH.
Qed.

Lemma data_chars_rfind (s : string) : forall i last,
  forallb Bech32.data_char (list_ascii_of_string s) = true ->
  Bech32.rfind_from "1" s i last = last.
Proof.
  induction s as [|c s IH]; intros i last;
    cbn [list_ascii_of_string forallb Bech32.rfind_from]; [reflexivity|].
  rewrite andb_true_iff. intros [Hc Hs].
  destruct (data_char_parts c Hc) as (_ & _ & -> & _). now apply IH.
Qed.

Lemma data_chars_found (s : string) :
  forallb Bech32.data_char (list_ascii_of_string s) = true ->
  forallb (fun x => 0 <=? Bech32.charset_find x) (list_ascii_of_string s) = true.
Proof.
  induction s as [|c s IH]; cbn [list_ascii_of_string forallb]; [reflexivity|].
  rewrite andb_true_iff. intros [Hc Hs].
  destruct (data_char_parts c Hc) as (_ & _ & _ & ->). now rewrite IH.
Qed.

Lemma substring_all (s : string) : forall m,
  (String.length s <= m)%nat -> substring 0 m s = s.
Proof.
  induction s as [|c s IH]; intros [|m] H; cbn in *; try reflexivity; try lia.
  rewrite IH by lia. reflexivity.
Qed.

(** The decoder of the package reads back what [bech32_encode] wrote
    under the prefix of the chain. *)
Lemma decode_encode_akash (data : list Z) :
  Forall Bech32.quintet data ->
  (List.length data <= 78)%nat ->
  exists t, Bech32.encode "akash" data = Ok ("akash1" ++ t)%string
            /\ String.length t = (List.length data + 6)%nat
            /\ forallb Bech32.data_char (list_ascii_of_string t) = true
            /\ Bech32.decode ("akash1" ++ t) = Some ("akash", data).
Proof.
  intros Hd Hn.
  destruct (create_checksum_range "akash" data) as [Hc Lc].
  destruct (chars_of_spec (data ++ Bech32.create_checksum "akash" data))
    as (t & E & M & G & N).
  { apply Forall_app. split; assumption. }
  rewrite length_app, Lc in N.
  exists t. unfold Bech32.encode. rewrite E. cbn [bind].
  split; [reflexivity|]. split; [exact N|]. split; [exact G|].
  unfold Bech32.decode.
  change ("akash1" ++ t)%string
    with (String "a" (String "k" (String "a" (String "s" (String "h" (String "1" t)))))).
  cbn [list_ascii_of_string existsb Bech32.map_chars].
  rewrite (data_chars_existsb t G), (data_chars_lower t G).
  change (Bech32.lower_char "a") with "a"%char.
  change (Bech32.lower_char "k") with "k"%char.
  change (Bech32.lower_char "s") with "s"%char.
  change (Bech32.lower_char "h") with "h"%char.
  change (Bech32.lower_char "1") with "1"%char.
  rewrite String.eqb_refl.
  change ((Bech32.ord "a" <? 33) || (126 <? Bech32.ord "a")) with false.
  change ((Bech32.ord "k" <? 33) || (126 <? Bech32.ord "k")) with false.
  change ((Bech32.ord "s" <? 33) || (126 <? Bech32.ord "s")) with false.
  change ((Bech32.ord "h" <? 33) || (126 <? Bech32.ord "h")) with false.
  change ((Bech32.ord "1" <? 33) || (126 <? Bech32.ord "1")) with false.
  cbn [orb negb andb].
  unfold Bech32.rfind. cbn [Bech32.rfind_from].
  change (Ascii.eqb "a" "1") with false. change (Ascii.eqb "k" "1") with false.
  change (Ascii.eqb "s" "1") with false. change (Ascii.eqb "h" "1") with false.
  change (Ascii.eqb "1" "1") with true. cbv iota.
  rewrite (data_chars_rfind t _ _ G).
  change (0 + 1 + 1 + 1 + 1 + 1) with 5.
  cbn [String.length]. rewrite N.
  change (5 <? 1) with false. change (Z.to_nat (5 + 1)) with 6%nat.
  change (Z.to_nat 5) with 5%nat. change (5 + 7) with 12.
  replace (Z.of_nat (S (S (S (S (S (S (List.length data + 6))))))) <? 12) with false
    by (symmetry; apply Z.ltb_ge; lia).
  replace (90 <? Z.of_nat (S (S (S (S (S (S (List.length data + 6)))))))) with false
    by (symmetry; apply Z.ltb_ge; lia).
  cbn [orb substring].
  rewrite substring_all by lia.
  rewrite (data_chars_found t G). cbn [negb].
  rewrite M, checksum_verifies. cbn [negb].
  rewrite length_app, Lc.
  replace (List.length data + 6 - 6)%nat with (List.length data + 0)%nat by lia.
  rewrite firstn_app_2, app_nil_r. reflexivity.
Qed.

(** ** Bit regrouping *)

Lemma drain_spec (fuel : nat) : forall acc bits ret,
  0 <= bits <= Z.of_nat fuel ->
  Forall Bech32.quintet ret ->
  let '(bits', ret') := Bech32.drain fuel acc bits 5 31 ret in
  0 <= bits' < 5
  /\ 5 * Z.of_nat (List.length ret') + bits' = 5 * Z.of_nat (List.length ret) + bits
  /\ Forall Bech32.quintet ret'.
Proof.
  induction fuel as [|fuel IH]; intros acc bits ret Hb Hr; cbn [Bech32.drain].
  - repeat split; try lia. exact Hr.
  - destruct (5 <=? bits) eqn:E.
    + apply Z.leb_le in E.
      specialize (IH acc (bits - 5)
                     (ret ++ [Z.land (Z.shiftr acc (bits - 5)) 31]) ltac:(lia)).
      destruct (Bech32.drain fuel acc (bits - 5) 5 31
                  (ret ++ [Z.land (Z.shiftr acc (bits - 5)) 31])) as [b' r'].
      destruct IH as (B & L & F).
      { apply Forall_app. split; [exact Hr|]. constructor; [|constructor].
        unfold Bech32.quintet. change 31 with (Z.ones 5). rewrite Z.land_ones by lia.
        apply Z.mod_pos_bound. reflexivity. }
      rewrite length_app in L. cbn [List.length] in L.
      repeat split; try lia. exact F.
    + apply Z.leb_gt in E. repeat split; try lia. exact Hr.
Qed.

Lemma byte_val_range (b : byte) : 0 <= Sha256.byte_val b < 256.
Proof.
  unfold Sha256.byte_val. pose proof (Byte.to_N_bounded b). lia.
Qed.

Lemma convert_loop_bytes (data : list byte) : forall acc bits ret,
  0 <= bits < 5 ->
  Forall Bech32.quintet ret ->
  exists acc' bits' ret',
    Bech32.convert_loop (map Sha256.byte_val data) 8 5 31 4095 acc bits ret
    = Some (acc', bits', ret')
    /\ 0 <= bits' < 5
    /\ 5 * Z.of_nat (List.length ret') + bits'
       = 5 * Z.of_nat (List.length ret) + bits + 8 * Z.of_nat (List.length data)
    /\ Forall Bech32.quintet ret'.
Proof.
  induction data as [|b data IH]; intros acc bits ret Hb Hr;
    cbn [map Bech32.convert_loop List.length].
  - exists acc, bits, ret. repeat split; try lia. exact Hr.
  - pose proof (byte_val_range b) as Rb.
    replace (Sha256.byte_val b <? 0) with false by (symmetry; apply Z.ltb_ge; lia).
    replace (Z.shiftr (Sha256.byte_val b) 8 =? 0) with true.
    2:{ symmetry. apply Z.eqb_eq. rewrite Z.shiftr_div_pow2 by lia.
        apply Z.div_small. change (2 ^ 8) with 256. lia. }
    cbn [orb negb].
    set (acc1 := Z.land (Z.lor (Z.shiftl acc 8) (Sha256.byte_val b)) 4095).
    pose proof (drain_spec (Z.to_nat (bits + 8)) acc1 (bits + 8) ret
                  ltac:(lia) Hr) as D.
    destruct (Bech32.drain (Z.to_nat (bits + 8)) acc1 (bits + 8) 5 31 ret)
      as [b1 r1].
    destruct D as (B1 & L1 & F1).
    destruct (IH acc1 b1 r1 B1 F1) as (a' & b' & r' & E & B' & L' & F').
    exists a', b', r'. repeat split; try lia; assumption.
Qed.

Lemma convertbits_hash (h : list byte) :
  List.length h = 20%nat ->
  exists data, Bech32.convertbits (map Sha256.byte_val h) 8 5 = Some data
               /\ List.length data = 32%nat /\ Forall Bech32.quintet data.
Proof.
  intros Hl. unfold Bech32.convertbits.
  change (Z.shiftl 1 5 - 1) with 31. change (Z.shiftl 1 (8 + 5 - 1) - 1) with 4095.
  destruct (convert_loop_bytes h 0 0 [] ltac:(lia) (Forall_nil _))
    as (a & b & r & E & B & L & F).
  rewrite E. rewrite Hl in L. cbn [List.length] in L.
  assert (b = 0) by lia. subst b. cbn [Z.eqb].
  exists r. repeat split; [lia|exact F].
Qed.

(** ** Digest lengths *)

Lemma to_bytes_le_length (len : nat) : forall x,
  List.length (Ripemd160.to_bytes_le len x) = len.
Proof.
  induction len as [|len IH]; intros x; cbn [Ripemd160.to_bytes_le List.length];
    [reflexivity|now rewrite IH].
Qed.

Lemma ripemd160_length (msg : list byte) :
  List.length (Ripemd160.digest msg) = 20%nat.
Proof.
  unfold Ripemd160.digest. rewrite !length_app, !to_bytes_le_length. reflexivity.
Qed.

(** ** Hexadecimal keys *)

Lemma fromhex_length (s : string) : forall b,
  Hex.fromhex s = Ok b -> (2 * List.length b <= String.length s)%nat.
Proof.
  assert (G : forall n s, (String.length s <= n)%nat -> forall b,
             Hex.fromhex s = Ok b -> (2 * List.length b <= String.length s)%nat).
  { intros n. induction n as [|n IH]; intros [|c s'] Hn b H;
      cbn [String.length] in *; try lia.
    - injection H as <-. cbn. lia.
    - injection H as <-. cbn. lia.
    - cbn [Hex.fromhex] in H.
      destruct (Py.is_space_ascii c).
      + specialize (IH s' ltac:(lia) b H). lia.
      + destruct (Hex.digit c) as [hi|]; [|discriminate].
        destruct s' as [|c' s'']; [discriminate|].
        destruct (Hex.digit c') as [lo|]; [|discriminate].
        apply bind_ok in H. destruct H as (rest & E & H).
        injection H as <-. cbn [String.length] in *.
        specialize (IH s'' ltac:(lia) rest E). cbn [List.length]. lia. }
  intros b H. exact (G (String.length s) s (le_n _) b H).
Qed.

(** ** The wallet of a private key *)

Lemma compressed_parity (x y : Z) :
  Wallets.byte_at (Ecdsa.number_to_string x ++ Ecdsa.number_to_string y) 63
  = Ok (y mod 256).
Proof.
  unfold Wallets.byte_at, Ecdsa.number_to_string.
  rewrite nth_error_app2 by (rewrite to_bytes_be_length; unfold Ecdsa.baselen; lia).
  rewrite to_bytes_be_length.
  change (63 - Ecdsa.baselen)%nat with 31%nat.
  change (Sha256.to_bytes_be Ecdsa.baselen y)
    with (Sha256.to_bytes_be 31 (y / 256) ++ [Sha256.low_byte y]).
  rewrite nth_error_app2 by (rewrite to_bytes_be_length; lia).
  rewrite to_bytes_be_length. cbn [Nat.sub nth_error].
  now rewrite byte_val_low_byte.
Qed.

Lemma compressed_abscissa (x y : Z) :
  firstn 32 (Ecdsa.number_to_string x ++ Ecdsa.number_to_string y)
  = Ecdsa.number_to_string x.
Proof.
  unfold Ecdsa.number_to_string. rewrite firstn_app, to_bytes_be_length.
  change (32 - Ecdsa.baselen)%nat with 0%nat. rewrite firstn_O, app_nil_r.
  apply firstn_all2. rewrite to_bytes_be_length. apply le_n.
Qed.

(** Every wallet the [try] block builds, spelled out. *)
Lemma derive_ok (ripemd_available : bool) (hex : string) (w : Transaction.Wallet) :
  Wallets.derive ripemd_available hex = Ok w ->
  exists key x y data t,
    Hex.fromhex hex = Ok (Transaction.private_key w)
    /\ Ecdsa.from_string (Transaction.private_key w) = Ok key
    /\ Ecdsa.mul (Ecdsa.secret_multiplier key) Ecdsa.generator = Ecdsa.Affine x y
    /\ Transaction.public_key w
       = (if y mod 2 =? 0 then x02 else x03) :: Ecdsa.number_to_string x
    /\ Bech32.convertbits
         (map Sha256.byte_val
              (Ripemd160.digest (Sha256.digest (Transaction.public_key w)))) 8 5
       = Some data
    /\ List.length data = 32%nat
    /\ Transaction.address w = ("akash1" ++ t)%string
    /\ String.length t = 38%nat
    /\ forallb Bech32.data_char (list_ascii_of_string t) = true
    /\ Bech32.decode (Transaction.address w) = Some ("akash", data).
Proof.
  unfold Wallets.derive. intros H.
  apply bind_ok in H. destruct H as (b & Eb & H).
  apply bind_ok in H. destruct H as (key & Ek & H).
  apply bind_ok in H. destruct H as (vk & Ev & H).
  unfold Wallets.verifying_key_string in Ev.
  destruct (Ecdsa.mul (Ecdsa.secret_multiplier key) Ecdsa.generator)
    as [|x y] eqn:Em; [discriminate|].
  assert (Evk : vk = Ecdsa.number_to_string x ++ Ecdsa.number_to_string y)
    by congruence.
  clear Ev. subst vk.
  rewrite compressed_parity in H. cbn [bind] in H.
  rewrite compressed_abscissa in H.
  replace ((y mod 256) mod 2) with (y mod 2) in H.
  2:{ symmetry. apply Z.mod_mod_divide. exists 128. reflexivity. }
  set (pk := (if y mod 2 =? 0 then x02 :: Ecdsa.number_to_string x
              else x03 :: Ecdsa.number_to_string x)) in H.
  assert (Epk : pk = (if y mod 2 =? 0 then x02 else x03) :: Ecdsa.number_to_string x).
  { unfold pk. now destruct (y mod 2 =? 0). }
  destruct ripemd_available; [|discriminate].
  cbn [Wallets.hashlib_ripemd160 bind] in H.
  destruct (convertbits_hash (Ripemd160.digest (Sha256.digest pk))
              (ripemd160_length _)) as (data & Ec & Ld & Fd).
  rewrite Ec in H.
  destruct (decode_encode_akash data Fd ltac:(lia)) as (t & Ee & Lt & Gt & Ed).
  rewrite Ee in H. cbn [bind] in H. injection H as <-.
  cbn [Transaction.private_key Transaction.public_key Transaction.address].
  exists key, x, y, data, t. rewrite Ld in Lt.
  repeat split; assumption.
Qed.

(* ------------------------------------------------------------------ *)
(** ** Wallets *)

Lemma from_private_key_ok crypto ripemd describe hex w :
  Wallets.from_private_key crypto ripemd describe hex = Ok w ->
  Wallets.derive ripemd hex = Ok w.
Proof.
  unfold Wallets.from_private_key.
  destruct crypto; [|discriminate].
  destruct (Wallets.derive ripemd hex); [auto|discriminate].
Qed.

Lemma from_string_ok (b : list byte) (key : Ecdsa.SigningKey) :
  Ecdsa.from_string b = Ok key ->
  List.length b = 32%nat
  /\ Ecdsa.secret_multiplier key = Ecdsa.string_to_number b
  /\ 1 <= Ecdsa.string_to_number b < Ecdsa.order.
Proof.
  unfold Ecdsa.from_string.
  destruct (Nat.eqb (List.length b) Ecdsa.baselen) eqn:El; [|discriminate].
  cbn [negb].
  destruct ((1 <=? Ecdsa.string_to_number b) && (Ecdsa.string_to_number b <? Ecdsa.order))
    eqn:Er; [|discriminate].
  intros H. injection H as <-.
  apply Nat.eqb_eq in El. apply andb_true_iff in Er. destruct Er as [A B].
  apply Z.leb_le in A. apply Z.ltb_lt in B.
  repeat split; assumption.
Qed.

(** X1.  Every wallet [Wallet.from_private_key] returns holds the 32
    bytes the hexadecimal text spells, a number from 1 up to the group
    order minus one that [SigningKey.from_string] loads again when a
    transaction is signed, a public key of 33 bytes, and an address of 44
    characters that starts with [akash1]. *)
Theorem wallet_of_private_key_shape :
  forall crypto ripemd describe hex w,
    Wallets.from_private_key crypto ripemd describe hex = Ok w ->
    Hex.fromhex hex = Ok (Transaction.private_key w)
    /\ List.length (Transaction.private_key w) = 32%nat
    /\ 1 <= Ecdsa.string_to_number (Transaction.private_key w) < Ecdsa.order
    /\ (exists key, Ecdsa.from_string (Transaction.private_key w) = Ok key)
    /\ List.length (Transaction.public_key w) = 33%nat
    /\ Py.is_prefix "akash1" (Transaction.address w) = true
    /\ String.length (Transaction.address w) = 44%nat.
Proof.
  intros crypto ripemd describe hex w H.
  apply from_private_key_ok, derive_ok in H.
  destruct H as (key & x & y & data & t & Eh & Ek & Em & Ep & Ec & Ld & Ea & Lt & Gt & Ed).
  destruct (from_string_ok _ _ Ek) as (L & _ & R).
  repeat split; try assumption; try lia.
  - exists key. exact Ek.
  - rewrite Ep. cbn [List.length]. unfold Ecdsa.number_to_string.
    now rewrite to_bytes_be_length.
  - rewrite Ea. reflexivity.
  - rewrite Ea. cbn [String.append String.length]. now rewrite Lt.
Qed.

Lemma wallet_of_private_key_shape_witness :
  Hex.fromhex Sample.key_one = Ok (Transaction.private_key Sample.wallet_one)
  /\ List.length (Transaction.private_key Sample.wallet_one) = 32%nat
  /\ 1 <= Ecdsa.string_to_number (Transaction.private_key Sample.wallet_one) < Ecdsa.order
  /\ (exists key, Ecdsa.from_string (Transaction.private_key Sample.wallet_one) = Ok key)
  /\ List.length (Transaction.public_key Sample.wallet_one) = 33%nat
  /\ Py.is_prefix "akash1" (Transaction.address Sample.wallet_one) = true
  /\ String.length (Transaction.address Sample.wallet_one) = 44%nat.
Proof.
  apply (wallet_of_private_key_shape true true (fun _ => EmptyString) Sample.key_one).
  vm_compute. reflexivity.
Defined.

(** X2.  The public key of a wallet is the compressed form of the point
    that the private key, read as a number, multiplies the generator to:
    a byte 02 when the ordinate is even and 03 when it is odd, then the
    abscissa on 32 bytes. *)
Theorem wallet_public_key_is_compressed_point :
  forall crypto ripemd describe hex w,
    Wallets.from_private_key crypto ripemd describe hex = Ok w ->
    exists x y,
      Ecdsa.mul (Ecdsa.string_to_number (Transaction.private_key w)) Ecdsa.generator
      = Ecdsa.Affine x y
      /\ Transaction.public_key w
         = (if Z.even y then x02 else x03) :: Ecdsa.number_to_string x.
Proof.
  intros crypto ripemd describe hex w H.
  apply from_private_key_ok, derive_ok in H.
  destruct H as (key & x & y & data & t & Eh & Ek & Em & Ep & _).
  destruct (from_string_ok _ _ Ek) as (_ & Es & _).
  exists x, y. rewrite <- Es. split; [exact Em|].
  rewrite Ep, Zmod_even. now destruct (Z.even y).
Qed.

Lemma wallet_public_key_is_compressed_point_witness :
  exists x y,
    Ecdsa.mul (Ecdsa.string_to_number (Transaction.private_key Sample.wallet_one))
              Ecdsa.generator
    = Ecdsa.Affine x y
    /\ Transaction.public_key Sample.wallet_one
       = (if Z.even y then x02 else x03) :: Ecdsa.number_to_string x.
Proof.
  apply (wallet_public_key_is_compressed_point true true (fun _ => EmptyString) Sample.key_one).
  vm_compute. reflexivity.
Defined.

(** X3.  The address of a wallet is read back by [bech32_decode]: the
    checksum verifies, the prefix is [akash], and the data are the 32
    five-bit groups of the RIPEMD-160 digest of the SHA-256 digest of the
    public key. *)
Theorem wallet_address_decodes :
  forall crypto ripemd describe hex w,
    Wallets.from_private_key crypto ripemd describe hex = Ok w ->
    exists data,
      Bech32.convertbits
        (map Sha256.byte_val
             (Ripemd160.digest (Sha256.digest (Transaction.public_key w)))) 8 5
      = Some data
      /\ List.length data = 32%nat
      /\ Bech32.decode (Transaction.address w) = Some ("akash", data).
Proof.
  intros crypto ripemd describe hex w H.
  apply from_private_key_ok, derive_ok in H.
  destruct H as (key & x & y & data & t & _ & _ & _ & _ & Ec & Ld & _ & _ & _ & Ed).
  exists data. repeat split; assumption.
Qed.

Lemma wallet_address_decodes_witness :
  exists data,
    Bech32.convertbits
      (map Sha256.byte_val
           (Ripemd160.digest (Sha256.digest (Transaction.public_key Sample.wallet_one)))) 8 5
    = Some data
    /\ List.length data = 32%nat
    /\ Bech32.decode (Transaction.address Sample.wallet_one) = Some ("akash", data).
Proof.
  apply (wallet_address_decodes true true (fun _ => EmptyString) Sample.key_one).
  vm_compute. reflexivity.
Defined.

(** X4.  A text of fewer than 64 characters is never a private key: the
    call raises [AkashTransactionError], whose message is the fixed
    prefix followed by the text of the exception caught. *)
Theorem short_private_key_is_refused :
  forall ripemd describe hex,
    (String.length hex < 64)%nat ->
    exists e,
      Wallets.derive ripemd hex = Raise e
      /\ Wallets.from_private_key true ripemd describe hex
         = Raise (AkashTransactionError
                    ("Failed to create wallet from private key: " ++ describe e)%string).
Proof.
  intros ripemd describe hex Hl.
  unfold Wallets.from_private_key. cbn [negb].
  destruct (Wallets.derive ripemd hex) as [w|e] eqn:E.
  - exfalso. apply derive_ok in E.
    destruct E as (key & x & y & data & t & Eh & Ek & _).
    destruct (from_string_ok _ _ Ek) as (L & _).
    apply fromhex_length in Eh. lia.
  - exists e. split; reflexivity.
Qed.

Lemma short_private_key_is_refused_witness :
  exists e,
    Wallets.derive true "0x01" = Raise e
    /\ Wallets.from_private_key true true (fun _ => "non-hexadecimal number found") "0x01"
       = Raise (AkashTransactionError
                  ("Failed to create wallet from private key: "
                     ++ (fun _ => "non-hexadecimal number found") e)%string).
Proof.
  apply (short_private_key_is_refused true (fun _ => "non-hexadecimal number found") "0x01").
  vm_compute. lia.
Defined.

(** X17.  When the text spells 32 bytes that name a number from 1 up to
    the group order minus one, and the generator times that number is a
    point of the curve, [Wallet.from_private_key] returns a wallet, and
    the wallet holds those bytes. *)
Theorem wallet_of_valid_key_is_returned :
  forall describe hex b x y,
    Hex.fromhex hex = Ok b ->
    List.length b = 32%nat ->
    1 <= Ecdsa.string_to_number b < Ecdsa.order ->
    Ecdsa.mul (Ecdsa.string_to_number b) Ecdsa.generator = Ecdsa.Affine x y ->
    exists w,
      Wallets.from_private_key true true describe hex = Ok w
      /\ Transaction.private_key w = b
      /\ Transaction.public_key w
         = (if Z.even y then x02 else x03) :: Ecdsa.number_to_string x.
Proof.
  intros describe hex b x y Hh Hl Hr Hm.
  unfold Wallets.from_private_key. cbn [negb].
  assert (D : exists w, Wallets.derive true hex = Ok w
                        /\ Transaction.private_key w = b
                        /\ Transaction.public_key w
                           = (if Z.even y then x02 else x03)
                               :: Ecdsa.number_to_string x).
  { unfold Wallets.derive. rewrite Hh. cbn [bind].
    unfold Ecdsa.from_string. rewrite Hl. cbn [Nat.eqb negb Ecdsa.baselen].
    replace ((1 <=? Ecdsa.string_to_number b)
             && (Ecdsa.string_to_number b <? Ecdsa.order)) with true.
    2:{ symmetry. apply andb_true_iff. split; [apply Z.leb_le|apply Z.ltb_lt]; lia. }
    cbn [bind]. unfold Wallets.verifying_key_string.
    cbn [Ecdsa.secret_multiplier]. rewrite Hm. cbn [bind].
    rewrite compressed_parity. cbn [bind]. rewrite compressed_abscissa.
    replace ((y mod 256) mod 2) with (y mod 2)
      by (symmetry; apply Z.mod_mod_divide; exists 128; reflexivity).
    set (pk := if y mod 2 =? 0 then x02 :: Ecdsa.number_to_string x
               else x03 :: Ecdsa.number_to_string x).
    cbn [Wallets.hashlib_ripemd160 bind].
    destruct (convertbits_hash (Ripemd160.digest (Sha256.digest pk))
                (ripemd160_length _)) as (data & Ec & Ld & Fd).
    rewrite Ec.
    destruct (decode_encode_akash data Fd ltac:(lia)) as (t & Ee & _).
    rewrite Ee. cbn [bind]. eexists. split; [reflexivity|].
    cbn [Transaction.private_key Transaction.public_key]. split; [reflexivity|].
    unfold pk. rewrite Zmod_even. now destruct (Z.even y). }
  destruct D as (w & -> & Hb & Hp). exists w. auto.
Qed.

Lemma wallet_of_valid_key_is_returned_witness :
  exists w,
    Wallets.from_private_key true true (fun _ => EmptyString) Sample.key_one = Ok w
    /\ Transaction.private_key w = repeat x00 31 ++ [x01]
    /\ Transaction.public_key w
       = (if Z.even Ecdsa.gen_y then x02 else x03) :: Ecdsa.number_to_string Ecdsa.gen_x.
Proof.
  apply (wallet_of_valid_key_is_returned (fun _ => EmptyString) Sample.key_one
           (repeat x00 31 ++ [x01]) Ecdsa.gen_x Ecdsa.gen_y).
  - vm_compute. reflexivity.
  - reflexivity.
  - vm_compute. split; [discriminate|reflexivity].
  - vm_compute. reflexivity.
Defined.

(* ------------------------------------------------------------------ *)
(** ** The signature *)

Lemma sign_number_range key number k r s :
  Ecdsa.sign_number key number k = Ok (r, s) ->
  1 <= r < Ecdsa.order /\ 1 <= s < Ecdsa.order.
Proof.
  unfold Ecdsa.sign_number.
  destruct (negb _); [discriminate|].
  destruct (Ecdsa.mul _ _) as [|x y]; [discriminate|].
  destruct (x mod Ecdsa.order =? 0) eqn:Er; [discriminate|].
  match goal with
  | |- context [if ?c =? 0 then _ else _] => destruct (c =? 0) eqn:Es
  end; [discriminate|].
  intros H. injection H as <- <-.
  apply Z.eqb_neq in Er. apply Z.eqb_neq in Es.
  match goal with
  | |- _ /\ 1 <= ?a mod _ < _ =>
      pose proof (Z.mod_pos_bound a Ecdsa.order eq_refl)
  end.
  pose proof (Z.mod_pos_bound x Ecdsa.order eq_refl).
  lia.
Qed.

Lemma string_of_number x :
  0 <= x < Ecdsa.order ->
  Ecdsa.string_to_number (Ecdsa.number_to_string x) = x.
Proof.
  intros H. unfold Ecdsa.string_to_number, Ecdsa.number_to_string.
  rewrite of_to_bytes_be. pose proof order_below_2_256.
  apply Z.mod_small. lia.
Qed.

(** X18.  Whenever the two ECDSA statements of [sign_transaction] give a
    signature, it is 64 bytes long: the 32 bytes of [r], the abscissa of
    the nonce's point modulo the order, then the 32 bytes of [s], both
    from 1 up to the group order minus one; no low-[s] rule is applied. *)
Theorem ecdsa_signature_is_r_then_s :
  forall w h k sig,
    ecdsa_sign w h k = Ok sig ->
    List.length sig = 64%nat
    /\ Ecdsa.string_to_number (firstn 32 sig) = Ecdsa.nonce_r k
    /\ 1 <= Ecdsa.string_to_number (firstn 32 sig) < Ecdsa.order
    /\ 1 <= Ecdsa.string_to_number (skipn 32 sig) < Ecdsa.order.
Proof.
  intros w h k sig H. unfold ecdsa_sign, Ecdsa.sign in H.
  apply bind_ok in H. destruct H as (key & _ & H).
  apply bind_ok in H. destruct H as ([r s] & Hrs & H).
  injection H as <-.
  destruct (sign_number_r _ _ _ _ _ Hrs) as (Er & _).
  destruct (sign_number_range _ _ _ _ _ Hrs) as (Rr & Rs).
  unfold Ecdsa.sigencode_string. cbn [fst snd].
  assert (Lr : List.length (Ecdsa.number_to_string r) = 32%nat)
    by (unfold Ecdsa.number_to_string; apply to_bytes_be_length).
  assert (Ls : List.length (Ecdsa.number_to_string s) = 32%nat)
    by (unfold Ecdsa.number_to_string; apply to_bytes_be_length).
  rewrite length_app, Lr, Ls.
  rewrite firstn_app, Lr. change (32 - 32)%nat with 0%nat.
  rewrite firstn_O, app_nil_r, firstn_all2 by (rewrite Lr; apply le_n).
  rewrite skipn_app, Lr. change (32 - 32)%nat with 0%nat.
  rewrite skipn_all2 by (rewrite Lr; apply le_n). cbn [skipn app].
  rewrite !string_of_number by lia.
  repeat split; try lia.
Qed.

Lemma ecdsa_signature_is_r_then_s_witness :
  exists sig,
    ecdsa_sign Scenario.wallet Scenario.signature_hash 1 = Ok sig
    /\ List.length sig = 64%nat
    /\ Ecdsa.string_to_number (firstn 32 sig) = Ecdsa.nonce_r 1
    /\ 1 <= Ecdsa.string_to_number (firstn 32 sig) < Ecdsa.order
    /\ 1 <= Ecdsa.string_to_number (skipn 32 sig) < Ecdsa.order.
Proof.
  eexists. split; [vm_compute; reflexivity|].
  apply (ecdsa_signature_is_r_then_s Scenario.wallet Scenario.signature_hash 1).
  vm_compute. reflexivity.
Defined.

(* ------------------------------------------------------------------ *)
(** ** The transaction methods of the asynchronous client *)

Lemma signing_stops (self : AkashTransactionSigner) (w : Wallet) (tx : pyval)
      (ti : TransactionInfo) :
  exists e, forall k (rest : pyval -> res pyval),
    bind (sign_transaction self w tx ti k) rest = Raise e.
Proof.
  destruct (sign_doc self tx ti) as [doc|e] eqn:E.
  - exists Json.not_serializable. intros k rest.
    rewrite sign_transaction_outcome, E. reflexivity.
  - exists e. intros k rest. rewrite sign_transaction_outcome, E. reflexivity.
Qed.

(** Whatever is resolved and assembled, the steps from [sign_transaction]
    on raise, and raise the same for every nonce and every answer to the
    broadcast. *)
Ltac pipeline_stops :=
  repeat match goal with
         | |- exists e, forall br k, bind (sign_transaction ?s ?w ?tx ?ti k) _ = Raise e =>
             let e := fresh "e" in
             let E := fresh "E" in
             destruct (signing_stops s w tx ti) as (e & E);
             exists e; intros; apply E
         | |- exists e, forall br k, bind ?m _ = Raise e =>
             let e := fresh "e" in
             destruct m as [?|e]; cbn [bind];
             [|exists e; intros; reflexivity]
         end.

(** X5.  [create_deployment] never returns a transaction result: for
    every client, wallet, SDL, deposit and gas limit and every answer of
    the node, it raises, and what it raises depends neither on the
    answer to the broadcast nor on the nonce, since the pipeline stops
    at [sign_transaction] at the latest. *)
Theorem create_deployment_never_returns :
  forall self wallet sdl deposit gas_limit account_reply,
  exists e, forall broadcast_reply k,
    AsyncClient.create_deployment self wallet sdl deposit gas_limit
                                  account_reply broadcast_reply k
    = Raise e.
Proof.
  intros self wallet sdl deposit gas_limit account_reply.
  unfold AsyncClient.create_deployment.
  destruct (AsyncClient._transaction_signer self) as [signer|];
    [|eexists; intros; reflexivity].
  pipeline_stops.
Qed.

(** X6.  [create_bid] never returns a transaction result either. *)
Theorem create_bid_never_returns :
  forall self wallet order_id price gas_limit account_reply,
  exists e, forall broadcast_reply k,
    AsyncTx.create_bid self wallet order_id price gas_limit
                       account_reply broadcast_reply k
    = Raise e.
Proof.
  intros self wallet order_id price gas_limit account_reply.
  unfold AsyncTx.create_bid.
  destruct (AsyncClient._transaction_signer self) as [signer|];
    [|eexists; intros; reflexivity].
  pipeline_stops.
Qed.

(** X7.  Nor does [create_lease]. *)
Theorem create_lease_never_returns :
  forall self wallet bid_id gas_limit account_reply,
  exists e, forall broadcast_reply k,
    AsyncTx.create_lease self wallet bid_id gas_limit
                         account_reply broadcast_reply k
    = Raise e.
Proof.
  intros self wallet bid_id gas_limit account_reply.
  unfold AsyncTx.create_lease.
  destruct (AsyncClient._transaction_signer self) as [signer|];
    [|eexists; intros; reflexivity].
  pipeline_stops.
Qed.

Lemma account_info_shape self addr reply info :
  AsyncClient._get_account_info self addr reply = Ok info ->
  exists n s, info = PDict [("account_number", PInt n); ("sequence", PInt s)].
Proof.
  unfold AsyncClient._get_account_info.
  destruct (negb (AsyncClient._rest_session self)); [discriminate|].
  destruct reply as [|status [data|]]; try discriminate.
  - destruct (400 <=? status); [discriminate|].
    intros H.
    apply bind_ok in H. destruct H as (account & _ & H).
    apply bind_ok in H. destruct H as (n & _ & H).
    apply bind_ok in H. destruct H as (s & _ & H).
    injection H as <-. exists n, s. reflexivity.
  - destruct (400 <=? status); discriminate.
Qed.

Lemma signing_refuses_assembled signer wallet msg ti g br k :
  self_gas_price signer = default_gas_price ->
  - 2 ^ 1023 < g < 2 ^ 1023 ->
  Json.serializable msg = true ->
  (transaction <- create_transaction signer wallet [msg] ti g ;;
   signed_tx <- sign_transaction signer wallet transaction ti k ;;
   broadcast_transaction signer signed_tx br)
  = Raise Json.not_serializable.
Proof.
  intros Hp Hg Hm.
  destruct (default_gas_amount_ok signer g Hp Hg) as [amount Ha].
  rewrite (create_transaction_ok _ wallet [msg] ti _ _ Ha). cbn [bind].
  destruct (created_sign_doc signer wallet [msg] ti amount g) as [doc Hd].
  { cbn [forallb]. now rewrite Hm. }
  rewrite (sign_transaction_refused _ wallet _ _ k _ Hd). reflexivity.
Qed.

(** X20.  With everything in order, the three transaction methods fail
    in the same way: for a client with a session and a signer at the
    default gas price, an account the node resolves, a gas limit a float
    can hold and a JSON-serializable SDL, order or bid, each of them
    raises the [TypeError] of [json.dumps] on the signing document, and
    nothing is broadcast. *)
Theorem transaction_methods_raise_type_error :
  forall self signer wallet account_reply info payload text gas_limit
         broadcast_reply k,
    AsyncClient._transaction_signer self = Some signer ->
    self_gas_price signer = default_gas_price ->
    AsyncClient._get_account_info self (address wallet) account_reply = Ok info ->
    - 2 ^ 1023 < gas_limit < 2 ^ 1023 ->
    Json.serializable payload = true ->
    AsyncClient.create_deployment self wallet payload text gas_limit
                                  account_reply broadcast_reply k
    = Raise Json.not_serializable
    /\ AsyncTx.create_bid self wallet payload text gas_limit
                          account_reply broadcast_reply k
       = Raise Json.not_serializable
    /\ AsyncTx.create_lease self wallet payload gas_limit
                            account_reply broadcast_reply k
       = Raise Json.not_serializable.
Proof.
  intros self signer wallet account_reply info payload text gas_limit
         broadcast_reply k Hs Hp Hi Hg Hm.
  destruct (account_info_shape _ _ _ _ Hi) as (n & s & ->).
  unfold AsyncClient.create_deployment, AsyncTx.create_bid, AsyncTx.create_lease.
  rewrite Hs, Hi. cbn [bind].
  rewrite (create_deployment_msg_ok signer (address wallet) payload text Hm).
  unfold create_bid_msg, create_lease_msg. cbn [bind].
  change (AsyncClient.int_field
            (PDict [("account_number", PInt n); ("sequence", PInt s)])
            "account_number") with (Ok n : res Z).
  change (AsyncClient.int_field
            (PDict [("account_number", PInt n); ("sequence", PInt s)])
            "sequence") with (Ok s : res Z).
  cbn [bind].
  repeat split; apply signing_refuses_assembled; try assumption.
  - cbn [Json.serializable forallb snd _sdl_to_groups]. rewrite ?Hm. reflexivity.
  - cbn [Json.serializable forallb snd]. rewrite Hm. reflexivity.
  - cbn [Json.serializable forallb snd]. rewrite Hm. reflexivity.
Qed.

Lemma transaction_methods_raise_type_error_witness :
  AsyncClient.create_deployment Scenario.client Scenario.wallet Scenario.order_id
    "5uakt" 200000
    (Responded 200
       (Some (PDict [("account",
                       PDict [("account_number", PStr "5"); ("sequence", PStr "2")])])))
    (Responded 200 (Some Scenario.acceptance)) 1
  = Raise Json.not_serializable
  /\ AsyncTx.create_bid Scenario.client Scenario.wallet Scenario.order_id
       "5uakt" 200000
       (Responded 200
          (Some (PDict [("account",
                          PDict [("account_number", PStr "5"); ("sequence", PStr "2")])])))
       (Responded 200 (Some Scenario.acceptance)) 1
     = Raise Json.not_serializable
  /\ AsyncTx.create_lease Scenario.client Scenario.wallet Scenario.order_id 200000
       (Responded 200
          (Some (PDict [("account",
                          PDict [("account_number", PStr "5"); ("sequence", PStr "2")])])))
       (Responded 200 (Some Scenario.acceptance)) 1
     = Raise Json.not_serializable.
Proof.
  apply (transaction_methods_raise_type_error Scenario.client Scenario.signer
           Scenario.wallet _ (PDict [("account_number", PInt 5); ("sequence", PInt 2)])).
  - reflexivity.
  - reflexivity.
  - vm_compute. reflexivity.
  - vm_compute. split; reflexivity.
  - reflexivity.
Defined.

(* ------------------------------------------------------------------ *)
(** ** Numbers in decimal *)

Lemma rstrip_if_none (p : ascii -> bool) (s : string) :
  forallb (fun c => negb (p c)) (list_ascii_of_string s) = true ->
  Py.rstrip_if p s = s.
Proof.
  induction s as [|c s IH]; cbn [list_ascii_of_string forallb Py.rstrip_if];
    [reflexivity|].
  rewrite andb_true_iff. intros [Hc Hs]. rewrite (IH Hs).
  destruct s; [|reflexivity].
  apply negb_true_iff in Hc. rewrite Hc. reflexivity.
Qed.

Lemma uint_digits (d : Decimal.uint) :
  forallb Py.is_digit (list_ascii_of_string (NilEmpty.string_of_uint d)) = true.
Proof. induction d; cbn; auto. Qed.

Lemma digit_not_space (c : ascii) : Py.is_digit c = true -> Py.is_space c = false.
Proof. destruct c as [[] [] [] [] [] [] [] []]; intros H; try discriminate H; reflexivity. Qed.

Lemma uint_no_space (d : Decimal.uint) :
  forallb (fun c => negb (Py.is_space c))
          (list_ascii_of_string (NilEmpty.string_of_uint d)) = true.
Proof.
  pose proof (uint_digits d) as H.
  induction (list_ascii_of_string (NilEmpty.string_of_uint d)) as [|c l IH];
    cbn [forallb] in *; [reflexivity|].
  apply andb_true_iff in H. destruct H as [Hc Hl].
  rewrite (digit_not_space c Hc), (IH Hl). reflexivity.
Qed.

Lemma digits_value_acc (d : Decimal.uint) : forall acc,
  Py.digits_value (Zpos acc) true (NilEmpty.string_of_uint d)
  = Some (Zpos (Pos.of_uint_acc d acc)).
Proof.
  induction d; intros acc; cbn [NilEmpty.string_of_uint Py.digits_value Pos.of_uint_acc];
    try reflexivity;
    match goal with
    | |- context [Py.is_digit ?c] => change (Py.is_digit c) with true; cbv iota
    end;
    match goal with
    | |- context [Py.digit_value ?c] =>
        let v := eval vm_compute in (Py.digit_value c) in
        change (Py.digit_value c) with v
    end;
    rewrite <- IHd; f_equal; lia.
Qed.

Lemma digits_value_uint (d : Decimal.uint) :
  Py.digits_value 0 true (NilEmpty.string_of_uint d) = Some (Z.of_N (Pos.of_uint d)).
Proof.
  induction d; cbn [NilEmpty.string_of_uint Py.digits_value Pos.of_uint];
    try reflexivity;
    match goal with
    | |- context [Py.is_digit ?c] => change (Py.is_digit c) with true; cbv iota
    end;
    match goal with
    | |- context [Py.digit_value ?c] =>
        let v := eval vm_compute in (Py.digit_value c) in
        change (Py.digit_value c) with v
    end;
    change (10 * 0 + 0) with 0; try exact IHd;
    match goal with
    | |- Py.digits_value ?a true _ = _ =>
        let v := eval vm_compute in a in change a with v
    end;
    rewrite digits_value_acc; reflexivity.
Qed.

Lemma digits_value_start (d : Decimal.uint) :
  d <> Decimal.Nil ->
  Py.digits_value 0 false (NilEmpty.string_of_uint d)
  = Py.digits_value 0 true (NilEmpty.string_of_uint d).
Proof. destruct d; intros H; try reflexivity. now elim H. Qed.

Lemma to_uint_not_nil (p : positive) : Pos.to_uint p <> Decimal.Nil.
Proof.
  intros E. pose proof (DecimalPos.Unsigned.of_to p) as H.
  rewrite E in H. discriminate H.
Qed.

Lemma digits_value_pos (p : positive) :
  Py.digits_value 0 false (NilEmpty.string_of_uint (Pos.to_uint p)) = Some (Zpos p).
Proof.
  rewrite digits_value_start by apply to_uint_not_nil.
  rewrite digits_value_uint, DecimalPos.Unsigned.of_to. reflexivity.
Qed.

Lemma lstrip_digits (d : Decimal.uint) :
  Py.lstrip_if Py.is_space (NilEmpty.string_of_uint d) = NilEmpty.string_of_uint d.
Proof. destruct d; reflexivity. Qed.

Lemma count_digits_nonneg (s : string) : 0 <= Py.count_digits s.
Proof.
  induction s as [|c s IH]; cbn [Py.count_digits]; [lia|].
  destruct (Py.is_digit c); lia.
Qed.

(** The number a run of digits continues, between the bounds its length
    gives. *)
Lemma of_uint_acc_bounds (d : Decimal.uint) : forall acc,
  Zpos acc * 10 ^ Py.count_digits (NilEmpty.string_of_uint d)
  <= Zpos (Pos.of_uint_acc d acc)
  < (Zpos acc + 1) * 10 ^ Py.count_digits (NilEmpty.string_of_uint d).
Proof.
  induction d; intros acc;
    cbn [NilEmpty.string_of_uint Py.count_digits Pos.of_uint_acc];
    try (change (10 ^ 0) with 1; lia);
    match goal with
    | |- context [Py.is_digit ?c] => change (Py.is_digit c) with true; cbv iota
    end;
    pose proof (count_digits_nonneg (NilEmpty.string_of_uint d)) as Hc;
    rewrite Z.pow_add_r by lia; change (10 ^ 1) with 10;
    match goal with
    | |- context [Pos.of_uint_acc d ?a] => specialize (IHd a)
    end;
    assert (Hp : 0 < 10 ^ Py.count_digits (NilEmpty.string_of_uint d))
      by (apply Z.pow_pos_nonneg; lia);
    nia.
Qed.

(** The decimal text of a positive number has as many digits as its
    size asks for. *)
Lemma to_uint_digits (p : positive) :
  let c := Py.count_digits (NilEmpty.string_of_uint (Pos.to_uint p)) in
  1 <= c /\ 10 ^ (c - 1) <= Zpos p < 10 ^ c.
Proof.
  pose proof (DecimalPos.Unsigned.of_to p) as V.
  pose proof (DecimalPos.Unsigned.to_of (Pos.to_uint p)) as N.
  rewrite V in N. cbn [N.to_uint] in N.
  pose proof (DecimalPos.Unsigned.to_uint_nonzero p) as Z0.
  assert (H0 : forall l, Pos.to_uint p <> Decimal.D0 l).
  { intros l E. rewrite E in N.
    rewrite DecimalFacts.unorm_D0 in N.
    destruct (Decimal.nzhead l) eqn:El;
      unfold Decimal.unorm in N; rewrite El in N; try discriminate N.
    - apply Z0. rewrite E. injection N as ->. reflexivity.
    - exact (DecimalFacts.nzhead_nonzero l _ El). }
  destruct (Pos.to_uint p) as [|l|l|l|l|l|l|l|l|l|l] eqn:E;
    try discriminate V; try (now elim (H0 l));
    cbn [Pos.of_uint] in V; injection V as V;
    cbn [NilEmpty.string_of_uint Py.count_digits];
    match goal with
    | |- context [Py.is_digit ?c] => change (Py.is_digit c) with true; cbv iota
    end;
    pose proof (count_digits_nonneg (NilEmpty.string_of_uint l)) as Hc;
    match type of V with
    | Pos.of_uint_acc l ?a = p => pose proof (of_uint_acc_bounds l a) as B
    end;
    rewrite V in B;
    assert (Hp : 0 < 10 ^ Py.count_digits (NilEmpty.string_of_uint l))
      by (apply Z.pow_pos_nonneg; lia);
    replace (1 + Py.count_digits (NilEmpty.string_of_uint l) - 1)
      with (Py.count_digits (NilEmpty.string_of_uint l)) by lia;
    rewrite Z.pow_add_r by lia; change (10 ^ 1) with 10;
    (split; [lia|nia]).
Qed.

Lemma digit_limit_of_size (p : positive) :
  (Py.int_max_str_digits
   <? Py.count_digits (NilEmpty.string_of_uint (Pos.to_uint p)))
  = negb (Zpos p <? 10 ^ Py.int_max_str_digits).
Proof.
  destruct (to_uint_digits p) as (H1 & Hlo & Hhi).
  set (c := Py.count_digits (NilEmpty.string_of_uint (Pos.to_uint p))) in *.
  assert (Hm : 0 <= Py.int_max_str_digits) by (unfold Py.int_max_str_digits; lia).
  destruct (Z.ltb_spec Py.int_max_str_digits c) as [L|L];
    destruct (Z.ltb_spec (Zpos p) (10 ^ Py.int_max_str_digits)) as [B|B];
    try reflexivity; exfalso.
  - assert (10 ^ Py.int_max_str_digits <= 10 ^ (c - 1))
      by (apply Z.pow_le_mono_r; lia).
    lia.
  - assert (10 ^ c <= 10 ^ Py.int_max_str_digits)
      by (apply Z.pow_le_mono_r; lia).
    lia.
Qed.

(** [int(str(n))]: [n] when its decimal text keeps within the digit
    limit of [int], a [ValueError] beyond. *)
Lemma int_of_str (n : Z) :
  Py.int (PStr (Py.str_of_int n))
  = if Z.abs n <? 10 ^ Py.int_max_str_digits then Ok n else Raise ValueError.
Proof.
  unfold Py.int, Py.int_of_text, Py.str_of_int.
  destruct n as [|p|p]; cbn [Z.to_int NilEmpty.string_of_int Z.abs].
  - reflexivity.
  - rewrite rstrip_if_none by apply uint_no_space.
    rewrite lstrip_digits.
    pose proof (digits_value_pos p) as D.
    pose proof (uint_digits (Pos.to_uint p)) as G.
    pose proof (digit_limit_of_size p) as L.
    destruct (NilEmpty.string_of_uint (Pos.to_uint p)) as [|c s] eqn:E.
    + discriminate D.
    + cbn [list_ascii_of_string forallb] in G. apply andb_true_iff in G.
      destruct G as [Gc _].
      replace (Ascii.eqb c "-") with false.
      2:{ destruct c as [[] [] [] [] [] [] [] []]; try discriminate Gc; reflexivity. }
      replace (Ascii.eqb c "+") with false.
      2:{ destruct c as [[] [] [] [] [] [] [] []]; try discriminate Gc; reflexivity. }
      rewrite D, L. now destruct (Zpos p <? 10 ^ Py.int_max_str_digits).
  - rewrite rstrip_if_none.
    2:{ cbn [list_ascii_of_string forallb]. rewrite uint_no_space. reflexivity. }
    cbn [Py.lstrip_if]. change (Py.is_space "-") with false. cbv iota.
    change (Ascii.eqb "-" "-") with true. cbv iota.
    rewrite digits_value_pos, digit_limit_of_size.
    now destruct (Zpos p <? 10 ^ Py.int_max_str_digits).
Qed.


(* ------------------------------------------------------------------ *)
(** ** The account resolver and the broadcaster *)



(** The other side of the limit: an account number of 4301 digits or
    more, written as a string, makes [_get_account_info] raise. *)
Lemma long_account_number_is_refused self addr status data account n vn :
  AsyncClient._rest_session self = true ->
  status < 400 ->
  Py.dict_get "account" data = Some (PDict account) ->
  Py.dict_get "account_number" account = Some vn ->
  vn = PStr (Py.str_of_int n) ->
  10 ^ Py.int_max_str_digits <= Z.abs n ->
  AsyncClient._get_account_info self addr (Responded status (Some (PDict data)))
  = Raise ValueError.
Proof.
  intros Hs Hst Ha Hn -> Bn.
  unfold AsyncClient._get_account_info. rewrite Hs. cbn [negb].
  replace (400 <=? status) with false by (symmetry; apply Z.leb_gt; exact Hst).
  cbn [Py.get]. rewrite Ha. cbn [bind Py.get]. rewrite Hn. cbn [bind].
  rewrite int_of_str.
  now replace (Z.abs n <? 10 ^ Py.int_max_str_digits) with false
    by (symmetry; apply Z.ltb_ge; exact Bn).
Qed.

Lemma dumps_ok_iff sort_keys obj :
  (exists t, Json.dumps sort_keys obj = Ok t) <-> Json.serializable obj = true.
Proof.
  unfold Json.dumps, Json.dumps_with.
  destruct (Json.serializable obj); split; intros H; try reflexivity.
  - eexists. reflexivity.
  - destruct H as [t H]. discriminate H.
  - discriminate H.
Qed.

Lemma interpret_response_ok result v :
  interpret_response result = Ok v <->
  exists d, result = PDict d
            /\ Py.dict_get "error" d = None
            /\ Py.dict_get "result" d = Some v.
Proof.
  unfold interpret_response. split.
  - destruct result as [| | | | |l|d]; cbn [Py.contains bind]; try discriminate.
    + destruct (Py.is_substring "error" s); cbn [Py.getitem bind]; discriminate.
    + destruct (existsb _ l); cbn [Py.getitem bind]; discriminate.
    + unfold Py.dict_mem. cbn [Py.getitem].
      destruct (Py.dict_get "error" d) as [err|] eqn:E; cbn [bind]; [discriminate|].
      destruct (Py.dict_get "result" d) as [r|] eqn:R; [|discriminate].
      intros H. injection H as <-. exists d. auto.
  - intros (d & -> & E & R). cbn [Py.contains bind]. unfold Py.dict_mem.
    rewrite E. cbn [Py.getitem]. rewrite R. reflexivity.
Qed.

(** X9.  [broadcast_transaction] returns a value in one case only: the
    signed transaction is JSON-serializable, the node answers with a body
    that decodes to a JSON object, the object has no [error] key, and the
    value returned is the one under its [result] key.  The HTTP status
    plays no part, and an [error] key suffices to fail, whatever it
    holds. *)
Theorem broadcast_returns_exactly_the_result :
  forall self signed_tx reply v,
    broadcast_transaction self signed_tx reply = Ok v <->
    Json.serializable signed_tx = true
    /\ exists status d,
         reply = Responded status (Some (PDict d))
         /\ Py.dict_get "error" d = None
         /\ Py.dict_get "result" d = Some v.
Proof.
  intros self signed_tx reply v. unfold broadcast_transaction, broadcast_data.
  unfold Json.dumps, Json.dumps_with.
  destruct (Json.serializable signed_tx); cbn [bind].
  - split.
    + destruct reply as [|status [result|]]; try discriminate.
      intros H. apply interpret_response_ok in H. destruct H as (d & -> & E & R).
      split; [reflexivity|]. exists status, d. auto.
    + intros (_ & status & d & -> & E & R).
      apply interpret_response_ok. exists d. auto.
  - split; [discriminate|]. intros (H & _). discriminate H.
Qed.

(* ------------------------------------------------------------------ *)
(** ** Endpoints *)

Lemma rstrip_if_all (p : ascii -> bool) (t : string) :
  Text.all_chars p t = true -> Py.rstrip_if p t = EmptyString.
Proof.
  unfold Text.all_chars.
  induction t as [|c t IH]; cbn [list_ascii_of_string forallb Py.rstrip_if];
    [reflexivity|].
  rewrite andb_true_iff. intros [Hc Ht]. rewrite (IH Ht), Hc. reflexivity.
Qed.

Lemma rstrip_if_app (p : ascii -> bool) (s t : string) :
  Text.all_chars p t = true ->
  Py.rstrip_if p (s ++ t) = Py.rstrip_if p s.
Proof.
  intros Ht. induction s as [|c s IH]; cbn [String.append Py.rstrip_if].
  - destruct t as [|c t]; [reflexivity|]. now apply rstrip_if_all.
  - rewrite IH. reflexivity.
Qed.

Lemma lstrip_if_app (p : ascii -> bool) (t s : string) :
  Text.all_chars p t = true ->
  Py.lstrip_if p (t ++ s) = Py.lstrip_if p s.
Proof.
  unfold Text.all_chars.
  induction t as [|c t IH]; cbn [list_ascii_of_string forallb String.append];
    [reflexivity|].
  rewrite andb_true_iff. intros [Hc Ht]. cbn [Py.lstrip_if]. rewrite Hc. now apply IH.
Qed.

(** What [rstrip] removes is a run of the character, and what it leaves
    does not end with it. *)
Lemma rstrip_if_split (p : ascii -> bool) (s : string) :
  exists t, s = (Py.rstrip_if p s ++ t)%string /\ Text.all_chars p t = true.
Proof.
  induction s as [|c s IH]; cbn [Py.rstrip_if].
  - exists EmptyString. split; reflexivity.
  - destruct IH as (t & E & Ht).
    destruct (Py.rstrip_if p s) as [|a r] eqn:R.
    + destruct (p c) eqn:Pc.
      * exists (String c t). cbn [String.append] in *. split; [f_equal; exact E|].
        unfold Text.all_chars in *. cbn [list_ascii_of_string forallb].
        rewrite Pc. exact Ht.
      * exists t. cbn [Py.str1 String.append] in *. split; [now rewrite <- E|exact Ht].
    + exists t. cbn [String.append] in *. split; [now rewrite <- E|exact Ht].
Qed.

Lemma rstrip_char_end (c : ascii) (s : string) :
  Text.ends_with c (Py.rstrip_char c s) = false.
Proof.
  unfold Py.rstrip_char.
  induction s as [|a s IH]; cbn [Py.rstrip_if]; [reflexivity|].
  destruct (Py.rstrip_if (Ascii.eqb c) s) as [|b r] eqn:R.
  - destruct (Ascii.eqb c a) eqn:E; [reflexivity|].
    cbn [Py.str1 Text.ends_with]. now rewrite Ascii.eqb_sym.
  - cbn [Text.ends_with] in *. exact IH.
Qed.

Lemma lstrip_if_start (c : ascii) (s : string) :
  Text.starts_with c (Py.lstrip_if (Ascii.eqb c) s) = false.
Proof.
  induction s as [|a s IH]; cbn [Py.lstrip_if]; [reflexivity|].
  destruct (Ascii.eqb c a) eqn:E; [exact IH|].
  cbn [Text.starts_with]. now rewrite Ascii.eqb_sym.
Qed.

(** X10.  The signer keeps its RPC endpoint without the slashes at its
    end: an endpoint followed by any run of slashes makes the signer the
    endpoint alone makes, the endpoint kept does not end with a slash,
    and the endpoint given is the one kept followed by slashes only. *)
Theorem signer_endpoint_has_no_trailing_slash :
  forall endpoint chain gas t,
    Text.all_chars (Ascii.eqb "/") t = true ->
    exists signer,
      init true (endpoint ++ t) chain gas = Ok signer
      /\ init true endpoint chain gas = Ok signer
      /\ Text.ends_with "/" (self_rpc_endpoint signer) = false
      /\ exists t', endpoint = (self_rpc_endpoint signer ++ t')%string
                    /\ Text.all_chars (Ascii.eqb "/") t' = true.
Proof.
  intros endpoint chain gas t Ht. eexists. split; [|split; [reflexivity|]].
  - unfold init. cbn [negb]. unfold Py.rstrip_char.
    now rewrite rstrip_if_app.
  - cbn [self_rpc_endpoint]. split; [apply rstrip_char_end|apply rstrip_if_split].
Qed.

Lemma signer_endpoint_has_no_trailing_slash_witness :
  exists signer,
    init true ("http://localhost:26657" ++ "//") "akashnet-2" "0.025uakt" = Ok signer
    /\ init true "http://localhost:26657" "akashnet-2" "0.025uakt" = Ok signer
    /\ Text.ends_with "/" (self_rpc_endpoint signer) = false
    /\ exists t', "http://localhost:26657" = (self_rpc_endpoint signer ++ t')%string
                  /\ Text.all_chars (Ascii.eqb "/") t' = true.
Proof.
  apply (signer_endpoint_has_no_trailing_slash
           "http://localhost:26657" "akashnet-2" "0.025uakt" "//").
  reflexivity.
Defined.

(** X11.  The URL of a request of the synchronous client has exactly one
    slash between endpoint and path: slashes at the end of the endpoint
    and at the start of the path do not change it, and it is a text that
    does not end with a slash, a slash, and a text that does not start
    with one. *)
Theorem request_url_joins_with_one_slash :
  forall endpoint seconds path t1 t2,
    Text.all_chars (Ascii.eqb "/") t1 = true ->
    Text.all_chars (Ascii.eqb "/") t2 = true ->
    Client.request_url (Client.init (endpoint ++ t1) seconds) (t2 ++ path)
    = Client.request_url (Client.init endpoint seconds) path
    /\ exists base rest,
         Client.request_url (Client.init endpoint seconds) path
         = (base ++ "/" ++ rest)%string
         /\ Text.ends_with "/" base = false
         /\ Text.starts_with "/" rest = false.
Proof.
  intros endpoint seconds path t1 t2 H1 H2. split.
  - unfold Client.request_url, Client.init.
    cbn [Client.rest_endpoint]. unfold Py.rstrip_char.
    now rewrite rstrip_if_app, lstrip_if_app.
  - exists (Py.rstrip_char "/" endpoint), (Py.lstrip_if (Ascii.eqb "/") path).
    split; [reflexivity|]. split; [apply rstrip_char_end|apply lstrip_if_start].
Qed.

Lemma request_url_joins_with_one_slash_witness :
  Client.request_url (Client.init ("https://api.akash.network" ++ "/") 30)
                     ("//" ++ "akash/provider/v1beta3/providers")
  = Client.request_url (Client.init "https://api.akash.network" 30)
                       "akash/provider/v1beta3/providers"
  /\ exists base rest,
       Client.request_url (Client.init "https://api.akash.network" 30)
                          "akash/provider/v1beta3/providers"
       = (base ++ "/" ++ rest)%string
       /\ Text.ends_with "/" base = false
       /\ Text.starts_with "/" rest = false.
Proof.
  apply (request_url_joins_with_one_slash
           "https://api.akash.network" 30 "akash/provider/v1beta3/providers" "/" "//");
    reflexivity.
Defined.

(* ------------------------------------------------------------------ *)
(** ** Query parameters and health *)

(** X12.  [get_deployments] tests its filters for truth, so an empty
    owner or state and a deployment sequence of 0 are dropped: in both
    clients the request is the one made with the filter left out,
    whatever the network answers. *)
Theorem get_deployments_drops_empty_and_zero_filters :
  forall owner state dseq,
    let kept_str v := match v with Some EmptyString => None | _ => v end in
    let kept_int v := match v with Some 0 => None | _ => v end in
    (forall env self,
        Client.get_deployments env self owner state dseq
        = Client.get_deployments env self (kept_str owner) (kept_str state)
                                 (kept_int dseq))
    /\ (forall self session_get,
           AsyncRest.get_deployments self session_get owner state dseq
           = AsyncRest.get_deployments self session_get (kept_str owner)
                                       (kept_str state) (kept_int dseq))
    /\ Py.dict_get "dseq" (Params.deployments owner state (Some 0)) = None
    /\ Py.dict_get "owner" (Params.deployments (Some EmptyString) state dseq) = None.
Proof.
  intros owner state dseq kept_str kept_int.
  assert (E : Params.deployments owner state dseq
              = Params.deployments (kept_str owner) (kept_str state) (kept_int dseq)).
  { destruct owner as [[|c o]|], state as [[|c' s]|], dseq as [[|p|p]|]; reflexivity. }
  split; [|split; [|split]].
  - intros env self. unfold Client.get_deployments. now rewrite E.
  - intros self session_get. unfold AsyncRest.get_deployments. now rewrite E.
  - destruct owner as [[|c o]|], state as [[|c' s]|]; reflexivity.
  - destruct state as [[|c' s]|], dseq as [[|p|p]|]; reflexivity.
Qed.

Lemma dict_mem_keys (k : string) (d : pydict) :
  Py.dict_mem k d = true -> In k (map fst d).
Proof.
  unfold Py.dict_mem. induction d as [|[k' v] d IH]; cbn [Py.dict_get map fst In].
  - discriminate.
  - destruct (String.eqb_spec k k') as [->|_]; [now left|].
    intros H. right. exact (IH H).
Qed.

(** X13.  The synchronous [get_bids] and [get_leases] test their filters
    against [None] only: each filter given, a 0 or an empty text
    included, is sent under its own name as [str] of its value, each
    filter left out is absent, and nothing else is sent. *)
Theorem market_filters_are_sent_as_text :
  forall owner dseq gseq oseq provider state,
    let params := Params.market owner dseq gseq oseq provider state in
    let text v := option_map PStr v in
    let number v := option_map (fun n => PStr (Py.str_of_int n)) v in
    Py.dict_get "owner" params = text owner
    /\ Py.dict_get "dseq" params = number dseq
    /\ Py.dict_get "gseq" params = number gseq
    /\ Py.dict_get "oseq" params = number oseq
    /\ Py.dict_get "provider" params = text provider
    /\ Py.dict_get "state" params = text state
    /\ forall k, Py.dict_mem k params = true ->
                 In k ["owner"; "dseq"; "gseq"; "oseq"; "provider"; "state"].
Proof.
  intros owner dseq gseq oseq provider state params text number.
  subst params text number.
  destruct owner as [o|], dseq as [d|], gseq as [g|], oseq as [q|],
    provider as [p|], state as [s|];
    cbn [Params.market fold_left fst snd Params.of_str Params.of_int Py.dict_set
         String.eqb Ascii.eqb Bool.eqb Py.dict_get Py.str Py.repr option_map];
    (repeat split;
     intros k H; apply dict_mem_keys in H;
     cbn [map fst In] in *; intuition auto).
Qed.

(** X14.  The synchronous [health_check] answers [True] exactly when the
    [requests] package is missing, whatever the endpoint, or the node
    answers with a decodable body and a status outside 400 to 599. *)
Theorem health_check_true_iff :
  forall env self,
    Client.health_check env self = true <->
    Client.REQUESTS_AVAILABLE env = false
    \/ exists status v,
         Client.get env
           (Client.rest_endpoint self ++ "/akash/deployment/v1beta3/deployments")%string
           (Some [("limit", PStr "1")]) (Client.timeout self)
         = Responded status (Some v)
         /\ (status < 400 \/ 600 <= status).
Proof.
  intros env self. unfold Client.health_check, Client._make_rest_request.
  change (Client.request_url self "/akash/deployment/v1beta3/deployments")
    with (Client.rest_endpoint self ++ "/akash/deployment/v1beta3/deployments")%string.
  destruct (Client.REQUESTS_AVAILABLE env); cbn [negb].
  2:{ split; auto. }
  destruct (Client.get env _ _ _) as [|status [v|]] eqn:G.
  - unfold Client.rest_failed. split; [discriminate|].
    intros [H|(st & v & H & _)]; discriminate H.
  - destruct ((400 <=? status) && (status <? 600)) eqn:R.
    + unfold Client.rest_failed. split; [discriminate|].
      intros [H|(st & v' & H & Hr)]; [discriminate H|].
      injection H as <- <-. apply andb_true_iff in R. destruct R as [A B].
      apply Z.leb_le in A. apply Z.ltb_lt in B. lia.
    + split; auto. intros _. right. exists status, v. split; [reflexivity|].
      apply andb_false_iff in R. destruct R as [A|B];
        [apply Z.leb_gt in A|apply Z.ltb_ge in B]; lia.
  - split.
    + destruct ((400 <=? status) && (status <? 600));
        [|destruct (Client.json_error_is_request_exception env)];
        unfold Client.rest_failed; discriminate.
    + intros [H|(st & v & H & _)]; discriminate H.
Qed.

(* ------------------------------------------------------------------ *)
(** ** The gRPC client *)

(** X15.  [query_deployments] answers its placeholder when
    [max_retries] is at least 1, and [None] when it is 0 or negative,
    since the retry loop then has no round and the function ends without
    a [return]; the filters and the pagination play no part. *)
Theorem query_deployments_needs_one_attempt :
  forall self owner state key limit,
    fst (fst (Grpc.query_deployments self owner state key limit))
    = if 1 <=? Grpc.max_retries self
      then PDict [("deployments", PList []);
                  ("pagination", PDict [("next_key", PNone)])]
      else PNone.
Proof.
  intros self owner state key limit. unfold Grpc.query_deployments.
  destruct (Grpc._get_channel self) as [self' calls] eqn:E.
  cbn [fst Grpc.max_retries].
  assert (M : Grpc.max_retries self' = Grpc.max_retries self).
  { unfold Grpc._get_channel in E.
    destruct (Grpc._channel self); injection E as <- _; reflexivity. }
  rewrite M. unfold Grpc.range.
  destruct (1 <=? Grpc.max_retries self) eqn:L.
  - apply Z.leb_le in L.
    destruct (Z.to_nat (Grpc.max_retries self)) as [|n] eqn:N; [lia|reflexivity].
  - apply Z.leb_gt in L.
    replace (Z.to_nat (Grpc.max_retries self)) with 0%nat by lia. reflexivity.
Qed.

Lemma perform_query (c : Grpc.call) (self : Grpc.AkashGrpcClient) :
  c <> Grpc.Close ->
  Grpc._channel (fst (Grpc.perform c self)) = Grpc._channel (fst (Grpc._get_channel self))
  /\ snd (Grpc.perform c self) = snd (Grpc._get_channel self)
  /\ Grpc.credentials (fst (Grpc.perform c self)) = Grpc.credentials self
  /\ Grpc.endpoint (fst (Grpc.perform c self)) = Grpc.endpoint self.
Proof.
  intros Hc.
  destruct c; try (now elim Hc);
    cbn [Grpc.perform]; unfold Grpc.query_deployments, Grpc.query_bids,
      Grpc.query_leases, Grpc.query_market, Grpc.query_providers,
      Grpc.query_certificates, Grpc._get_channel;
    destruct (Grpc._channel self); repeat split; reflexivity.
Qed.

(** X16.  The channel is made on the first query and used again by the
    later ones: a sequence of queries of any kind, without [close],
    makes no call into the package when the client has a channel, and
    when it has none exactly one, which opens a secure channel if the
    client has credentials and an insecure one if not; afterwards the
    client holds that channel. *)
Theorem queries_share_one_channel :
  forall calls self,
    Forall (fun c => c <> Grpc.Close) calls ->
    calls <> [] ->
    let opened :=
      match Grpc.credentials self with
      | Some creds => Grpc.Secure (Grpc.endpoint self) creds
      | None => Grpc.Insecure (Grpc.endpoint self)
      end in
    match Grpc._channel self with
    | Some c =>
        snd (Grpc.run calls self) = []
        /\ Grpc._channel (fst (Grpc.run calls self)) = Some c
    | None =>
        snd (Grpc.run calls self) = [Grpc.Opened opened]
        /\ Grpc._channel (fst (Grpc.run calls self)) = Some opened
    end.
Proof.
  intros calls self Hq Hne opened.
  assert (G : forall calls self c,
             Forall (fun c => c <> Grpc.Close) calls ->
             Grpc._channel self = Some c ->
             snd (Grpc.run calls self) = []
             /\ Grpc._channel (fst (Grpc.run calls self)) = Some c).
  { clear. intros calls. induction calls as [|a calls IH]; intros self c Hq Hc.
    - split; [reflexivity|exact Hc].
    - inversion Hq as [|? ? Ha Hq']; subst.
      cbn [Grpc.run].
      destruct (perform_query a self Ha) as (P1 & P2 & _).
      destruct (Grpc.perform a self) as [self1 made].
      cbn [fst snd] in P1, P2.
      unfold Grpc._get_channel in P1, P2. rewrite Hc in P1, P2.
      cbn [fst snd] in P1, P2. rewrite Hc in P1. subst made.
      destruct (IH self1 c Hq' P1) as [I1 I2].
      destruct (Grpc.run calls self1) as [self2 later].
      cbn [fst snd] in *. subst later. split; [reflexivity|exact I2]. }
  destruct (Grpc._channel self) as [c|] eqn:Hc.
  - now apply G.
  - destruct calls as [|a calls]; [now elim Hne|].
    inversion Hq as [|? ? Ha Hq']; subst.
    cbn [Grpc.run].
    destruct (perform_query a self Ha) as (P1 & P2 & _).
    destruct (Grpc.perform a self) as [self1 made].
    cbn [fst snd] in P1, P2.
    unfold Grpc._get_channel in P1, P2. rewrite Hc in P1, P2.
    cbn [fst snd Grpc.with_channel Grpc._channel] in P1, P2. subst made.
    destruct (G calls self1 _ Hq' P1) as [I1 I2].
    destruct (Grpc.run calls self1) as [self2 later].
    cbn [fst snd] in *. subst later. split; [reflexivity|exact I2].
Qed.

Lemma queries_share_one_channel_witness :
  snd (Grpc.run GrpcSample.calls GrpcSample.client)
  = [Grpc.Opened (Grpc.Insecure "grpc.akash.network:9090")]
  /\ Grpc._channel (fst (Grpc.run GrpcSample.calls GrpcSample.client))
     = Some (Grpc.Insecure "grpc.akash.network:9090").
Proof.
  apply (queries_share_one_channel GrpcSample.calls GrpcSample.client).
  - repeat constructor; discriminate.
  - discriminate.
Defined.

(* ------------------------------------------------------------------ *)
(** ** The bytes that are signed *)

Lemma printable_app (a b : string) :
  Text.printable_ascii (a ++ b)
  = Text.printable_ascii a && Text.printable_ascii b.
Proof.
  unfold Text.printable_ascii, Text.all_chars.
  induction a as [|c a IH]; cbn [String.append list_ascii_of_string forallb];
    [reflexivity|].
  now rewrite IH, andb_assoc.
Qed.

Lemma escape_char_printable (c : ascii) :
  Text.printable_ascii (Json.escape_char c) = true.
Proof. destruct c as [[] [] [] [] [] [] [] []]; reflexivity. Qed.

Lemma escape_printable (s : string) : Text.printable_ascii (Json.escape s) = true.
Proof.
  induction s as [|c s IH]; cbn [Json.escape]; [reflexivity|].
  now rewrite printable_app, escape_char_printable, IH.
Qed.

Lemma quote_printable (s : string) : Text.printable_ascii (Json.quote s) = true.
Proof.
  unfold Json.quote.
  change (String Py.dquote (Json.escape s))
    with (Py.str1 Py.dquote ++ Json.escape s)%string.
  now rewrite !printable_app, escape_printable.
Qed.

Lemma plain_printable (s : string) : plain s = true -> Text.printable_ascii s = true.
Proof.
  unfold Text.printable_ascii, Text.all_chars.
  induction s as [|c s IH]; cbn [plain list_ascii_of_string forallb]; [reflexivity|].
  unfold plain_char. rewrite !andb_true_iff. intros [[[Hc _] _] Hs].
  now rewrite Hc, IH.
Qed.

Lemma join_printable (sep : string) (parts : list string) :
  Text.printable_ascii sep = true ->
  Forall (fun p => Text.printable_ascii p = true) parts ->
  Text.printable_ascii (Py.join sep parts) = true.
Proof.
  intros Hs. induction 1 as [|p parts Hp Hr IH]; [reflexivity|].
  cbn [Py.join]. destruct parts as [|q parts]; [exact Hp|].
  now rewrite !printable_app, Hp, Hs, IH.
Qed.

Lemma insert_item_Forall {A : Type} (P : string * A -> Prop) kv l :
  P kv -> Forall P l -> Forall P (Json.insert_item kv l).
Proof.
  intros Hk. induction 1 as [|x l Hx Hl IH]; cbn [Json.insert_item].
  - constructor; [exact Hk|constructor].
  - destruct (String.leb (fst kv) (fst x)); constructor; auto.
Qed.

Lemma sort_items_Forall {A : Type} (P : string * A -> Prop) l :
  Forall P l -> Forall P (Json.sort_items l).
Proof.
  induction 1 as [|x l Hx Hl IH]; cbn [Json.sort_items]; [constructor|].
  now apply insert_item_Forall.
Qed.

Lemma text_printable (sort_keys : bool) (isep ksep : string) (v : pyval) :
  Text.printable_ascii isep = true ->
  Text.printable_ascii ksep = true ->
  Text.printable_ascii (Json.text sort_keys isep ksep v) = true.
Proof.
  intros Hi Hk. induction v using pyval_ind; cbn [Json.text].
  - reflexivity.
  - destruct b; reflexivity.
  - apply plain_printable, plain_str_of_int.
  - apply quote_printable.
  - reflexivity.
  - rewrite !printable_app. rewrite join_printable; [reflexivity|exact Hi|].
    apply Forall_map. exact H.
  - rewrite !printable_app. rewrite join_printable; [reflexivity|exact Hi|].
    apply Forall_map.
    assert (F : Forall (fun kt : string * string => Text.printable_ascii (snd kt) = true)
                       (map (fun kv => (fst kv, Json.text sort_keys isep ksep (snd kv))) d)).
    { apply Forall_map. exact H. }
    assert (G : forall items : list (string * string),
               Forall (fun kt => Text.printable_ascii (snd kt) = true) items ->
               Forall (fun kt => Text.printable_ascii
                                   (Json.quote (fst kt) ++ ksep ++ snd kt) = true) items).
    { intros items Fi. eapply Forall_impl; [|exact Fi].
      intros kt Hkt. cbv beta. now rewrite !printable_app, quote_printable, Hk, Hkt. }
    destruct sort_keys; apply G; [apply sort_items_Forall|]; exact F.
Qed.

Lemma encode_printable (s : string) :
  Text.printable_ascii s = true ->
  Forall (fun x => 32 <= Sha256.byte_val x <= 126) (Py.encode s)
  /\ List.length (Py.encode s) = String.length s.
Proof.
  unfold Text.printable_ascii, Text.all_chars.
  induction s as [|c s IH]; cbn [list_ascii_of_string forallb Py.encode String.length].
  - intros _. split; [constructor|reflexivity].
  - rewrite andb_true_iff. intros [Hc Hs]. destruct (IH Hs) as [F L].
    assert (E : exists x, Py.encode_char c = [x] /\ 32 <= Sha256.byte_val x <= 126).
    { destruct c as [[] [] [] [] [] [] [] []]; try discriminate Hc;
        (eexists; split; [reflexivity|vm_compute; split; discriminate]). }
    destruct E as (x & -> & Hx). cbn [app List.length].
    split; [constructor; assumption|now rewrite L].
Qed.

(** X19.  The bytes [_encode_body] and [_encode_auth_info] hand to the
    signer are printable ASCII, one byte for each character of the JSON
    text, whatever characters the memo, the messages or the SDL hold:
    [json.dumps] escapes the others. *)
Theorem encoded_bytes_are_printable_ascii :
  forall self obj bytes,
    _encode_body self obj = Ok bytes ->
    _encode_auth_info self obj = Ok bytes
    /\ Forall (fun x => 32 <= Sha256.byte_val x <= 126) bytes
    /\ exists t, Json.dumps true obj = Ok t
                 /\ List.length bytes = String.length t.
Proof.
  intros self obj bytes H. split; [exact H|].
  unfold _encode_body in H. apply bind_ok in H. destruct H as (t & Et & H).
  injection H as <-.
  assert (P : Text.printable_ascii t = true).
  { unfold Json.dumps, Json.dumps_with in Et.
    destruct (Json.serializable obj); [|discriminate].
    injection Et as <-. now apply text_printable. }
  destruct (encode_printable t P) as [F L].
  split; [exact F|]. exists t. split; [exact Et|exact L].
Qed.

Lemma encoded_bytes_are_printable_ascii_witness :
  exists bytes,
    _encode_body Scenario.signer (PDict [("memo", PStr (String "233"%char EmptyString))]) = Ok bytes
    /\ _encode_auth_info Scenario.signer (PDict [("memo", PStr (String "233"%char EmptyString))]) = Ok bytes
    /\ Forall (fun x => 32 <= Sha256.byte_val x <= 126) bytes
    /\ exists t, Json.dumps true (PDict [("memo", PStr (String "233"%char EmptyString))]) = Ok t
                 /\ List.length bytes = String.length t.
Proof.
  eexists. split; [vm_compute; reflexivity|].
  apply (encoded_bytes_are_printable_ascii Scenario.signer).
  vm_compute. reflexivity.
Defined.

(* ------------------------------------------------------------------ *)
(** ** The fee at the default gas price *)

Lemma shr_1_half mrs : 0 <= shr_m mrs -> shr_m (shr_1 mrs) = shr_m mrs / 2.
Proof.
  destruct mrs as [m r s]. cbn [shr_m]. intros Hm.
  destruct m as [|[p|p|]|p]; cbn [shr_1 shr_m]; try lia; try reflexivity.
  - rewrite (Pos2Z.inj_xI p). apply Z.div_unique with 1; lia.
  - rewrite (Pos2Z.inj_xO p). apply Z.div_unique with 0; lia.
Qed.

Lemma iter_shr_1_quotient p : forall mrs,
  0 <= shr_m mrs ->
  shr_m (iter_pos shr_1 p mrs) = shr_m mrs / 2 ^ Zpos p.
Proof.
  induction p as [p IH|p IH|]; intros mrs Hm; cbn [iter_pos].
  - destruct (shr_1_m mrs Hm) as [H1 _].
    destruct (iter_shr_1_m p _ H1) as [H2 _].
    rewrite IH, IH, shr_1_half by assumption.
    assert (Hp : 0 < 2 ^ Zpos p) by (apply Z.pow_pos_nonneg; lia).
    rewrite !Z.div_div by lia. f_equal.
    rewrite (Pos2Z.inj_xI p).
    replace (2 * Zpos p + 1) with (1 + Zpos p + Zpos p) by lia.
    rewrite !Z.pow_add_r by lia. change (2 ^ 1) with 2. ring.
  - destruct (iter_shr_1_m p _ Hm) as [H2 _].
    rewrite IH, IH by assumption.
    assert (Hp : 0 < 2 ^ Zpos p) by (apply Z.pow_pos_nonneg; lia).
    rewrite !Z.div_div by lia. f_equal.
    rewrite (Pos2Z.inj_xO p).
    replace (2 * Zpos p) with (Zpos p + Zpos p) by lia.
    rewrite Z.pow_add_r by lia. reflexivity.
  - rewrite shr_1_half by assumption. reflexivity.
Qed.

Lemma digits2_pos_exact (m : positive) (d : Z) :
  0 < d -> 2 ^ (d - 1) <= Zpos m < 2 ^ d -> Zpos (digits2_pos m) = d.
Proof.
  intros Hd [Hlo Hhi].
  pose proof (digits2_pos_bounds m) as [Blo Bhi].
  assert (U : Zpos (digits2_pos m) <= d) by (apply digits2_pos_le; lia).
  destruct (Z.eq_dec (Zpos (digits2_pos m)) d) as [E|N]; [exact E|exfalso].
  assert (2 ^ Zpos (digits2_pos m) <= 2 ^ (d - 1)) by (apply Z.pow_le_mono_r; lia).
  lia.
Qed.

(** A mantissa of 53 bits with an exponent in range is its own rounding. *)
Lemma binary_round_aux_normal (s : bool) (m : positive) (e : Z) :
  Zpos (digits2_pos m) = 53 -> -1074 <= e <= 971 ->
  binary_round_aux PyFloat.prec PyFloat.emax s (Zpos m) e loc_Exact
  = S754_finite s m e.
Proof.
  intros Hd He. unfold binary_round_aux, shr_fexp. cbn [Zdigits2].
  rewrite Hd.
  replace (fexp PyFloat.prec PyFloat.emax (53 + e) - e) with 0
    by (unfold fexp, emin, PyFloat.prec, PyFloat.emax; lia).
  cbn [shr shr_record_of_loc shr_m loc_of_shr_record round_nearest_even Zdigits2].
  rewrite Hd.
  replace (fexp PyFloat.prec PyFloat.emax (53 + e) - e) with 0
    by (unfold fexp, emin, PyFloat.prec, PyFloat.emax; lia).
  cbn [shr shr_m].
  replace (e <=? PyFloat.emax - PyFloat.prec) with true; [reflexivity|].
  symmetry. apply Z.leb_le. unfold PyFloat.prec, PyFloat.emax. lia.
Qed.

(** The rounding of a mantissa of more than 53 bits: the quotient by the
    power of two that leaves 53 bits, or its successor. *)
Lemma binary_round_aux_long (m : positive) (e : Z) :
  let d := Zpos (digits2_pos m) in
  53 < d -> -1074 <= d + e - 53 -> d + e - 53 + 1 <= 971 ->
  exists m' e' r,
    binary_round_aux PyFloat.prec PyFloat.emax false (Zpos m) e loc_Exact
    = S754_finite false m' e'
    /\ Zpos m / 2 ^ (d - 53) <= r <= Zpos m / 2 ^ (d - 53) + 1
    /\ ((Zpos m' = r /\ e' = e + (d - 53))
        \/ (2 * Zpos m' = r /\ e' = e + (d - 53) + 1)).
Proof.
  intros d Hd Hlo Hhi. unfold binary_round_aux, shr_fexp. cbn [Zdigits2]. fold d.
  assert (Hn : fexp PyFloat.prec PyFloat.emax (d + e) - e = d - 53)
    by (unfold fexp, emin, PyFloat.prec, PyFloat.emax; lia).
  rewrite Hn.
  destruct (d - 53) as [|p|p] eqn:Ep; try lia.
  cbn [shr].
  set (mrs := iter_pos shr_1 p (shr_record_of_loc (Zpos m) loc_Exact)).
  assert (Hq : shr_m mrs = Zpos m / 2 ^ Zpos p).
  { unfold mrs. rewrite iter_shr_1_quotient; cbn [shr_record_of_loc shr_m]; [reflexivity|lia]. }
  pose proof (digits2_pos_bounds m) as [Blo Bhi]. fold d in Blo, Bhi.
  assert (Hpp : 0 < 2 ^ Zpos p) by (apply Z.pow_pos_nonneg; lia).
  assert (Hsplit : 2 ^ d = 2 ^ 53 * 2 ^ Zpos p).
  { rewrite <- Z.pow_add_r by lia. f_equal. lia. }
  assert (Hsplit' : 2 ^ (d - 1) = 2 ^ 52 * 2 ^ Zpos p).
  { rewrite <- Z.pow_add_r by lia. f_equal. lia. }
  assert (Hm1 : 2 ^ 52 <= shr_m mrs < 2 ^ 53).
  { rewrite Hq. split.
    - apply Z.div_le_lower_bound; lia.
    - apply Z.div_lt_upper_bound; lia. }
  set (r := round_nearest_even (shr_m mrs) (loc_of_shr_record mrs)).
  pose proof (round_nearest_even_range (shr_m mrs) (loc_of_shr_record mrs)
                ltac:(lia)) as Hr.
  fold r in Hr.
  destruct (Z_lt_le_dec r (2 ^ 53)) as [Hlt|Hge].
  - destruct r as [|rp|rp] eqn:Er; try lia.
    assert (Dr : Zpos (digits2_pos rp) = 53)
      by (apply digits2_pos_exact; [lia|change (53 - 1) with 52; lia]).
    cbn [Zdigits2]. rewrite Dr.
    replace (fexp PyFloat.prec PyFloat.emax (53 + (e + Zpos p)) - (e + Zpos p)) with 0
      by (unfold fexp, emin, PyFloat.prec, PyFloat.emax; lia).
    cbn [shr shr_record_of_loc shr_m].
    replace (e + Zpos p <=? PyFloat.emax - PyFloat.prec) with true
      by (symmetry; apply Z.leb_le; unfold PyFloat.prec, PyFloat.emax; lia).
    exists rp, (e + Zpos p), (Zpos rp). split; [reflexivity|].
    split; [rewrite <- Hq; lia|]. left. split; reflexivity.
  - assert (Er : r = 9007199254740992) by (change (2 ^ 53) with 9007199254740992 in *; lia).
    rewrite Er. cbn [Zdigits2 digits2_pos Pos.succ].
    replace (fexp PyFloat.prec PyFloat.emax (54 + (e + Zpos p)) - (e + Zpos p)) with 1
      by (unfold fexp, emin, PyFloat.prec, PyFloat.emax; lia).
    cbn [shr iter_pos shr_record_of_loc shr_1 shr_m].
    replace (e + Zpos p + 1 <=? PyFloat.emax - PyFloat.prec) with true
      by (symmetry; apply Z.leb_le; unfold PyFloat.prec, PyFloat.emax; lia).
    exists 4503599627370496%positive, (e + Zpos p + 1), 9007199254740992.
    split; [reflexivity|].
    split; [rewrite <- Hq; lia|]. right. split; reflexivity.
Qed.

Lemma iter_xO_value (q p : positive) :
  Zpos (Pos.iter xO p q) = Zpos p * 2 ^ Zpos q.
Proof.
  induction q as [|q IH] using Pos.peano_ind.
  - cbn [Pos.iter]. rewrite (Pos2Z.inj_xO p). change (2 ^ 1) with 2. lia.
  - rewrite Pos.iter_succ, (Pos2Z.inj_xO (Pos.iter xO p q)), IH.
    rewrite Pos2Z.inj_succ, Z.pow_succ_r by lia. ring.
Qed.

(** An [int] from 1 to [2^53 - 1] is converted to a float exactly: 53
    bits of mantissa, the number shifted left, and the exponent that
    undoes the shift. *)
Lemma of_int_normal (g : Z) :
  0 < g < 2 ^ 53 ->
  exists mg k,
    PyFloat.of_int g = Ok (S754_finite false mg (- k))
    /\ 0 <= k <= 52
    /\ Zpos mg = g * 2 ^ k
    /\ 2 ^ 52 <= Zpos mg < 2 ^ 53.
Proof.
  intros Hg. destruct g as [|p|p]; try lia.
  unfold PyFloat.of_int, binary_normalize, binary_round, shl_align.
  pose proof (digits2_pos_bounds p) as [Blo Bhi].
  set (d := Zpos (digits2_pos p)) in *.
  assert (Hd : 1 <= d <= 53).
  { split; [unfold d; lia|apply digits2_pos_le; lia]. }
  assert (Hf : fexp PyFloat.prec PyFloat.emax (d + 0) = d - 53)
    by (unfold fexp, emin, PyFloat.prec, PyFloat.emax; lia).
  rewrite Hf.
  destruct (d - 53 - 0) as [|q|q] eqn:Eq; try lia.
  - assert (Ed : d = 53) by lia.
    rewrite binary_round_aux_normal by (fold d; lia).
    exists p, 0. split; [reflexivity|]. split; [lia|].
    split; [change (2 ^ 0) with 1; lia|]. rewrite Ed in Blo. change (53 - 1) with 52 in Blo.
    rewrite Ed in Bhi. lia.
  - assert (Dz : Zpos (digits2_pos (Pos.iter xO p q)) = 53).
    { rewrite digits2_pos_iter_xO. fold d. lia. }
    rewrite binary_round_aux_normal by (try exact Dz; lia).
    exists (Pos.iter xO p q), (Zpos q).
    replace (d - 53) with (- Zpos q) by lia.
    split; [reflexivity|]. split; [lia|]. split; [apply iter_xO_value|].
    pose proof (digits2_pos_bounds (Pos.iter xO p q)) as [Clo Chi].
    rewrite Dz in Clo, Chi. change (53 - 1) with 52 in Clo. lia.
Qed.

(** The arithmetic of the rounded product: with 40 times the mantissa of
    the price equal to [2^58 + 16], a quotient of the exact product, or
    its successor, still has the integer part of a fortieth of the gas
    limit. *)
Lemma fortieth_of_rounded_product (g k n mg r : Z) :
  0 < g < 2 ^ 52 ->
  0 <= k ->
  52 <= n <= 53 ->
  mg = g * 2 ^ k ->
  2 ^ 52 <= mg < 2 ^ 53 ->
  (7205759403792794 * mg) / 2 ^ n <= r <= (7205759403792794 * mg) / 2 ^ n + 1 ->
  r / 2 ^ (58 + k - n) = g / 40.
Proof.
  intros Hg Hk Hn Emg Rmg Hr.
  set (M := 7205759403792794 * mg) in *.
  set (q := M / 2 ^ n) in *.
  set (P := 2 ^ (58 + k - n)).
  set (Q := 2 ^ n) in *.
  set (S := 2 ^ k) in *.
  set (K := g / 40).
  assert (HP : 0 < P) by (apply Z.pow_pos_nonneg; lia).
  assert (HQ : 0 < Q) by (apply Z.pow_pos_nonneg; lia).
  assert (HS : 0 < S) by (apply Z.pow_pos_nonneg; lia).
  assert (HPQ : P * Q = 288230376151711744 * S).
  { unfold P, Q, S. rewrite <- Z.pow_add_r by lia.
    replace (58 + k - n + n) with (58 + k) by lia.
    rewrite Z.pow_add_r by lia. reflexivity. }
  assert (HQ53 : Q <= 9007199254740992).
  { unfold Q. change 9007199254740992 with (2 ^ 53). apply Z.pow_le_mono_r; lia. }
  assert (HK : 40 * K <= g < 40 * K + 40).
  { unfold K. pose proof (Z.div_mod g 40 ltac:(lia)).
    pose proof (Z.mod_pos_bound g 40 ltac:(lia)). lia. }
  assert (HK0 : 0 <= K) by (unfold K; apply Z.div_pos; lia).
  assert (Hq : Q * q <= M < Q * q + Q).
  { unfold q. pose proof (Z.div_mod M Q ltac:(lia)).
    pose proof (Z.mod_pos_bound M Q HQ). lia. }
  change (2 ^ 52) with 4503599627370496 in *.
  change (2 ^ 53) with 9007199254740992 in *.
  assert (HS2 : 2 <= S).
  { destruct (Z_le_gt_dec 2 S) as [H|H]; [exact H|exfalso].
    assert (S = 1) by lia. nia. }
  assert (E40 : 40 * M = 288230376151711744 * (g * S) + 16 * (g * S)).
  { unfold M. rewrite Emg. ring. }
  assert (Lo : K * P <= q).
  { destruct (Z_le_gt_dec (K * P) q) as [H|H]; [exact H|exfalso].
    assert (H1 : Q * (q + 1) <= Q * (K * P)) by (apply Z.mul_le_mono_nonneg_l; lia).
    assert (H2 : Q * (K * P) = K * (288230376151711744 * S)) by (rewrite <- HPQ; ring).
    assert (H3 : 40 * K * S <= g * S) by (apply Z.mul_le_mono_nonneg_r; lia).
    nia. }
  assert (Hi : q + 2 <= (K + 1) * P).
  { destruct (Z_le_gt_dec (q + 2) ((K + 1) * P)) as [H|H]; [exact H|exfalso].
    assert (H1 : Q * ((K + 1) * P) <= Q * (q + 1)) by (apply Z.mul_le_mono_nonneg_l; lia).
    assert (H2 : Q * ((K + 1) * P) = (K + 1) * (288230376151711744 * S))
      by (rewrite <- HPQ; ring).
    assert (H3 : (g + 1) * S <= 40 * (K + 1) * S) by (apply Z.mul_le_mono_nonneg_r; lia).
    assert (H4 : g * S < 9007199254740992) by lia.
    nia. }
  symmetry. apply Z.div_unique with (r - K * P); [left; nia|ring].
Qed.

Lemma default_gas_amount_value self g :
  self_gas_price self = default_gas_price ->
  0 <= g < 2 ^ 52 ->
  gas_amount self g = Ok (g / 40).
Proof.
  intros Hp Hg. unfold gas_amount. rewrite Hp, default_price_float. cbn [bind].
  destruct (Z.eq_dec g 0) as [->|Hn]; [reflexivity|].
  destruct (of_int_normal g) as (mg & k & -> & Hk & Emg & Rmg).
  { change (2 ^ 53) with (2 * 2 ^ 52). lia. }
  cbn [bind]. unfold PyFloat.mul. cbn [SFmul xorb].
  set (M := (7205759403792794 * mg)%positive).
  assert (EM : Zpos M = 7205759403792794 * Zpos mg) by (unfold M; apply Pos2Z.inj_mul).
  pose proof (digits2_pos_bounds M) as [Blo Bhi].
  set (d := Zpos (digits2_pos M)) in *.
  assert (Hd : 105 <= d <= 106).
  { split.
    - destruct (Z_le_gt_dec 105 d) as [H|H]; [exact H|exfalso].
      assert (2 ^ d <= 2 ^ 104) by (apply Z.pow_le_mono_r; unfold d; lia).
      change (2 ^ 104) with (2 ^ 52 * 2 ^ 52) in *.
      change (2 ^ 52) with 4503599627370496 in *. nia.
    - apply digits2_pos_le; [lia|].
      change (2 ^ 106) with (2 ^ 53 * 2 ^ 53).
      change (2 ^ 53) with 9007199254740992 in *. nia. }
  destruct (binary_round_aux_long M (-58 + - k)) as (m' & e' & r & -> & Hr & He);
    try (fold d; lia).
  fold d in Hr, He. cbn [PyFloat.to_int].
  assert (Hq : r / 2 ^ (58 + k - (d - 53)) = g / 40).
  { apply (fortieth_of_rounded_product g k (d - 53) (Zpos mg) r); try lia.
    rewrite <- EM. exact Hr. }
  assert (Hr0 : 0 <= r).
  { destruct Hr as [Hr _]. eapply Z.le_trans; [|exact Hr].
    apply Z.div_pos; [lia|apply Z.pow_pos_nonneg; lia]. }
  destruct He as [[Er Ee]|[Er Ee]].
  - replace (0 <=? e') with false by (symmetry; apply Z.leb_gt; lia).
    rewrite Er. replace (- e') with (58 + k - (d - 53)) by lia.
    now rewrite Hq.
  - replace (0 <=? e') with false by (symmetry; apply Z.leb_gt; lia).
    remember (58 + k - (d - 53) - 1) as N1 eqn:EN.
    replace (- e') with N1 by lia.
    replace (58 + k - (d - 53)) with (1 + N1) in Hq by lia.
    rewrite <- Hq, <- Er.
    rewrite Z.pow_add_r by lia. change (2 ^ 1) with 2.
    rewrite Z.div_mul_cancel_l; [reflexivity| |lia].
    apply Z.pow_nonzero; lia.
Qed.

(** X21.  At the default gas price the fee of [create_transaction] is
    the integer part of a fortieth of the gas limit, for every gas limit
    from 0 up to [2^52 - 1]: the price 0.025 is read as a double a
    little above one fortieth, the product is rounded to a double, and
    [int] cuts it, and none of the three steps moves the result across
    an integer. *)
Theorem default_fee_is_a_fortieth :
  forall self w msgs ti g,
    self_gas_price self = default_gas_price ->
    0 <= g < 2 ^ 52 ->
    gas_amount self g = Ok (g / 40)
    /\ (tx <- create_transaction self w msgs ti g ;; fee_amount_of tx)
       = Ok (PStr (Py.str_of_int (g / 40))).
Proof.
  intros self w msgs ti g Hp Hg.
  pose proof (default_gas_amount_value self g Hp Hg) as Ha.
  split; [exact Ha|].
  rewrite (create_transaction_ok self w msgs ti g _ Ha). reflexivity.
Qed.

Lemma default_fee_is_a_fortieth_witness :
  gas_amount Scenario.signer 300000 = Ok (300000 / 40)
  /\ (tx <- create_transaction Scenario.signer Scenario.wallet [] Scenario.tx_info 300000 ;;
      fee_amount_of tx)
     = Ok (PStr (Py.str_of_int (300000 / 40))).
Proof.
  apply (default_fee_is_a_fortieth Scenario.signer Scenario.wallet [] Scenario.tx_info 300000).
  - reflexivity.
  - vm_compute. split; [discriminate|reflexivity].
Defined.
